(** * Deltalytix: the AI chat pipeline

    A shallow embedding of the provider settings store
    ([src/server/ai-settings.ts]), the model resolver
    ([@/lib/ai/user-model]), the secret codec ([src/lib/ai/secrets.ts])
    and the chat route ([src/app/api/ai/chat/route.ts]), with the
    properties the specification states about them.

    JavaScript strings are sequences of UTF-16 code units, values are the
    JSON-shaped values a request body or a database column can hold, and
    a call that can throw returns an [Outcome]. *)

From Stdlib Require Import ZArith NArith List String Ascii Strings.Byte DecimalString Bool Lia Permutation Sorted.
From stdpp Require Import gmap list.
Import ListNotations.

Local Open Scope N_scope.
Local Open Scope list_scope.

(** ** JavaScript strings *)

Module JsString.

(** A string is its sequence of UTF-16 code units. *)
Abbreviation code_unit := N (only parsing).
Abbreviation jsstring := (list N) (only parsing).

(** A source literal (ASCII) as a JavaScript string. *)
Fixpoint lit (s : string) : jsstring :=
  match s with
  | EmptyString => []
  | String a s' => N_of_ascii a :: lit s'
  end.

Arguments lit : simpl never.

Fixpoint str_eqb (a b : jsstring) : bool :=
  match a, b with
  | [], [] => true
  | x :: a', y :: b' => (x =? y) && str_eqb a' b'
  | _, _ => false
  end.

(** ECMAScript's WhiteSpace and LineTerminator code points, the ones
    [String.prototype.trim] strips. *)
Definition isWhiteSpace (c : code_unit) : bool :=
  ((9 <=? c) && (c <=? 13)) || (c =? 32) || (c =? 160) || (c =? 5760)
  || ((8192 <=? c) && (c <=? 8202)) || (c =? 8232) || (c =? 8233)
  || (c =? 8239) || (c =? 8287) || (c =? 12288) || (c =? 65279).

Fixpoint trimStart (s : jsstring) : jsstring :=
  match s with
  | [] => []
  | c :: s' => if isWhiteSpace c then trimStart s' else s
  end.

Definition trimEnd (s : jsstring) : jsstring := rev (trimStart (rev s)).

(** [s.trim()] *)
Definition trim (s : jsstring) : jsstring := trimEnd (trimStart s).

(** [s.startsWith(p)] *)
Fixpoint startsWith (s p : jsstring) : bool :=
  match p, s with
  | [], _ => true
  | _ :: _, [] => false
  | y :: p', x :: s' => (x =? y) && startsWith s' p'
  end.

(** [s.endsWith(p)] *)
Definition endsWith (s p : jsstring) : bool := startsWith (rev s) (rev p).

(** [s.includes(p)] *)
Fixpoint includes (s p : jsstring) : bool :=
  startsWith s p ||
  match s with
  | [] => false
  | _ :: s' => includes s' p
  end.

(** [s.slice(0, -1)] *)
Definition dropLast (s : jsstring) : jsstring := removelast s.

(** A string is truthy when it is not empty. *)
Definition truthy (s : jsstring) : bool :=
  match s with [] => false | _ :: _ => true end.

End JsString.
Export JsString.

(** ** JavaScript values *)

Module Js.

(** The values of type [unknown] the code inspects: what [JSON.parse]
    can produce, plus [undefined]. An object is its list of own
    properties in insertion order. *)
#[local] Unset Elimination Schemes.
Inductive JsValue : Type :=
| JUndefined
| JNull
| JBool (b : bool)
| JNum (n : Z)
| JStr (s : jsstring)
| JArr (items : list JsValue)
| JObj (props : list (jsstring * JsValue)).
#[local] Set Elimination Schemes.

Fixpoint lookupProp (props : list (jsstring * JsValue)) (k : jsstring) : JsValue :=
  match props with
  | [] => JUndefined
  | (k', v) :: rest => if str_eqb k' k then v else lookupProp rest k
  end.

(** [v[k]] for one of the named keys the code reads: the own property
    of an object, [undefined] on an array or a primitive, which have
    none of them. *)
Definition get (v : JsValue) (k : jsstring) : JsValue :=
  match v with
  | JObj props => lookupProp props k
  | _ => JUndefined
  end.

(** [a ?? b] *)
Definition nullish (a b : JsValue) : JsValue :=
  match a with
  | JUndefined | JNull => b
  | _ => a
  end.

(** [v === 'k'] for a string literal. *)
Definition isStr (v : JsValue) (k : jsstring) : bool :=
  match v with
  | JStr s => str_eqb s k
  | _ => false
  end.

(** A call that can throw: the value returned, or the value thrown. *)
Inductive Outcome (A E : Type) : Type :=
| Returned (a : A)
| Thrown (e : E).
Arguments Returned {A E} a.
Arguments Thrown {A E} e.

End Js.
Export Js.

(** ** The secret codec ([src/lib/ai/secrets.ts]) *)

Module Secrets.

Abbreviation bytes := (list byte) (only parsing).

(** What the codec takes from Node: [crypto.createHash('sha256')], the
    [aes-256-gcm] cipher and decipher of [node:crypto], and [Buffer]'s
    [utf8] and [base64] encodings. The decipher answers [None] when
    [createDecipheriv], [setAuthTag] or [final] throws (an unusable
    nonce or tag, or a tag that does not authenticate the data). *)
Record Platform : Type := {
  sha256 : bytes -> bytes;
  utf8_encode : jsstring -> bytes;
  utf8_decode : bytes -> jsstring;
  base64_encode : bytes -> jsstring;
  base64_decode : jsstring -> bytes;
  gcm_encrypt : bytes -> bytes -> bytes -> bytes * bytes;
  gcm_decrypt : bytes -> bytes -> bytes -> bytes -> option bytes
}.

Inductive SecretError : Type :=
| MissingEncryptionKey   (* 'Missing ENCRYPTION_KEY (required to ...)' *)
| InvalidPayload         (* 'Invalid encrypted secret payload' *)
| DecipherFailure.       (* thrown by the decipher *)

(** [s.split('.')]: the segments between the separators, at least one. *)
Fixpoint split (sep : code_unit) (s : jsstring) : list jsstring :=
  match s with
  | [] => [[]]
  | c :: s' =>
      if c =? sep then [] :: split sep s'
      else match split sep s' with
           | seg :: rest => (c :: seg) :: rest
           | [] => [[c]]
           end
  end.

Definition dot : code_unit := 46.

(** [!seg] for a destructured segment: missing or empty. *)
Definition missing (seg : option jsstring) : bool :=
  match seg with
  | Some s => negb (truthy s)
  | None => true
  end.

Section WithPlatform.
Context (P : Platform).
(** [process.env.ENCRYPTION_KEY] *)
Context (ENCRYPTION_KEY : option jsstring).

Definition getKey : Outcome bytes SecretError :=
  match ENCRYPTION_KEY with
  | Some raw =>
      if negb (truthy raw) then Thrown MissingEncryptionKey
      else Returned (sha256 P (utf8_encode P raw))
  | None => Thrown MissingEncryptionKey
  end.

(** [iv] is the value [crypto.randomBytes(12)] returns in this call. *)
Definition encryptSecret (iv : bytes) (plaintext : jsstring) : Outcome jsstring SecretError :=
  match getKey with
  | Thrown e => Thrown e
  | Returned key =>
      let (ciphertext, tag) := gcm_encrypt P key iv (utf8_encode P plaintext) in
      Returned (base64_encode P iv ++ [dot] ++ base64_encode P tag
                  ++ [dot] ++ base64_encode P ciphertext)
  end.

Definition decryptSecret (payload : jsstring) : Outcome jsstring SecretError :=
  match getKey with
  | Thrown e => Thrown e
  | Returned key =>
      let segments := split dot payload in
      let ivB64 := segments !! 0%nat in
      let tagB64 := segments !! 1%nat in
      let ciphertextB64 := segments !! 2%nat in
      if missing ivB64 || missing tagB64 || missing ciphertextB64
      then Thrown InvalidPayload
      else
        let iv := base64_decode P (default [] ivB64) in
        let tag := base64_decode P (default [] tagB64) in
        let ciphertext := base64_decode P (default [] ciphertextB64) in
        match gcm_decrypt P key iv tag ciphertext with
        | Some plaintext => Returned (utf8_decode P plaintext)
        | None => Thrown DecipherFailure
        end
  end.

End WithPlatform.

(** [process.env.ENCRYPTION_KEY] is set and not empty. *)
Definition keyConfigured (ENCRYPTION_KEY : option jsstring) : bool :=
  match ENCRYPTION_KEY with
  | Some raw => truthy raw
  | None => false
  end.

(** What [decryptSecret] does with the three segments it keeps. *)
Definition decipher (P : Platform) (key : bytes) (ivB64 tagB64 ciphertextB64 : jsstring)
  : Outcome jsstring SecretError :=
  match gcm_decrypt P key (base64_decode P ivB64) (base64_decode P tagB64)
          (base64_decode P ciphertextB64) with
  | Some plaintext => Returned (utf8_decode P plaintext)
  | None => Thrown DecipherFailure
  end.

(** A string without the separator. *)
Definition noDot (s : jsstring) : bool := forallb (fun c => negb (c =? dot)) s.

(** The token splits into at least three segments and the first three
    are not empty: what [decryptSecret] checks. *)
Definition firstThreePresent (payload : jsstring) : bool :=
  match split dot payload with
  | a :: b :: c :: _ => truthy a && truthy b && truthy c
  | _ => false
  end.

(** The token splits into exactly three segments, none of them empty. *)
Definition exactlyThreePresent (payload : jsstring) : bool :=
  match split dot payload with
  | [a; b; c] => truthy a && truthy b && truthy c
  | _ => false
  end.

(** What one call of [encryptSecret] relies on from the platform, for
    the key [raw], the nonce [iv] and the text [x]: the text survives
    its UTF-8 encoding, the decipher returns what the cipher was given,
    and base64 can be decoded back, has no ['.'] and turns the nonce,
    the tag and the ciphertext of a non-empty text into non-empty
    segments. *)
Record CallLaws (P : Platform) (raw : jsstring) (iv : bytes) (x : jsstring) : Prop := {
  utf8_back : utf8_decode P (utf8_encode P x) = x;
  gcm_back :
    let key := sha256 P (utf8_encode P raw) in
    let sealed := gcm_encrypt P key iv (utf8_encode P x) in
    gcm_decrypt P key iv sealed.2 sealed.1 = Some (utf8_encode P x);
  base64_back :
    let key := sha256 P (utf8_encode P raw) in
    let sealed := gcm_encrypt P key iv (utf8_encode P x) in
    Forall (fun b => base64_decode P (base64_encode P b) = b
                     /\ noDot (base64_encode P b) = true)
           [iv; sealed.2; sealed.1];
  segments_present :
    let key := sha256 P (utf8_encode P raw) in
    let sealed := gcm_encrypt P key iv (utf8_encode P x) in
    x <> [] ->
    Forall (fun b => truthy (base64_encode P b) = true) [iv; sealed.2; sealed.1]
}.


(** *** An instance of the platform, to run the examples

    Text is encoded one byte per ASCII code unit (anything else as [?]),
    base64 is RFC 4648 with Node's forgiving decoder (characters outside
    the alphabet are skipped, [=] ends the input, leftover bits are
    dropped), and the cipher is a keyed XOR whose tag is a checksum of
    key, nonce and ciphertext. *)
Module Example.

Definition byteOf (n : N) : byte := default x00 (Byte.of_N (n mod 256)).

Definition utf8_encode (s : jsstring) : bytes :=
  (fun c => if c <? 128 then byteOf c else byteOf 63) <$> s.

Definition utf8_decode (b : bytes) : jsstring := Byte.to_N <$> b.

Definition b64char (i : N) : code_unit :=
  if i <? 26 then 65 + i
  else if i <? 52 then 71 + i
  else if i <? 62 then i - 4
  else if i =? 62 then 43 else 47.

Definition b64index (c : code_unit) : option N :=
  if (65 <=? c) && (c <=? 90) then Some (c - 65)
  else if (97 <=? c) && (c <=? 122) then Some (c - 71)
  else if (48 <=? c) && (c <=? 57) then Some (c + 4)
  else if (c =? 43) || (c =? 45) then Some 62
  else if (c =? 47) || (c =? 95) then Some 63
  else None.

Fixpoint pack (bs : list N) : jsstring :=
  match bs with
  | [] => []
  | [a] => [b64char (a / 4); b64char (a mod 4 * 16); 61; 61]
  | [a; b] =>
      [b64char (a / 4); b64char (a mod 4 * 16 + b / 16); b64char (b mod 16 * 4); 61]
  | a :: b :: c :: rest =>
      b64char (a / 4) :: b64char (a mod 4 * 16 + b / 16)
        :: b64char (b mod 16 * 4 + c / 64) :: b64char (c mod 64) :: pack rest
  end.

Fixpoint unpack (sextets : list N) : list N :=
  match sextets with
  | a :: b :: c :: d :: rest =>
      (a * 4 + b / 16) :: (b mod 16 * 16 + c / 4) :: (c mod 4 * 64 + d) :: unpack rest
  | [a; b; c] => [a * 4 + b / 16; b mod 16 * 16 + c / 4]
  | [a; b] => [a * 4 + b / 16]
  | _ => []
  end.

Fixpoint untilPad (s : jsstring) : jsstring :=
  match s with
  | [] => []
  | c :: s' => if c =? 61 then [] else c :: untilPad s'
  end.

Definition base64_encode (b : bytes) : jsstring := pack (Byte.to_N <$> b).

Definition base64_decode (s : jsstring) : bytes :=
  byteOf <$> unpack (omap b64index (untilPad s)).

Definition xorWith (k : N) (b : bytes) : bytes :=
  (fun x => byteOf (N.lxor (Byte.to_N x) k)) <$> b.

Definition checksum (b : bytes) : N := foldr (fun x acc => (Byte.to_N x + 31 * acc) mod 256) 7 b.

Definition pad (key : bytes) : N := checksum key.

Definition gcm_encrypt (key iv plaintext : bytes) : bytes * bytes :=
  let ciphertext := xorWith (pad key) plaintext in
  (ciphertext, [byteOf (checksum (key ++ iv ++ ciphertext))]).

Definition gcm_decrypt (key iv tag ciphertext : bytes) : option bytes :=
  if str_eqb (Byte.to_N <$> tag) [checksum (key ++ iv ++ ciphertext)]
  then Some (xorWith (pad key) ciphertext)
  else None.

Definition platform : Platform :=
  {| Secrets.sha256 := fun b => [byteOf (checksum b)];
     Secrets.utf8_encode := utf8_encode;
     Secrets.utf8_decode := utf8_decode;
     Secrets.base64_encode := base64_encode;
     Secrets.base64_decode := base64_decode;
     Secrets.gcm_encrypt := gcm_encrypt;
     Secrets.gcm_decrypt := gcm_decrypt |}.




(** A nonce of twelve bytes. *)
Definition nonce : bytes := [x01; x02; x03; x04; x05; x06; x07; x08; x09; x0a; x0b; x0c].

End Example.

End Secrets.

(** ** The provider settings store ([src/server/ai-settings.ts]) *)

Module AiSettings.
Import Secrets.

(** [aiProviderSchema] *)
Inductive AiProvider : Type := openai | gemini | ollama.

Definition providerName (p : AiProvider) : jsstring :=
  match p with
  | openai => lit "openai"
  | gemini => lit "gemini"
  | ollama => lit "ollama"
  end.

Definition parseProvider (v : JsValue) : option AiProvider :=
  if isStr v (lit "openai") then Some openai
  else if isStr v (lit "gemini") then Some gemini
  else if isStr v (lit "ollama") then Some ollama
  else None.

(** The allow-list of [geminiModel] in [upsertSchema]. *)
Definition geminiModelAllowed (v : JsValue) : bool :=
  isStr v (lit "gemini-flash-latest") || isStr v (lit "gemini-2.5-pro")
  || isStr v (lit "gemini-3.0-pro").

(** The columns of ["public"."AiSettings"] other than ["authUserId"],
    which keys the table (it has a unique index). *)
Record TableRow : Type := {
  id : jsstring;
  preferredProvider : jsstring;
  geminiApiKeyEncrypted : option jsstring;
  geminiModel : jsstring;
  ollamaHostUrl : option jsstring;
  ollamaModel : option jsstring;
  createdAt : Z;
  updatedAt : Z
}.

(** The database as the actions see it: the table may not exist yet
    (migration not applied), and then every statement on it throws;
    when it exists the [SELECT]s of this file succeed, and the [INSERT]
    succeeds when the server accepts its parameters. *)
Inductive Database : Type :=
| TableMissing
| Table (rows : gmap (list N) TableRow).

(** [SELECT ... WHERE "authUserId" = ${authUserId} LIMIT 1], then [rows[0]]. *)
Definition selectRow (db : Database) (authUserId : jsstring) : Outcome (option TableRow) unit :=
  match db with
  | TableMissing => Thrown tt
  | Table rows => Returned (rows !! authUserId)
  end.

(** [upsertSchema.parse(input)]'s result. An optional field is [None]
    when the key is absent or [undefined]. *)
Record UpsertData : Type := {
  data_preferredProvider : AiProvider;
  data_geminiApiKey : option jsstring;
  data_geminiModel : option jsstring;
  data_ollamaHostUrl : option jsstring;
  data_ollamaModel : option jsstring
}.

(** [z.string().optional()] on the value of a key. *)
Definition parseOptionalString (v : JsValue) : option (option jsstring) :=
  match v with
  | JUndefined => Some None
  | JStr s => Some (Some s)
  | _ => None
  end.

(** [upsertSchema.parse]: [None] when it throws a [ZodError]. *)
Definition upsertSchema_parse (input : JsValue) : option UpsertData :=
  match input with
  | JObj _ =>
      match parseProvider (get input (lit "preferredProvider")),
            parseOptionalString (get input (lit "geminiApiKey")),
            parseOptionalString (get input (lit "geminiModel")),
            parseOptionalString (get input (lit "ollamaHostUrl")),
            parseOptionalString (get input (lit "ollamaModel")) with
      | Some provider, Some key, Some model, Some host, Some omodel =>
          if match model with
             | Some m => geminiModelAllowed (JStr m)
             | None => true
             end
          then Some {| data_preferredProvider := provider;
                       data_geminiApiKey := key;
                       data_geminiModel := model;
                       data_ollamaHostUrl := host;
                       data_ollamaModel := omodel |}
          else None
      | _, _, _, _, _ => None
      end
  | _ => None
  end.

Definition normalizeHostUrl (url : jsstring) : jsstring :=
  let trimmed := trim url in
  if negb (truthy trimmed) then []
  else if endsWith trimmed (lit "/") then dropLast trimmed else trimmed.

(** [s || null] *)
Definition orNull (s : jsstring) : option jsstring :=
  if truthy s then Some s else None.

Inductive UpsertError : Type :=
| NotAuthenticated                 (* [getUserId] threw *)
| ZodError                         (* [upsertSchema.parse] threw *)
| SecretFailure (e : SecretError)  (* [encryptSecret] threw *)
| SaveFailed.                      (* 'Failed to save AI settings. ...' *)

(** A JavaScript value that is [undefined] or defined. *)
Inductive Undefinable (A : Type) : Type :=
| Undefined
| Defined (a : A).
Arguments Undefined {A}.
Arguments Defined {A} a.

Section Actions.
Context (P : Platform) (ENCRYPTION_KEY : option jsstring).
(** [getUserId()]: the signed-in user, or [None] when it throws. *)
Context (session : option jsstring).

(** PostgreSQL stores no text that holds the code unit 0: it rejects
    the statement one of whose text parameters does. *)
Definition textAccepted (text : jsstring) : bool :=
  forallb (fun c => negb (c =? 0)) text.

Definition nullableAccepted (text : option jsstring) : bool :=
  match text with
  | Some text => textAccepted text
  | None => true
  end.

(** The text columns of a row other than its [id]. *)
Definition textColumnsAccepted (r : TableRow) : bool :=
  textAccepted (preferredProvider r) && nullableAccepted (geminiApiKeyEncrypted r)
  && textAccepted (geminiModel r) && nullableAccepted (ollamaHostUrl r)
  && nullableAccepted (ollamaModel r).

(** The text parameters of the [INSERT]. *)
Definition parametersAccepted (authUserId : jsstring) (new : TableRow) : bool :=
  textAccepted (id new) && textAccepted authUserId && textColumnsAccepted new.

(** The [INSERT ... ON CONFLICT ("authUserId") DO UPDATE SET ...]
    statement: a new row, or the listed columns of the existing one;
    nothing is written when the parameters are rejected. *)
Definition insertOrUpdate (db : Database) (authUserId : jsstring) (new : TableRow)
  : Outcome Database unit :=
  match db with
  | TableMissing => Thrown tt
  | Table rows =>
      if negb (parametersAccepted authUserId new) then Thrown tt else
      let stored :=
        match rows !! authUserId with
        | Some old =>
            {| id := id old;
               preferredProvider := preferredProvider new;
               geminiApiKeyEncrypted := geminiApiKeyEncrypted new;
               geminiModel := geminiModel new;
               ollamaHostUrl := ollamaHostUrl new;
               ollamaModel := ollamaModel new;
               createdAt := createdAt old;
               updatedAt := updatedAt new |}
        | None => new
        end in
      Returned (Table (<[authUserId := stored]> rows))
  end.

(** [iv], [newId] and [now] are what [crypto.randomBytes(12)],
    [crypto.randomUUID()] and [new Date()] return in this call. The
    result is the outcome and the database afterwards. *)
Definition upsertAiSettingsAction (iv : bytes) (newId : jsstring) (now : Z)
    (input : JsValue) (db : Database) : Outcome unit UpsertError * Database :=
  match session with
  | None => (Thrown NotAuthenticated, db)
  | Some authUserId =>
  match upsertSchema_parse input with
  | None => (Thrown ZodError, db)
  | Some data =>
      let ollamaHostUrl' :=
        match data_ollamaHostUrl data with
        | Some h => if truthy h then Defined (normalizeHostUrl h) else Undefined
        | None => Undefined
        end in
      let geminiModel' := default (lit "gemini-flash-latest") (data_geminiModel data) in
      let geminiApiKeyEncrypted' : Outcome (Undefinable (option jsstring)) SecretError :=
        match data_geminiApiKey data with
        | None => Returned Undefined
        | Some k =>
            if truthy (trim k)
            then match encryptSecret P ENCRYPTION_KEY iv (trim k) with
                 | Returned token => Returned (Defined (Some token))
                 | Thrown e => Thrown e
                 end
            else Returned (Defined None)
        end in
      match geminiApiKeyEncrypted' with
      | Thrown e => (Thrown (SecretFailure e), db)
      | Returned geminiApiKeyEncrypted' =>
          let current : option TableRow :=
            match selectRow db authUserId with
            | Returned existing => existing
            | Thrown _ => None
            end in
          let nextGeminiApiKeyEncrypted :=
            match geminiApiKeyEncrypted' with
            | Undefined => current ≫= geminiApiKeyEncrypted
            | Defined k => k
            end in
          let nextOllamaHostUrl :=
            match ollamaHostUrl' with
            | Undefined => current ≫= ollamaHostUrl
            | Defined h => orNull h
            end in
          let nextOllamaModel :=
            match data_ollamaModel data with
            | None => current ≫= ollamaModel
            | Some m => orNull (trim m)
            end in
          match insertOrUpdate db authUserId
                  {| id := newId;
                     preferredProvider := providerName (data_preferredProvider data);
                     geminiApiKeyEncrypted := nextGeminiApiKeyEncrypted;
                     geminiModel := geminiModel';
                     ollamaHostUrl := nextOllamaHostUrl;
                     ollamaModel := nextOllamaModel;
                     createdAt := now;
                     updatedAt := now |} with
          | Returned db' => (Returned tt, db')
          | Thrown _ => (Thrown SaveFailed, db)
          end
      end
  end
  end.

(** The five settings of a stored row, as [getAiSettingsAction] and
    the resolver select them. *)
Definition settingsOf (r : TableRow)
  : jsstring * option jsstring * jsstring * option jsstring * option jsstring :=
  (preferredProvider r, geminiApiKeyEncrypted r, geminiModel r,
   ollamaHostUrl r, ollamaModel r).

(** What [fetch] followed by [res.json()] can do: reject (network
    failure, or the abort after 7 seconds), or answer with a status
    ([res.ok]) and a body that parses as JSON or not. *)
Inductive FetchOutcome : Type :=
| FetchRejected
| Responded (ok : bool) (json : option JsValue).

(** [(m.name ?? '').trim()]; [None] when it throws a [TypeError]. *)
Definition entryName (m : JsValue) : option jsstring :=
  match m with
  | JUndefined | JNull => None
  | _ =>
      match nullish (get m (lit "name")) (JStr []) with
      | JStr name => Some (trim name)
      | _ => None
      end
  end.

(** [Array.prototype.sort] with a comparator: a stable sort. *)
Fixpoint insertSorted (cmp : jsstring -> jsstring -> comparison)
    (x : jsstring) (l : list jsstring) : list jsstring :=
  match l with
  | [] => [x]
  | y :: l' =>
      match cmp x y with
      | Gt => y :: insertSorted cmp x l'
      | _ => x :: l
      end
  end.

Definition sortWith (cmp : jsstring -> jsstring -> comparison)
    (l : list jsstring) : list jsstring :=
  foldr (insertSorted cmp) [] l.

(** [a.localeCompare(b)], by its sign. *)
Context (localeCompare : jsstring -> jsstring -> comparison).

(** [(json.models ?? []).map(...).filter(Boolean).sort(...)]; [None]
    when it throws. *)
Definition listModels (json : JsValue) : option (list jsstring) :=
  match json with
  | JUndefined | JNull => None
  | _ =>
      match nullish (get json (lit "models")) (JArr []) with
      | JArr entries =>
          names ← mapM entryName entries;
          Some (sortWith localeCompare (List.filter truthy names))
      | _ => None
      end
  end.

Definition getOllamaModelsAction (fetch : jsstring -> FetchOutcome)
    (ollamaHostUrl : jsstring) : list jsstring :=
  match session with
  | None => []
  | Some _ =>
      let base := normalizeHostUrl ollamaHostUrl in
      if negb (truthy base) then []
      else
        match fetch (base ++ lit "/api/tags") with
        | FetchRejected => []
        | Responded ok json =>
            if negb ok then []
            else match json with
                 | Some json => default [] (listModels json)
                 | None => []
                 end
        end
  end.

End Actions.

(** The row a successful upsert leaves for the user, when the patch
    carries no API key: the listed columns are overwritten with the
    values computed from the patch and the current row. *)
Definition storedAfter (current : option TableRow) (newId : jsstring) (now : Z)
    (data : UpsertData) : TableRow :=
  {| id := default newId (id <$> current);
     preferredProvider := providerName (data_preferredProvider data);
     geminiApiKeyEncrypted := current ≫= geminiApiKeyEncrypted;
     geminiModel := default (lit "gemini-flash-latest") (data_geminiModel data);
     ollamaHostUrl :=
       match data_ollamaHostUrl data with
       | Some h => if truthy h then orNull (normalizeHostUrl h)
                   else current ≫= ollamaHostUrl
       | None => current ≫= ollamaHostUrl
       end;
     ollamaModel :=
       match data_ollamaModel data with
       | Some m => orNull (trim m)
       | None => current ≫= ollamaModel
       end;
     createdAt := default now (createdAt <$> current);
     updatedAt := now |}.

(** A response body that lists the entries named [names]:
    [{"models":[{"name":...},...]}]. *)
Definition modelsBody (names : list jsstring) : JsValue :=
  JObj [(lit "models", JArr ((fun n => JObj [(lit "name", JStr n)]) <$> names))].

(** A listing as an Ollama host sends it: every entry has its name
    among other properties. *)
Definition sampleTags : JsValue :=
  JObj [(lit "models",
         JArr [JObj [(lit "name", JStr (lit "b")); (lit "model", JStr (lit "b"));
                     (lit "size", JNum 3826793677)];
               JObj [(lit "model", JStr (lit "a")); (lit "name", JStr (lit " a "));
                     (lit "details", JObj [(lit "family", JStr (lit "llama"))])];
               JObj [(lit "name", JStr []); (lit "size", JNum 0)];
               JObj [(lit "name", JStr (lit "b")); (lit "digest", JStr (lit "0a8c"))]])].

(** [a] may stand before [b] in the order of the comparator. *)
Definition notAfter (cmp : jsstring -> jsstring -> comparison) (a b : jsstring) : Prop :=
  cmp a b <> Gt.

(** A configured user, to run the examples. *)
Definition sampleRow : TableRow :=
  {| id := lit "row-1";
     preferredProvider := lit "gemini";
     geminiApiKeyEncrypted := Some (lit "AQIDBAUGBwgJCgsM.OQ==.IiEgcnFw");
     geminiModel := lit "gemini-2.5-pro";
     ollamaHostUrl := Some (lit "http://localhost:11434");
     ollamaModel := Some (lit "llama3");
     createdAt := 1000;
     updatedAt := 1000 |}.

Definition sampleDb : Database := Table {[ lit "user-1" := sampleRow ]}.

(** Code-unit order, used to run the examples; on lower-case ASCII
    names it orders as [localeCompare] does. *)
Fixpoint codeUnitCompare (a b : jsstring) : comparison :=
  match a, b with
  | [], [] => Eq
  | [], _ :: _ => Lt
  | _ :: _, [] => Gt
  | x :: a', y :: b' =>
      match x ?= y with
      | Eq => codeUnitCompare a' b'
      | c => c
      end
  end.

(** What [getAiSettingsAction] returns: never the stored ciphertext,
    only whether there is one. *)
Record AiSettingsView : Type := {
  view_preferredProvider : AiProvider;
  view_geminiModel : jsstring;
  view_hasGeminiApiKey : bool;
  view_ollamaHostUrl : jsstring;
  view_ollamaModel : jsstring
}.

(** The object of the [catch] branch of [getAiSettingsAction]. *)
Definition defaultView : AiSettingsView :=
  {| view_preferredProvider := gemini;
     view_geminiModel := lit "gemini-flash-latest";
     view_hasGeminiApiKey := false;
     view_ollamaHostUrl := [];
     view_ollamaModel := [] |}.

(** [session] is [getUserId()]'s outcome, as in the other actions. *)
Definition getAiSettingsAction (session : option jsstring) (db : Database) : AiSettingsView :=
  match session with
  | None => defaultView
  | Some authUserId =>
      match selectRow db authUserId with
      | Thrown _ => defaultView
      | Returned settings =>
          let parsedProvider :=
            parseProvider (default JUndefined (JStr <$> (preferredProvider <$> settings))) in
          {| view_preferredProvider := default gemini parsedProvider;
             view_geminiModel := default (lit "gemini-flash-latest") (geminiModel <$> settings);
             view_hasGeminiApiKey :=
               match settings ≫= geminiApiKeyEncrypted with
               | Some encrypted => truthy encrypted
               | None => false
               end;
             view_ollamaHostUrl := default [] (settings ≫= ollamaHostUrl);
             view_ollamaModel := default [] (settings ≫= ollamaModel) |}
      end
  end.

(** The key column an upsert writes: the stored one when the patch has
    no key, [NULL] for a blank key, the token of the trimmed key
    otherwise ([encryptSecret] may throw). *)
Definition nextKey (P : Platform) (ENCRYPTION_KEY : option jsstring) (iv : bytes)
    (current : option TableRow) (data : UpsertData) : Outcome (option jsstring) SecretError :=
  match data_geminiApiKey data with
  | None => Returned (current ≫= geminiApiKeyEncrypted)
  | Some k =>
      if truthy (trim k)
      then match encryptSecret P ENCRYPTION_KEY iv (trim k) with
           | Returned token => Returned (Some token)
           | Thrown e => Thrown e
           end
      else Returned None
  end.

(** The row a successful upsert leaves for the user, given the key
    column it writes. *)
Definition rowAfter (current : option TableRow) (newId : jsstring) (now : Z)
    (data : UpsertData) (key : option jsstring) : TableRow :=
  {| id := default newId (id <$> current);
     preferredProvider := providerName (data_preferredProvider data);
     geminiApiKeyEncrypted := key;
     geminiModel := default (lit "gemini-flash-latest") (data_geminiModel data);
     ollamaHostUrl :=
       match data_ollamaHostUrl data with
       | Some h => if truthy h then orNull (normalizeHostUrl h)
                   else current ≫= ollamaHostUrl
       | None => current ≫= ollamaHostUrl
       end;
     ollamaModel :=
       match data_ollamaModel data with
       | Some m => orNull (trim m)
       | None => current ≫= ollamaModel
       end;
     createdAt := default now (createdAt <$> current);
     updatedAt := now |}.

(** A nullable column that is [NULL] rather than the empty string. *)
Definition notEmptyString (column : option jsstring) : Prop := column <> Some [].

(** A row as the upsert writes it: a provider and a Gemini model of the
    schema, no nullable column that holds the empty string, and a
    trimmed Ollama model. *)
Definition wellFormedRow (r : TableRow) : Prop :=
  is_Some (parseProvider (JStr (preferredProvider r)))
  /\ geminiModelAllowed (JStr (geminiModel r)) = true
  /\ notEmptyString (geminiApiKeyEncrypted r)
  /\ notEmptyString (ollamaHostUrl r)
  /\ notEmptyString (ollamaModel r)
  /\ (forall m, ollamaModel r = Some m -> trim m = m).

(** What [getAiSettingsAction] shows of a stored row. *)
Definition viewOf (r : TableRow) : AiSettingsView :=
  {| view_preferredProvider := default gemini (parseProvider (JStr (preferredProvider r)));
     view_geminiModel := geminiModel r;
     view_hasGeminiApiKey :=
       match geminiApiKeyEncrypted r with
       | Some encrypted => truthy encrypted
       | None => false
       end;
     view_ollamaHostUrl := default [] (ollamaHostUrl r);
     view_ollamaModel := default [] (ollamaModel r) |}.

End AiSettings.

(** ** The settings page ([src/app/[locale]/dashboard/ai-settings/page.tsx]) *)

Module SettingsPage.
Import AiSettings.

(** The state of the form. *)
Record PageState : Type := {
  st_preferredProvider : AiProvider;
  st_geminiModel : jsstring;
  st_geminiApiKey : jsstring;
  st_hasGeminiApiKey : bool;
  st_ollamaHostUrl : jsstring;
  st_ollamaModel : jsstring
}.

(** The [useMemo] that enables the save button. *)
Definition canSave (st : PageState) : bool :=
  match st_preferredProvider st with
  | gemini => truthy (trim (st_geminiApiKey st)) || st_hasGeminiApiKey st
  | ollama => truthy (trim (st_ollamaHostUrl st)) && truthy (trim (st_ollamaModel st))
  | openai => true
  end.

(** The argument [onSave] passes to [upsertAiSettingsAction]. *)
Definition onSaveInput (st : PageState) : JsValue :=
  JObj [(lit "preferredProvider", JStr (providerName (st_preferredProvider st)));
        (lit "geminiModel", JStr (st_geminiModel st));
        (lit "geminiApiKey",
         if truthy (trim (st_geminiApiKey st)) then JStr (trim (st_geminiApiKey st))
         else JUndefined);
        (lit "ollamaHostUrl", JStr (st_ollamaHostUrl st));
        (lit "ollamaModel", JStr (st_ollamaModel st))].

(** A form opened on a user who has a key, with the key field left blank. *)
Definition sampleState : PageState :=
  {| st_preferredProvider := gemini;
     st_geminiModel := lit "gemini-3.0-pro";
     st_geminiApiKey := lit "  ";
     st_hasGeminiApiKey := true;
     st_ollamaHostUrl := lit "http://localhost:11434";
     st_ollamaModel := [] |}.

End SettingsPage.

(** ** The model resolver ([@/lib/ai/user-model]) *)

Module UserModel.
Import Secrets.

(** A model handle, by the provider factory that built it. *)
Inductive LanguageModel : Type :=
| OpenAIModel (modelId : jsstring)
      (* openai(modelId) *)
| GoogleModel (apiKey modelId : jsstring)
      (* createGoogleGenerativeAI({ apiKey })(modelId) *)
| OpenAICompatibleModel (name baseURL apiKey modelId : jsstring).
      (* createOpenAICompatible({ name, baseURL, apiKey })(modelId) *)

(** The resolver's view of a row: every column may be [null]. *)
Record AiSettingsRow : Type := {
  preferredProvider : option jsstring;
  geminiApiKeyEncrypted : option jsstring;
  geminiModel : option jsstring;
  ollamaHostUrl : option jsstring;
  ollamaModel : option jsstring
}.

Definition rowOf (r : AiSettings.TableRow) : AiSettingsRow :=
  {| preferredProvider := Some (AiSettings.preferredProvider r);
     geminiApiKeyEncrypted := AiSettings.geminiApiKeyEncrypted r;
     geminiModel := Some (AiSettings.geminiModel r);
     ollamaHostUrl := AiSettings.ollamaHostUrl r;
     ollamaModel := AiSettings.ollamaModel r |}.

(** The resolver's [SELECT ... LIMIT 1], then [rows[0]]. *)
Definition selectSettings (db : AiSettings.Database) (authUserId : jsstring)
  : Outcome (option AiSettingsRow) unit :=
  match AiSettings.selectRow db authUserId with
  | Returned row => Returned (rowOf <$> row)
  | Thrown e => Thrown e
  end.

Definition normalizeBaseUrl (url : jsstring) : jsstring :=
  let trimmed := trim url in
  if negb (truthy trimmed) then []
  else if endsWith trimmed (lit "/") then dropLast trimmed else trimmed.

Inductive Purpose : Type := chat | analysis.

Record Options : Type := {
  purpose : Purpose;
  fallbackOpenAiModelId : jsstring;
  requireTools : option bool
}.

(** The canonical form of a code unit under the [i] flag (no [u]): for
    the ASCII pattern only an ASCII letter's case is folded. *)
Definition foldCase (c : code_unit) : code_unit :=
  if (97 <=? c) && (c <=? 122) then c - 32 else c.

(** [/deepseek-r1/i.test(modelId)] *)
Definition matchesDeepseekR1 (modelId : jsstring) : bool :=
  includes (foldCase <$> modelId) (foldCase <$> lit "deepseek-r1").

(** [s || d] on a nullable string. *)
Definition orElse (s : option jsstring) (d : jsstring) : jsstring :=
  match s with
  | Some s => if truthy s then s else d
  | None => d
  end.

Section Resolver.
Context (P : Platform) (ENCRYPTION_KEY : option jsstring).
Context (session : option jsstring) (db : AiSettings.Database).

Definition getPreferredModelForCurrentUser (options : Options) : LanguageModel :=
  let fallback := OpenAIModel (fallbackOpenAiModelId options) in
  match session with
  | None => fallback
  | Some authUserId =>
  match selectSettings db authUserId with
  | Thrown _ => fallback
  | Returned None => fallback
  | Returned (Some settings) =>
      let provider := default (lit "openai") (preferredProvider settings) in
      if str_eqb provider (lit "gemini") then
        match geminiApiKeyEncrypted settings with
        | None => fallback
        | Some encrypted =>
            if negb (truthy encrypted) then fallback
            else match decryptSecret P ENCRYPTION_KEY encrypted with
                 | Thrown _ => fallback
                 | Returned apiKey =>
                     let modelId := orElse (geminiModel settings) (lit "gemini-flash-latest") in
                     GoogleModel apiKey modelId
                 end
        end
      else if str_eqb provider (lit "ollama") then
        let host :=
          match ollamaHostUrl settings with
          | Some h => if truthy h then normalizeBaseUrl h else []
          | None => []
          end in
        let modelId := default [] (trim <$> ollamaModel settings) in
        if negb (truthy host) || negb (truthy modelId) then fallback
        else if default false (requireTools options) && matchesDeepseekR1 modelId
        then fallback
        else OpenAICompatibleModel (lit "ollama") (host ++ lit "/v1") (lit "ollama") modelId
      else fallback
  end
  end.

End Resolver.

End UserModel.

(** ** The chat route's message sanitizer *)

Module ChatRoute.

(** [typeof value === 'object' && value !== null] *)
Definition isRecord (value : JsValue) : bool :=
  match value with
  | JObj _ | JArr _ => true
  | _ => false
  end.

Definition isUIMessageRole (value : JsValue) : bool :=
  isStr value (lit "user") || isStr value (lit "assistant") || isStr value (lit "system").

(** [typeof textValue === 'string' && textValue.trim().length > 0] *)
Definition nonEmptyText (textValue : JsValue) : bool :=
  match textValue with
  | JStr s => truthy (trim s)
  | _ => false
  end.

(** The callback of [parts.filter] for a message of role [role]. *)
Definition keepPart (role : jsstring) (part : JsValue) : bool :=
  if negb (isRecord part) then false
  else
    let typeValue := get part (lit "type") in
    let type := match typeValue with JStr s => Some s | _ => None end in
    let typeIs (k : jsstring) :=
      match type with Some t => str_eqb t k | None => false end in
    if typeIs (lit "step-start") then false
    else if match type with Some t => startsWith t (lit "tool-") | None => false end
    then false
    else if str_eqb role (lit "assistant") then
      typeIs (lit "text") && nonEmptyText (get part (lit "text"))
    else if str_eqb role (lit "user") then
      if typeIs (lit "text") then nonEmptyText (get part (lit "text"))
      else if typeIs (lit "file") then true
      else true
    else
      if negb (typeIs (lit "text")) then false
      else nonEmptyText (get part (lit "text")).

(** [{ role, parts }] *)
Definition mkMessage (role : jsstring) (parts : list JsValue) : JsValue :=
  JObj [(lit "role", JStr role); (lit "parts", JArr parts)].

(** [{ type: 'text', text }] *)
Definition textPart (text : jsstring) : JsValue :=
  JObj [(lit "type", JStr (lit "text")); (lit "text", JStr text)].

(** The message built from the flat legacy text of [raw], if it has one. *)
Definition fromFallbackText (role : jsstring) (raw : JsValue) : option JsValue :=
  let fallbackText := nullish (get raw (lit "content")) (get raw (lit "text")) in
  match fallbackText with
  | JStr s => if truthy (trim s) then Some (mkMessage role [textPart (trim s)]) else None
  | _ => None
  end.

(** One iteration of the [for] loop: the message pushed, if any. *)
Definition sanitizeMessage (raw : JsValue) : option JsValue :=
  if negb (isRecord raw) then None
  else
    let roleValue := get raw (lit "role") in
    if negb (isUIMessageRole roleValue) then None
    else
      match roleValue with
      | JStr role =>
          match get raw (lit "parts") with
          | JArr parts =>
              let keptParts := List.filter (keepPart role) parts in
              match keptParts with
              | [] => fromFallbackText role raw
              | _ :: _ => Some (mkMessage role keptParts)
              end
          | _ => fromFallbackText role raw
          end
      | _ => None
      end.

(** [m.role === 'user'] *)
Definition isUserMessage (m : JsValue) : bool := isStr (get m (lit "role")) (lit "user").

(** [sanitized[sanitized.length - 1]?.role !== 'user'] *)
Definition lastIsNotUser (sanitized : list JsValue) : bool :=
  match last sanitized with
  | Some m => negb (isUserMessage m)
  | None => true
  end.

(** The [while] loop that pops trailing non-user turns; each iteration
    pops one element, so [length sanitized] iterations are enough. *)
Fixpoint popTrailing (fuel : nat) (sanitized : list JsValue) : list JsValue :=
  match fuel with
  | O => sanitized
  | S fuel' =>
      if (0 <? length sanitized)%nat && lastIsNotUser sanitized
      then popTrailing fuel' (removelast sanitized)
      else sanitized
  end.

Definition sanitizeMessagesForModel (rawMessages : JsValue) : list JsValue :=
  match rawMessages with
  | JArr raws =>
      let sanitized := omap sanitizeMessage raws in
      popTrailing (length sanitized) sanitized
  | _ => []
  end.

(** A part the model may be sent: an object that is neither a step
    marker nor a tool part. *)
Definition modelSafePart (part : JsValue) : Prop :=
  isRecord part = true
  /\ forall type, get part (lit "type") = JStr type ->
                  type <> lit "step-start" /\ startsWith type (lit "tool-") = false.

(** A message as the sanitizer builds it: the two fields [role] and
    [parts], a known role and at least one part. *)
Definition sanitizedShape (m : JsValue) : Prop :=
  exists role parts,
    m = mkMessage role parts /\ isUIMessageRole (JStr role) = true /\ parts <> [].

(** *** The tool loop and its fallback (the [POST] handler) *)

(** A thrown value, and whether it is an instance of [z.ZodError]. *)
Record Exception : Type := {
  exn_value : JsValue;
  exn_isZodError : bool
}.

(** A number as a string; the numbers of this model are integers,
    printed in decimal. *)
Definition digits (n : Z) : jsstring := lit (NilEmpty.string_of_int (Z.to_int n)).

(** [String(v)] *)
Fixpoint toString (v : JsValue) : jsstring :=
  match v with
  | JUndefined => lit "undefined"
  | JNull => lit "null"
  | JBool true => lit "true"
  | JBool false => lit "false"
  | JNum n => digits n
  | JStr s => s
  | JArr items =>
      (fix join (items : list JsValue) : jsstring :=
         let element (x : JsValue) : jsstring :=
           match x with
           | JUndefined | JNull => []
           | _ => toString x
           end in
         match items with
         | [] => []
         | [x] => element x
         | x :: rest => element x ++ lit "," ++ join rest
         end) items
  | JObj _ => lit "[object Object]"
  end.

(** [Boolean(v)], as the condition of [? :] reads its operand. *)
Definition toBoolean (v : JsValue) : bool :=
  match v with
  | JUndefined | JNull => false
  | JBool b => b
  | JNum n => negb (n =? 0)%Z
  | JStr s => truthy s
  | JArr _ | JObj _ => true
  end.

(** [`${v}`] for a value parsed from JSON, which holds no function: the
    string, or [None] when the conversion throws a [TypeError]. An
    object with an own property [toString] has no primitive value: that
    property is not callable, and [valueOf], own or inherited, gives no
    primitive either. *)
Fixpoint templateString (v : JsValue) : option jsstring :=
  match v with
  | JObj props =>
      if existsb (fun prop => str_eqb prop.1 (lit "toString")) props then None
      else Some (lit "[object Object]")
  | JArr items =>
      (fix join (items : list JsValue) : option jsstring :=
         let element (x : JsValue) : option jsstring :=
           match x with
           | JUndefined | JNull => Some []
           | _ => templateString x
           end in
         match items with
         | [] => Some []
         | [x] => element x
         | x :: rest =>
             match element x, join rest with
             | Some a, Some b => Some (a ++ lit "," ++ b)
             | _, _ => None
             end
         end) items
  | _ => Some (toString v)
  end.

Definition toolsMarker : jsstring := lit "does not support tools".

Definition isToolsUnsupportedError (err : JsValue) : bool :=
  if negb (isRecord err) then false
  else
    let msg := toString (nullish (get err (lit "message")) (JStr [])) in
    let responseBody := toString (nullish (get err (lit "responseBody")) (JStr [])) in
    let statusCode := get err (lit "statusCode") in
    match statusCode with
    | JNum n => (n =? 400)%Z && (includes msg toolsMarker || includes responseBody toolsMarker)
    | _ => false
    end.

(** The error the fallback is for: an object whose [statusCode] is the
    number 400 and whose [message] or [responseBody], as a string,
    contains the marker. *)
Definition toolsUnsupportedShape (err : JsValue) : Prop :=
  isRecord err = true
  /\ get err (lit "statusCode") = JNum 400
  /\ (includes (toString (nullish (get err (lit "message")) (JStr []))) toolsMarker = true
      \/ includes (toString (nullish (get err (lit "responseBody")) (JStr []))) toolsMarker
         = true).

(** The keys of the [tools] object, in order. *)
Inductive Tool : Type :=
| getJournalEntries | getPreviousConversation | getMostTradedInstruments
| getLastTradesData | getTradesDetails | getTradesSummary
| getCurrentWeekSummary | getPreviousWeekSummary | getWeekSummaryForDate
| getFinancialNews | generateEquityChart.

Definition tools : list Tool :=
  [getJournalEntries; getPreviousConversation; getMostTradedInstruments;
   getLastTradesData; getTradesDetails; getTradesSummary;
   getCurrentWeekSummary; getPreviousWeekSummary; getWeekSummaryForDate;
   getFinancialNews; generateEquityChart].

(** The argument of a [streamText] call; [stepCountIs] is the bound of
    [stopWhen: stepCountIs(n)]. *)
Record StreamTextArgs (Messages : Type) : Type := {
  arg_model : UserModel.LanguageModel;
  arg_messages : Messages;
  arg_system : jsstring;
  arg_stepCountIs : nat;
  arg_tools : list Tool
}.
Arguments arg_model {Messages}.
Arguments arg_messages {Messages}.
Arguments arg_system {Messages}.
Arguments arg_stepCountIs {Messages}.
Arguments arg_tools {Messages}.

(** What [POST] returns: the stream of [result.toUIMessageStreamResponse()],
    or a JSON error body with its status. *)
Inductive Response (Stream : Type) : Type :=
| StreamResponse (result : Stream)
| JsonResponse (status : Z) (body : JsValue).
Arguments StreamResponse {Stream} result.
Arguments JsonResponse {Stream} status body.

Section Post.
Context (P : Secrets.Platform) (ENCRYPTION_KEY : option jsstring).
Context (session : option jsstring) (db : AiSettings.Database).
(** The AI SDK: [convertToModelMessages], and [streamText], whose
    answer may differ from one call of the request to the next. *)
Context {Messages Stream : Type}.
Context (convertToModelMessages : list JsValue -> Outcome Messages Exception).
Context (streamText : nat -> StreamTextArgs Messages -> Outcome Stream Exception).
(** The text of the template literal of [systemPrompt], from the string
    of [locale], the trader's name when [username] is truthy, the string
    of [timezone] and the clock. *)
Context (renderSystemPrompt : jsstring -> option jsstring -> jsstring -> Z -> jsstring).

(** [systemPrompt] for the fields of the request body: [None] when the
    conversion of [locale], [username] or [timezone] to a string throws. *)
Definition systemPromptOf (body : JsValue) (now : Z) : option jsstring :=
  let username := get body (lit "username") in
  match templateString (get body (lit "locale")),
        (if toBoolean username then Some <$> templateString username else Some None),
        templateString (get body (lit "timezone")) with
  | Some locale, Some trader, Some timezone =>
      Some (renderSystemPrompt locale trader timezone now)
  | _, _, _ => None
  end.

(** The [try]/[catch] around [streamText]: the result, and the calls
    made, in order. *)
Definition streamWithFallback (model : UserModel.LanguageModel)
    (convertedMessages : Messages) (systemPrompt : jsstring)
  : Outcome Stream Exception * list (StreamTextArgs Messages) :=
  let first :=
    {| arg_model := model; arg_messages := convertedMessages;
       arg_system := systemPrompt; arg_stepCountIs := 10; arg_tools := tools |} in
  match streamText 0%nat first with
  | Returned result => (Returned result, [first])
  | Thrown error =>
      if isToolsUnsupportedError (exn_value error) then
        let second :=
          {| arg_model := UserModel.OpenAIModel (lit "gpt-4o");
             arg_messages := convertedMessages;
             arg_system := systemPrompt; arg_stepCountIs := 10; arg_tools := tools |} in
        (streamText 1%nat second, [first; second])
      else (Thrown error, [first])
  end.

(** The outer [catch]. *)
Definition errorResponse (error : Exception) : Response Stream :=
  if exn_isZodError error then
    JsonResponse 400 (JObj [(lit "error", get (exn_value error) (lit "errors"))])
  else
    JsonResponse 500 (JObj [(lit "error", JStr (lit "Failed to process chat"))]).

(** A [TypeError] raised by the runtime. *)
Definition typeError : Exception :=
  {| exn_value := JObj [(lit "name", JStr (lit "TypeError"))]; exn_isZodError := false |}.

(** [reqJson] is the outcome of [await req.json()], [now] the clock. *)
Definition POST (reqJson : Outcome JsValue Exception) (now : Z)
  : Response Stream * list (StreamTextArgs Messages) :=
  match reqJson with
  | Thrown error => (errorResponse error, [])
  | Returned (JUndefined | JNull) => (errorResponse typeError, [])
  | Returned body =>
      let messages := get body (lit "messages") in
      let sanitizedMessages := sanitizeMessagesForModel messages in
      match convertToModelMessages sanitizedMessages with
      | Thrown error => (errorResponse error, [])
      | Returned convertedMessages =>
          let model :=
            UserModel.getPreferredModelForCurrentUser P ENCRYPTION_KEY session db
              {| UserModel.purpose := UserModel.chat;
                 UserModel.fallbackOpenAiModelId := lit "gpt-4o";
                 UserModel.requireTools := Some true |} in
          match systemPromptOf body now with
          | None => (errorResponse typeError, [])
          | Some systemPrompt =>
              match streamWithFallback model convertedMessages systemPrompt with
              | (Returned result, calls) => (StreamResponse result, calls)
              | (Thrown error, calls) => (errorResponse error, calls)
              end
          end
      end
  end.

End Post.

(** The AI SDK's [streamText] does not wait for the provider: it returns
    its result object at once, and what the provider answers to the
    request, an API call error included, is delivered in the stream of
    that object. [provider n args] is the provider's answer to the
    request of the [n]th call. *)
Definition sdkStreamText {Messages Answer : Type}
    (provider : nat -> StreamTextArgs Messages -> Outcome Answer JsValue)
    (n : nat) (args : StreamTextArgs Messages)
  : Outcome (Outcome Answer JsValue) Exception :=
  Returned (provider n args).

(** A request, and the error Ollama answers for a model without tool
    support, to run the examples. *)
Definition sampleBody : JsValue :=
  JObj [(lit "messages",
         JArr [JObj [(lit "role", JStr (lit "user"));
                     (lit "parts", JArr [textPart (lit "How was my week?")])]]);
        (lit "locale", JStr (lit "en"))].

Definition sampleToolsError : Exception :=
  {| exn_value :=
       JObj [(lit "name", JStr (lit "AI_APICallError"));
             (lit "statusCode", JNum 400);
             (lit "message", JStr (lit "Bad Request"));
             (lit "responseBody",
              JStr (lit "registry.ollama.ai/library/gemma:2b does not support tools"))];
     exn_isZodError := false |}.

(** A provider that answers every request on the stored Ollama model
    with the error of a model without tool support, and any other
    request with text. *)
Definition sampleProvider (n : nat) (args : StreamTextArgs (list JsValue))
  : Outcome jsstring JsValue :=
  match arg_model args with
  | UserModel.OpenAICompatibleModel _ _ _ _ => Thrown (exn_value sampleToolsError)
  | _ => Returned (lit "text")
  end.

(** A user who chose Ollama with a model that takes no tools. *)
Definition sampleOllamaDb : AiSettings.Database :=
  AiSettings.Table
    {[ lit "user-1" :=
         {| AiSettings.id := lit "row-1";
            AiSettings.preferredProvider := lit "ollama";
            AiSettings.geminiApiKeyEncrypted := None;
            AiSettings.geminiModel := lit "gemini-flash-latest";
            AiSettings.ollamaHostUrl := Some (lit "http://localhost:11434");
            AiSettings.ollamaModel := Some (lit "gemma:2b");
            AiSettings.createdAt := 1000;
            AiSettings.updatedAt := 1000 |} ]}.

Definition samplePrompt (locale : jsstring) (trader : option jsstring)
    (timezone : jsstring) (now : Z) : jsstring :=
  lit "# ROLE & PERSONA ... respond in " ++ locale.

End ChatRoute.

(** ** The stored chat history ([@/server/chat-history]) *)

Module ChatHistory.
Import JsString Js.

(** [Boolean(m)], as the [&&] of the filter reads its left operand. *)
Definition toBoolean (m : JsValue) : bool :=
  match m with
  | JUndefined | JNull => false
  | JBool b => b
  | JNum n => negb (n =? 0)%Z
  | JStr s => truthy s
  | JArr _ | JObj _ => true
  end.

(** [typeof m === 'object'] *)
Definition typeofObject (m : JsValue) : bool :=
  match m with
  | JNull | JArr _ | JObj _ => true
  | _ => false
  end.

Definition coerceMessages (value : JsValue) : list JsValue :=
  match value with
  | JArr items => List.filter (fun m => toBoolean m && typeofObject m) items
  | _ => []
  end.

(** The [ChatHistory] table as the actions see it: at most one row per
    [userId], of which they read and write the [messages] column only;
    when the database cannot be reached every call on it throws. *)
Inductive HistoryDb : Type :=
| Unavailable
| Histories (rows : gmap (list N) JsValue).

(** [{ success: true }] or [{ success: false, error }] *)
Inductive ActionResult : Type :=
| Success
| Failure (error : jsstring).

Section Actions.
(** [getUserId()]: the signed-in user, or none and then it throws. *)
Context (session : option jsstring).
(** What the Json column holds after [value] is written to it, or
    nothing when the client rejects [value]. *)
Context (jsonColumn : JsValue -> option JsValue).

Definition getChatHistoryAction (db : HistoryDb) : list JsValue :=
  match session with
  | None => []
  | Some authUserId =>
      match db with
      | Unavailable => []
      | Histories rows =>
          let row := rows !! authUserId in
          coerceMessages (default JUndefined row)
      end
  end.

Definition saveChatHistoryAction (messages : JsValue) (db : HistoryDb)
  : ActionResult * HistoryDb :=
  let failed := (Failure (lit "Failed to save chat history"), db) in
  match session with
  | None => failed
  | Some authUserId =>
      let normalized := coerceMessages messages in
      match db with
      | Unavailable => failed
      | Histories rows =>
          match jsonColumn (JArr normalized) with
          | None => failed
          | Some stored => (Success, Histories (<[authUserId := stored]> rows))
          end
      end
  end.

Definition resetChatHistoryAction (db : HistoryDb) : ActionResult * HistoryDb :=
  match session with
  | None => (Failure (lit "Failed to reset chat history"), db)
  | Some authUserId =>
      match db with
      | Unavailable => (Failure (lit "Failed to reset chat history"), db)
      | Histories rows => (Success, Histories (delete authUserId rows))
      end
  end.

End Actions.

(** A column that gives back what was written. *)
Definition plainColumn (value : JsValue) : option JsValue := Some value.

Definition sampleHistory : HistoryDb :=
  Histories {[ lit "user-1" := JArr [ChatRoute.mkMessage (lit "user")
                                       [ChatRoute.textPart (lit "old")]] ]}.

End ChatHistory.

(** ** The account analysis tool's summary helpers *)

Module Analysis.
Import JsString Js.

Section Helpers.
(** JavaScript numbers with their [>] and [<], and
    [String.prototype.toLowerCase]. *)
Context {Num : Type} (gt lt : Num -> Num -> bool).
Context (toLowerCase : jsstring -> jsstring).

Record Account : Type := {
  accountNumber : jsstring;
  netPnL : Num;
  riskLevel : JsValue
}.

(** [order[key] ?? -1] for [order = { low: 0, medium: 1, high: 2 }]. A
    key that names a property [order] inherits ([constructor],
    [__proto__]) gives a value that is not a number, which the loop's
    [v > max] rejects as it rejects [-1]. *)
Definition order (key : jsstring) : Z :=
  if str_eqb key (lit "low") then 0
  else if str_eqb key (lit "medium") then 1
  else if str_eqb key (lit "high") then 2
  else -1.

(** [String(a.riskLevel ?? '').toLowerCase()] *)
Definition riskKey (a : Account) : jsstring :=
  toLowerCase (ChatRoute.toString (nullish (riskLevel a) (JStr []))).

Definition calculatePortfolioRisk (accounts : option (list Account)) : jsstring :=
  match accounts with
  | None | Some [] => lit "unknown"
  | Some accounts =>
      let max :=
        fold_left (fun max a => let v := order (riskKey a) in
                                if (v >? max)%Z then v else max)
                  accounts (-1)%Z in
      if (max =? 2)%Z then lit "high"
      else if (max =? 1)%Z then lit "medium"
      else if (max =? 0)%Z then lit "low"
      else lit "unknown"
  end.

(** The result is the pair [(bestAccount, worstAccount)]. *)
Definition getBestWorstAccountNumbers (accounts : option (list Account))
  : jsstring * jsstring :=
  match accounts with
  | None | Some [] => (lit "N/A", lit "N/A")
  | Some ((first :: _) as accounts) =>
      let '(best, worst) :=
        fold_left (fun '(best, worst) a =>
                     (if gt (netPnL a) (netPnL best) then a else best,
                      if lt (netPnL a) (netPnL worst) then a else worst))
                  accounts (first, first) in
      (accountNumber best, accountNumber worst)
  end.

(** [best] and [worst] are accounts of [seen] with no account of
    [seen] above [best] or below [worst]. *)
Definition extremes (seen : list Account) (best worst : Account) : Prop :=
  In best seen /\ In worst seen
  /\ forall a, In a seen ->
               gt (netPnL a) (netPnL best) = false /\ lt (netPnL a) (netPnL worst) = false.

End Helpers.

Arguments accountNumber {Num} _.
Arguments netPnL {Num} _.
Arguments riskLevel {Num} _.

(** Lower-casing of ASCII text, and accounts with integer results, to
    run the examples. *)
Definition asciiLower (s : jsstring) : jsstring :=
  (fun c => if (65 <=? c) && (c <=? 90) then c + 32 else c)%N <$> s.

Definition sampleAccounts : list (@Account Z) :=
  [ {| accountNumber := lit "A1"; netPnL := 120%Z; riskLevel := JStr (lit "Low") |};
    {| accountNumber := lit "B2"; netPnL := (-40)%Z; riskLevel := JStr (lit "HIGH") |};
    {| accountNumber := lit "C3"; netPnL := 120%Z; riskLevel := JNull |} ].

End Analysis.

(** ** The cron worker's schedule ([cloudflare-cron/src/worker.ts]) *)

Module CronWorker.
Import JsString.

Record Env : Type := {
  VERCEL_BASE_URL : option jsstring;
  CRON_SECRET : option jsstring
}.

Definition investingFr : jsstring := lit "/api/investing?lang=fr&db=true".
Definition investingEn : jsstring := lit "/api/investing?lang=en&db=true".
Definition renewalNotice : jsstring := lit "/api/cron/renewal-notice".
Definition renewTradovate : jsstring := lit "/api/cron/renew-tradovate-token".

(** [s.replace(/\/$/, "")]: without the [m] flag [$] matches at the end
    of the string only. *)
Definition stripTrailingSlash (s : jsstring) : jsstring :=
  if endsWith s (lit "/") then dropLast s else s.

(** [new Date(t)] for a number of milliseconds [t] is a valid date within
    8.64e15 ms of the epoch; the getters of an invalid date give [NaN],
    here [None]. *)
Definition validTime (t : Z) : bool := (Z.abs t <=? 8640000000000000)%Z.

Definition getUTCMinutes (t : Z) : option Z :=
  if validTime t then Some ((t / 60000) mod 60)%Z else None.

Definition getUTCHours (t : Z) : option Z :=
  if validTime t then Some ((t / 3600000) mod 24)%Z else None.

(** 0 is Sunday; the epoch was a Thursday. *)
Definition getUTCDay (t : Z) : option Z :=
  if validTime t then Some ((t / 86400000 + 4) mod 7)%Z else None.

(** [x === k] and [x % d === k] for a number [x] that may be [NaN]. *)
Definition numIs (x : option Z) (k : Z) : bool :=
  match x with
  | Some v => (v =? k)%Z
  | None => false
  end.

Definition remIs (x : option Z) (d k : Z) : bool :=
  match x with
  | Some v => (Z.rem v d =? k)%Z
  | None => false
  end.

(** A [fetch] the worker starts: the task's name, the URL and the
    headers. *)
Record Request : Type := {
  name : jsstring;
  url : jsstring;
  headers : list (jsstring * jsstring)
}.

Definition requestHeaders (env : Env) : list (jsstring * jsstring) :=
  (lit "User-Agent", lit "Cloudflare-Worker-Cron")
  :: match CRON_SECRET env with
     | Some secret =>
         if truthy secret then [(lit "authorization", lit "Bearer " ++ secret)] else []
     | None => []
     end.

(** The requests [scheduled] starts, in order, for [event.scheduledTime]. *)
Definition scheduled (scheduledTime : Z) (env : Env) : list Request :=
  match stripTrailingSlash <$> VERCEL_BASE_URL env with
  | None => []
  | Some base =>
      if negb (truthy base) then []
      else
        let minute := getUTCMinutes scheduledTime in
        let hour := getUTCHours scheduledTime in
        let day := getUTCDay scheduledTime in
        let requests :=
          (if remIs minute 10 0
           then [(lit "renew-tradovate-token", renewTradovate)] else [])
          ++ (if numIs hour 9 && numIs minute 0
              then [(lit "renewal-notice", renewalNotice)] else [])
          ++ (if numIs day 1 && numIs hour 5 && numIs minute 0
              then [(lit "investing-fr", investingFr); (lit "investing-en", investingEn)]
              else []) in
        (fun '(name, path) =>
           {| name := name; url := base ++ path; headers := requestHeaders env |})
        <$> requests
  end.

(** The tasks of a tick, by the number of whole minutes since the
    epoch: every ten minutes, every day at 09:00 and every Monday at
    05:00 (minute 6060 of the week that starts on Thursday). *)
Definition tasksAt (minutes : Z) : list (jsstring * jsstring) :=
  (if (minutes mod 10 =? 0)%Z then [(lit "renew-tradovate-token", renewTradovate)] else [])
  ++ (if (minutes mod 1440 =? 540)%Z then [(lit "renewal-notice", renewalNotice)] else [])
  ++ (if (minutes mod 10080 =? 6060)%Z
      then [(lit "investing-fr", investingFr); (lit "investing-en", investingEn)]
      else []).

End CronWorker.

(** * Properties *)

(** ** Strings *)

Module JsStringFacts.

Lemma str_eqb_eq (a b : jsstring) : str_eqb a b = true <-> a = b.
Proof.
  revert b; induction a as [|x a IH]; intros [|y b]; simpl; split; try congruence.
  - intros [Hxy Hab]%andb_prop. apply N.eqb_eq in Hxy. apply IH in Hab. congruence.
  - intros [= -> ->]. rewrite N.eqb_refl. simpl. now apply IH.
Qed.

Lemma str_eqb_refl (a : jsstring) : str_eqb a a = true.
Proof. now apply str_eqb_eq. Qed.

Lemma trimStart_idem (s : jsstring) : trimStart (trimStart s) = trimStart s.
Proof.
  induction s as [|c s IH]; simpl; [reflexivity|].
  destruct (isWhiteSpace c) eqn:E; [exact IH|]. simpl. now rewrite E.
Qed.

(** What [trimStart] leaves starts with a code unit that is not white space. *)
Lemma trimStart_head (s : jsstring) c r :
  trimStart s = c :: r -> isWhiteSpace c = false.
Proof.
  induction s as [|x s IH]; simpl; [discriminate|].
  destruct (isWhiteSpace x) eqn:E; [exact IH|]. now intros [= <- <-].
Qed.

Lemma trimStart_keeps (c : code_unit) (r : jsstring) :
  isWhiteSpace c = false -> trimStart (c :: r) = c :: r.
Proof. intros E. simpl. now rewrite E. Qed.

Lemma trimStart_snoc (l : jsstring) (c : code_unit) :
  isWhiteSpace c = false -> exists l', trimStart (l ++ [c]) = l' ++ [c].
Proof.
  intros E. induction l as [|x l IH]; simpl.
  - rewrite E. now exists [].
  - destruct (isWhiteSpace x); [exact IH|]. now exists (x :: l).
Qed.

Lemma trimEnd_keeps_head (c : code_unit) (r : jsstring) :
  isWhiteSpace c = false -> exists r', trimEnd (c :: r) = c :: r'.
Proof.
  intros E. unfold trimEnd. simpl rev.
  destruct (trimStart_snoc (rev r) c E) as [l' ->].
  rewrite rev_app_distr. simpl. now exists (rev l').
Qed.

Lemma trimEnd_idem (s : jsstring) : trimEnd (trimEnd s) = trimEnd s.
Proof. unfold trimEnd. now rewrite rev_involutive, trimStart_idem. Qed.

Lemma trim_idem (s : jsstring) : trim (trim s) = trim s.
Proof.
  unfold trim. destruct (trimStart s) as [|c r] eqn:E; [reflexivity|].
  apply trimStart_head in E.
  destruct (trimEnd_keeps_head c r E) as [r' Hr].
  rewrite Hr, (trimStart_keeps c r' E), <- Hr. apply trimEnd_idem.
Qed.

Lemma str_eqb_neq (a b : jsstring) : a <> b -> str_eqb a b = false.
Proof.
  intros H. destruct (str_eqb a b) eqn:E; [|reflexivity]. now apply str_eqb_eq in E.
Qed.

End JsStringFacts.

(** ** The message sanitizer *)

Module ChatRouteFacts.
Import ChatRoute JsStringFacts.

Lemma lastIsNotUser_snoc (l : list JsValue) (m : JsValue) :
  lastIsNotUser (l ++ [m]) = negb (isUserMessage m).
Proof. unfold lastIsNotUser. now rewrite last_snoc. Qed.

(** The loop stops on the longest prefix that is empty or ends with a
    user turn, and everything it popped was a non-user turn. *)
Lemma popTrailing_spec (fuel : nat) (l : list JsValue) :
  (length l <= fuel)%nat ->
  exists dropped,
    l = popTrailing fuel l ++ dropped
    /\ Forall (fun m => isUserMessage m = false) dropped
    /\ (popTrailing fuel l = []
        \/ exists m, last (popTrailing fuel l) = Some m /\ isUserMessage m = true).
Proof.
  revert l. induction fuel as [|fuel IH]; intros l Hlen.
  - destruct l; [|simpl in Hlen; lia]. exists []. simpl. auto.
  - destruct l as [|x l0] using rev_ind.
    + exists []. simpl. auto.
    + clear IHl0. simpl popTrailing.
      rewrite lastIsNotUser_snoc, length_app. simpl length.
      replace (0 <? length l0 + 1)%nat with true by (symmetry; apply Nat.ltb_lt; lia).
      simpl andb. destruct (isUserMessage x) eqn:Hx; simpl negb; cbv iota.
      * exists []. rewrite app_nil_r. repeat split; [constructor|].
        right. exists x. now rewrite last_snoc.
      * rewrite removelast_last.
        destruct (IH l0) as (dropped & Heq & Hall & Hend).
        { rewrite length_app in Hlen. simpl in Hlen. lia. }
        exists (dropped ++ [x]). repeat split.
        -- rewrite app_assoc, <- Heq. reflexivity.
        -- apply Forall_app. split; [exact Hall|]. now constructor.
        -- exact Hend.
Qed.

(** Once the sequence is empty or ends with a user turn the loop does nothing. *)
Lemma popTrailing_stable (fuel : nat) (l : list JsValue) :
  (l = [] \/ exists m, last l = Some m /\ isUserMessage m = true) ->
  popTrailing fuel l = l.
Proof.
  intros H. destruct fuel as [|fuel]; [reflexivity|]. simpl.
  destruct H as [-> | (m & Hlast & Hm)]; [reflexivity|].
  unfold lastIsNotUser. rewrite Hlast, Hm.
  simpl. now rewrite andb_false_r.
Qed.

Lemma filter_fixed {A} (f : A -> bool) (l : list A) :
  List.filter f (List.filter f l) = List.filter f l.
Proof.
  induction l as [|x l IH]; simpl; [reflexivity|].
  destruct (f x) eqn:E; simpl; [rewrite E; f_equal|]; exact IH.
Qed.

Lemma isUIMessageRole_cases (role : jsstring) :
  isUIMessageRole (JStr role) = true ->
  role = lit "user" \/ role = lit "assistant" \/ role = lit "system".
Proof.
  unfold isUIMessageRole, isStr.
  intros [[H|H]%orb_prop|H]%orb_prop; apply str_eqb_eq in H; auto.
Qed.

Lemma get_mkMessage_role (role : jsstring) (parts : list JsValue) :
  get (mkMessage role parts) (lit "role") = JStr role.
Proof. reflexivity. Qed.

Lemma get_mkMessage_parts (role : jsstring) (parts : list JsValue) :
  get (mkMessage role parts) (lit "parts") = JArr parts.
Proof. reflexivity. Qed.

(** On a part of type [text] the filter of every role asks for a
    non-empty text. *)
Lemma keepPart_text (role : jsstring) (part : JsValue) :
  isUIMessageRole (JStr role) = true ->
  isRecord part = true ->
  get part (lit "type") = JStr (lit "text") ->
  keepPart role part = nonEmptyText (get part (lit "text")).
Proof.
  intros Hrole Hrec Hty. unfold keepPart. rewrite Hrec, Hty.
  destruct (isUIMessageRole_cases role Hrole) as [-> | [-> | ->]]; reflexivity.
Qed.

(** The text part built from a trimmed, non-empty flat text passes the
    filter of every role. *)
Lemma keepPart_textPart (role t : jsstring) :
  isUIMessageRole (JStr role) = true ->
  truthy (trim t) = true ->
  keepPart role (textPart (trim t)) = true.
Proof.
  intros Hrole Ht.
  rewrite (keepPart_text role _ Hrole); [|reflexivity|reflexivity].
  change (get (textPart (trim t)) (lit "text")) with (JStr (trim t)).
  unfold nonEmptyText. now rewrite trim_idem.
Qed.

(** A message of the shape the sanitizer builds, whose parts all pass
    the filter of its role, is returned as it is. *)
Lemma sanitizeMessage_mkMessage (role : jsstring) (parts : list JsValue) :
  isUIMessageRole (JStr role) = true ->
  parts <> [] ->
  List.filter (keepPart role) parts = parts ->
  sanitizeMessage (mkMessage role parts) = Some (mkMessage role parts).
Proof.
  intros Hrole Hne Hfix. unfold sanitizeMessage.
  change (isRecord (mkMessage role parts)) with true.
  rewrite get_mkMessage_role, Hrole, get_mkMessage_parts, Hfix.
  destruct parts; [contradiction|reflexivity].
Qed.

Lemma fromFallbackText_fixed (role : jsstring) (raw m : JsValue) :
  isUIMessageRole (JStr role) = true ->
  fromFallbackText role raw = Some m ->
  sanitizeMessage m = Some m.
Proof.
  intros Hrole. unfold fromFallbackText.
  destruct (nullish _ _) as [| | | |s| |]; try discriminate.
  destruct (truthy (trim s)) eqn:Ht; [|discriminate]. intros [= <-].
  apply sanitizeMessage_mkMessage; [exact Hrole|discriminate|].
  cbn [List.filter]. now rewrite keepPart_textPart.
Qed.

(** Every message the sanitizer pushes is a fixed point of the
    per-message step. *)
Lemma sanitizeMessage_fixed (raw m : JsValue) :
  sanitizeMessage raw = Some m -> sanitizeMessage m = Some m.
Proof.
  unfold sanitizeMessage.
  destruct (isRecord raw); [|discriminate]. cbn [negb].
  destruct (isUIMessageRole (get raw (lit "role"))) eqn:Hrole; [|discriminate].
  cbn [negb]. destruct (get raw (lit "role")) as [| | | |role| |]; try discriminate.
  destruct (get raw (lit "parts")) as [| | | | |parts|];
    try apply (fromFallbackText_fixed role raw m Hrole).
  destruct (List.filter (keepPart role) parts) as [|p kept] eqn:Hk.
  - apply (fromFallbackText_fixed role raw m Hrole).
  - intros [= <-]. apply sanitizeMessage_mkMessage; [exact Hrole|discriminate|].
    rewrite <- Hk. apply filter_fixed.
Qed.

Lemma omap_fixed {A} (f : A -> option A) (l : list A) :
  Forall (fun x => f x = Some x) l -> omap f l = l.
Proof.
  induction 1 as [|x l Hx _ IH]; simpl; [reflexivity|].
  rewrite Hx. f_equal. exact IH.
Qed.

Lemma omap_sanitizeMessage_fixed (raws : list JsValue) :
  Forall (fun m => sanitizeMessage m = Some m) (omap sanitizeMessage raws).
Proof.
  induction raws as [|raw raws IH]; simpl; [constructor|].
  destruct (sanitizeMessage raw) as [m|] eqn:E; [|exact IH].
  constructor; [|exact IH]. exact (sanitizeMessage_fixed raw m E).
Qed.

Lemma sanitize_array_spec (raws : list JsValue) :
  exists dropped,
    omap sanitizeMessage raws = sanitizeMessagesForModel (JArr raws) ++ dropped
    /\ Forall (fun m => isUserMessage m = false) dropped
    /\ (sanitizeMessagesForModel (JArr raws) = []
        \/ exists m, last (sanitizeMessagesForModel (JArr raws)) = Some m
                     /\ get m (lit "role") = JStr (lit "user")).
Proof.
  unfold sanitizeMessagesForModel.
  destruct (popTrailing_spec (length (omap sanitizeMessage raws))
              (omap sanitizeMessage raws) (Nat.le_refl _))
    as (dropped & Heq & Hall & Hend).
  exists dropped. repeat split; [exact Heq|exact Hall|].
  destruct Hend as [H | (m & Hlast & Hm)]; [now left|].
  right. exists m. split; [exact Hlast|].
  unfold isUserMessage, isStr in Hm.
  destruct (get m (lit "role")) as [| | | |s| |]; try discriminate.
  apply str_eqb_eq in Hm. now subst.
Qed.

(** C2: for every raw input the sanitizer's output is empty or its last
    element has role [user]; it is what is left of the per-message
    filtered sequence after trailing messages are removed: the filtered
    sequence is the output followed by the removed messages, and none of
    the removed messages is a user message. *)
Theorem sanitize_ends_with_user (rawMessages : JsValue) :
  (sanitizeMessagesForModel rawMessages = []
   \/ exists m, last (sanitizeMessagesForModel rawMessages) = Some m
                /\ get m (lit "role") = JStr (lit "user"))
  /\ exists dropped,
      match rawMessages with
      | JArr raws => omap sanitizeMessage raws
      | _ => []
      end = sanitizeMessagesForModel rawMessages ++ dropped
      /\ Forall (fun m => isUserMessage m = false) dropped.
Proof.
  destruct rawMessages as [| | | | |raws|];
    try (split; [now left | exists []; split; [reflexivity|constructor]]).
  destruct (sanitize_array_spec raws) as (dropped & Heq & Hall & Hend).
  split; [exact Hend|]. now exists dropped.
Qed.

(** C3: sanitizing the sanitizer's own output returns that output. *)
Theorem sanitize_idempotent (rawMessages : JsValue) :
  sanitizeMessagesForModel (JArr (sanitizeMessagesForModel rawMessages))
  = sanitizeMessagesForModel rawMessages.
Proof.
  destruct rawMessages as [| | | | |raws|]; try reflexivity.
  destruct (sanitize_array_spec raws) as (dropped & Heq & _ & Hend).
  set (out := sanitizeMessagesForModel (JArr raws)) in *.
  assert (Hfix : omap sanitizeMessage out = out).
  { apply omap_fixed.
    pose proof (omap_sanitizeMessage_fixed raws) as Hall.
    rewrite Heq in Hall. now apply Forall_app in Hall as [Hall _]. }
  unfold sanitizeMessagesForModel at 1. rewrite Hfix.
  apply popTrailing_stable.
  destruct Hend as [H | (m & Hlast & Hm)]; [now left|].
  right. exists m. split; [exact Hlast|].
  unfold isUserMessage. rewrite Hm. apply str_eqb_refl.
Qed.

(** *** The user filter *)

(** For a user message the filter keeps every object part that is not a
    step marker, not a tool part and not an empty text. *)
Lemma keepPart_user (part : JsValue) :
  keepPart (lit "user") part =
    isRecord part
    && match get part (lit "type") with
       | JStr type =>
           negb (str_eqb type (lit "step-start"))
           && negb (startsWith type (lit "tool-"))
           && (if str_eqb type (lit "text") then nonEmptyText (get part (lit "text")) else true)
       | _ => true
       end.
Proof.
  unfold keepPart. destruct (isRecord part); [|reflexivity]. cbn [negb andb].
  change (str_eqb (lit "user") (lit "assistant")) with false.
  change (str_eqb (lit "user") (lit "user")) with true. cbv iota.
  destruct (get part (lit "type")) as [| | | |type| |]; try reflexivity.
  destruct (str_eqb type (lit "step-start")); [reflexivity|].
  destruct (startsWith type (lit "tool-")); [reflexivity|].
  cbn [negb andb]. destruct (str_eqb type (lit "text")); [reflexivity|].
  destruct (str_eqb type (lit "file")); reflexivity.
Qed.

(** C7, at the failing input: a user message whose only part is of type
    [reasoning], neither a text nor a file part, keeps that part, while
    the same part is dropped from an assistant or a system message. *)
Theorem user_filter_keeps_other_types :
  let part := JObj [(lit "type", JStr (lit "reasoning")); (lit "text", JStr (lit "hmm"))] in
  let message (role : jsstring) := JObj [(lit "role", JStr role); (lit "parts", JArr [part])] in
  keepPart (lit "user") part = true
  /\ keepPart (lit "assistant") part = false
  /\ keepPart (lit "system") part = false
  /\ sanitizeMessagesForModel (JArr [message (lit "user")]) = [mkMessage (lit "user") [part]]
  /\ sanitizeMessagesForModel (JArr [message (lit "user"); message (lit "assistant")])
     = [mkMessage (lit "user") [part]].
Proof. cbv zeta. repeat split; reflexivity. Qed.

(** *** The tool loop and its fallback *)

Lemma isToolsUnsupportedError_iff (err : JsValue) :
  isToolsUnsupportedError err = true <-> toolsUnsupportedShape err.
Proof.
  unfold isToolsUnsupportedError, toolsUnsupportedShape.
  destruct (isRecord err); cbn [negb]; [|split; [discriminate|intros [H _]; discriminate]].
  destruct (get err (lit "statusCode")) as [| | |n| | |];
    try (split; [discriminate|intros (_ & H & _); discriminate]).
  split.
  - intros [Hn Hm]%andb_prop. apply Z.eqb_eq in Hn. subst n.
    repeat split. now apply orb_prop in Hm.
  - intros (_ & [= ->] & Hm). cbn [Z.eqb Pos.eqb andb]. apply orb_true_iff. exact Hm.
Qed.

Section PostFacts.
Context (P : Secrets.Platform) (K : option jsstring).
Context (session : option jsstring) (db : AiSettings.Database).
Context {Messages Stream : Type}.
Context (convertToModelMessages : list JsValue -> Outcome Messages Exception).
Context (streamText : nat -> StreamTextArgs Messages -> Outcome Stream Exception).
Context (renderSystemPrompt : jsstring -> option jsstring -> jsstring -> Z -> jsstring).

(** The [try]/[catch]: one call when the model answers or throws anything
    else, two when it throws the tools-unsupported error. *)
Lemma streamWithFallback_spec (model : UserModel.LanguageModel) (messages : Messages)
    (system : jsstring) :
  let call (m : UserModel.LanguageModel) :=
    {| arg_model := m; arg_messages := messages; arg_system := system;
       arg_stepCountIs := 10; arg_tools := tools |} in
  streamWithFallback streamText model messages system =
    match streamText 0%nat (call model) with
    | Returned result => (Returned result, [call model])
    | Thrown error =>
        if isToolsUnsupportedError (exn_value error)
        then (streamText 1%nat (call (UserModel.OpenAIModel (lit "gpt-4o"))),
              [call model; call (UserModel.OpenAIModel (lit "gpt-4o"))])
        else (Thrown error, [call model])
    end.
Proof. reflexivity. Qed.

(** The handler on a body it can read, convert and render a prompt for. *)
Lemma POST_streams (body : JsValue) (now : Z) (converted : Messages) (system : jsstring) :
  body <> JUndefined -> body <> JNull ->
  convertToModelMessages (sanitizeMessagesForModel (get body (lit "messages")))
  = Returned converted ->
  systemPromptOf renderSystemPrompt body now = Some system ->
  POST P K session db convertToModelMessages streamText renderSystemPrompt
    (Returned body) now
  = match streamWithFallback streamText
            (UserModel.getPreferredModelForCurrentUser P K session db
               {| UserModel.purpose := UserModel.chat;
                  UserModel.fallbackOpenAiModelId := lit "gpt-4o";
                  UserModel.requireTools := Some true |})
            converted system with
    | (Returned result, calls) => (StreamResponse result, calls)
    | (Thrown error, calls) => (errorResponse error, calls)
    end.
Proof.
  intros Hundefined Hnull Hconv Hsystem. unfold POST.
  destruct body; try contradiction; now rewrite Hconv, Hsystem.
Qed.

(** What the [catch] is written for: were the first [streamText] call
    itself to throw, an error with status 400 whose message or response
    body contains the marker would make the handler call [streamText]
    once more, on [openai('gpt-4o')], with the same messages, system
    prompt, step bound and tools, and any other error would go to the
    outer [catch]. *)
Lemma catch_retries_once (body : JsValue) (now : Z) (converted : Messages)
    (system : jsstring) (error : Exception) :
  let model :=
    UserModel.getPreferredModelForCurrentUser P K session db
      {| UserModel.purpose := UserModel.chat;
         UserModel.fallbackOpenAiModelId := lit "gpt-4o";
         UserModel.requireTools := Some true |} in
  let call (m : UserModel.LanguageModel) :=
    {| arg_model := m; arg_messages := converted; arg_system := system;
       arg_stepCountIs := 10; arg_tools := tools |} in
  let run :=
    POST P K session db convertToModelMessages streamText renderSystemPrompt
      (Returned body) now in
  body <> JUndefined -> body <> JNull ->
  convertToModelMessages (sanitizeMessagesForModel (get body (lit "messages")))
  = Returned converted ->
  systemPromptOf renderSystemPrompt body now = Some system ->
  streamText 0%nat (call model) = Thrown error ->
  (toolsUnsupportedShape (exn_value error) ->
   run = (match streamText 1%nat (call (UserModel.OpenAIModel (lit "gpt-4o"))) with
          | Returned result => StreamResponse result
          | Thrown error' => errorResponse error'
          end,
          [call model; call (UserModel.OpenAIModel (lit "gpt-4o"))]))
  /\ (~ toolsUnsupportedShape (exn_value error) ->
      run = (errorResponse error, [call model])).
Proof.
  cbv zeta. intros Hundefined Hnull Hconv Hsystem Hfirst.
  rewrite (POST_streams body now converted system Hundefined Hnull Hconv Hsystem),
    streamWithFallback_spec.
  cbv zeta. rewrite Hfirst.
  split; intros Hshape.
  - apply isToolsUnsupportedError_iff in Hshape. rewrite Hshape.
    destruct (streamText 1%nat _); reflexivity.
  - destruct (isToolsUnsupportedError (exn_value error)) eqn:E; [|reflexivity].
    now apply isToolsUnsupportedError_iff in E.
Qed.

End PostFacts.

Section ProviderErrors.
Context (P : Secrets.Platform) (K : option jsstring).
Context (session : option jsstring) (db : AiSettings.Database).
Context {Messages Answer : Type}.
Context (convertToModelMessages : list JsValue -> Outcome Messages Exception).
Context (provider : nat -> StreamTextArgs Messages -> Outcome Answer JsValue).
Context (renderSystemPrompt : jsstring -> option jsstring -> jsstring -> Z -> jsstring).

(** C4: with [streamText] as the SDK has it, the error a provider answers
    with never reaches the [catch]. When the provider answers the request
    on the resolved model with an error of status 400 whose message or
    response body contains the marker, the handler makes that one call,
    answers with its stream, in which the error is delivered, and makes
    no call on [openai('gpt-4o')], although the error is one the [catch]
    tests for. *)
Theorem provider_error_is_not_retried (body : JsValue) (now : Z) (converted : Messages)
    (system : jsstring) (error : JsValue) :
  let model :=
    UserModel.getPreferredModelForCurrentUser P K session db
      {| UserModel.purpose := UserModel.chat;
         UserModel.fallbackOpenAiModelId := lit "gpt-4o";
         UserModel.requireTools := Some true |} in
  let call :=
    {| arg_model := model; arg_messages := converted; arg_system := system;
       arg_stepCountIs := 10; arg_tools := tools |} in
  body <> JUndefined -> body <> JNull ->
  convertToModelMessages (sanitizeMessagesForModel (get body (lit "messages")))
  = Returned converted ->
  systemPromptOf renderSystemPrompt body now = Some system ->
  provider 0%nat call = Thrown error ->
  toolsUnsupportedShape error ->
  isToolsUnsupportedError error = true
  /\ POST P K session db convertToModelMessages (sdkStreamText provider)
       renderSystemPrompt (Returned body) now
     = (StreamResponse (Thrown error), [call]).
Proof.
  cbv zeta. intros Hundefined Hnull Hconv Hsystem Hfirst Hshape.
  split; [now apply isToolsUnsupportedError_iff|].
  rewrite (POST_streams P K session db convertToModelMessages (sdkStreamText provider)
             renderSystemPrompt body now converted system Hundefined Hnull Hconv Hsystem).
  unfold streamWithFallback, sdkStreamText. now rewrite Hfirst.
Qed.

End ProviderErrors.

Lemma provider_error_is_not_retried_witness :
  let run :=
    POST Secrets.Example.platform None (Some (lit "user-1")) sampleOllamaDb
      Returned (sdkStreamText sampleProvider) samplePrompt (Returned sampleBody) 0 in
  run.1 = StreamResponse (Thrown (exn_value sampleToolsError))
  /\ arg_model <$> run.2
     = [UserModel.OpenAICompatibleModel (lit "ollama") (lit "http://localhost:11434/v1")
          (lit "ollama") (lit "gemma:2b")].
Proof.
  cbv zeta.
  destruct (provider_error_is_not_retried Secrets.Example.platform None
              (Some (lit "user-1")) sampleOllamaDb Returned sampleProvider samplePrompt
              sampleBody 0 (sanitizeMessagesForModel (get sampleBody (lit "messages")))
              (samplePrompt (lit "en") None (lit "undefined") 0)
              (exn_value sampleToolsError)) as [_ Hrun];
    [discriminate | discriminate | reflexivity | reflexivity | reflexivity | |].
  - repeat split. right. reflexivity.
  - rewrite Hrun. split; reflexivity.
Defined.

End ChatRouteFacts.

(** ** The secret codec *)

Module SecretsFacts.
Import Secrets.


Lemma split_noDot (s : jsstring) : noDot s = true -> split dot s = [s].
Proof.
  induction s as [|c s IH]; simpl; [reflexivity|].
  intros [Hc Hs]%andb_prop. apply negb_true_iff in Hc. rewrite Hc, (IH Hs). reflexivity.
Qed.

Lemma split_app_dot (a rest : jsstring) :
  noDot a = true -> split dot (a ++ dot :: rest) = a :: split dot rest.
Proof.
  induction a as [|c a IH]; simpl; [reflexivity|].
  intros [Hc Ha]%andb_prop. apply negb_true_iff in Hc. rewrite Hc, (IH Ha). reflexivity.
Qed.

(** The segments of a token whose first two segments have no separator. *)
Lemma split_token (a b c : jsstring) :
  noDot a = true -> noDot b = true ->
  split dot (a ++ dot :: b ++ dot :: c) = a :: b :: split dot c.
Proof. intros Ha Hb. now rewrite (split_app_dot a _ Ha), (split_app_dot b _ Hb). Qed.

Lemma getKey_configured (P : Platform) (raw : jsstring) :
  truthy raw = true ->
  getKey P (Some raw) = Returned (sha256 P (utf8_encode P raw)).
Proof. intros H. unfold getKey. now rewrite H. Qed.

(** What [decryptSecret] does once the key is derived, by the segments
    of the payload. *)
Lemma decryptSecret_segments (P : Platform) (raw payload : jsstring) :
  truthy raw = true ->
  decryptSecret P (Some raw) payload =
    match split dot payload with
    | a :: b :: c :: _ =>
        if truthy a && truthy b && truthy c
        then decipher P (sha256 P (utf8_encode P raw)) a b c
        else Thrown InvalidPayload
    | _ => Thrown InvalidPayload
    end.
Proof.
  intros Hraw. unfold decryptSecret. rewrite (getKey_configured P raw Hraw).
  destruct (split dot payload) as [|a [|b [|c rest]]]; simpl;
    try reflexivity; try (destruct (truthy a); reflexivity).
  - destruct (truthy a); [|reflexivity]. destruct (truthy b); reflexivity.
  - destruct (truthy a); [|reflexivity]. destruct (truthy b); [|reflexivity].
    destruct (truthy c); reflexivity.
Qed.

Lemma decipher_not_invalid (P : Platform) (key : bytes) (a b c : jsstring) :
  decipher P key a b c <> Thrown InvalidPayload.
Proof. unfold decipher. destruct (gcm_decrypt _ _ _ _ _); discriminate. Qed.

(** A token of four non-empty segments, the first three those of a
    token [encryptSecret] built, is not rejected: it is decrypted from
    its first three segments. *)
Lemma four_segments_decrypted :
  let token := lit "AQIDBAUGBwgJCgsM.OQ==.IiEgcnFw.AAAA" in
  List.length (split dot token) = 4%nat
  /\ forallb truthy (split dot token) = true
  /\ exactlyThreePresent token = false
  /\ decryptSecret Example.platform (Some (lit "k3y")) token = Returned (lit "abc123").
Proof. vm_compute. repeat split; reflexivity. Qed.

(** C6, amended: [decryptSecret] throws the invalid-payload error exactly
    when the encryption key is configured and one of the first three
    segments of the token is missing or empty; segments after the third
    are ignored, so a token of four or more segments whose first three
    are not empty is deciphered from those three. *)
Theorem decrypt_invalid_payload_iff (P : Platform) (ENCRYPTION_KEY : option jsstring)
    (payload : jsstring) :
  (decryptSecret P ENCRYPTION_KEY payload = Thrown InvalidPayload
   <-> keyConfigured ENCRYPTION_KEY = true /\ firstThreePresent payload = false)
  /\ (forall raw a b c d rest,
        ENCRYPTION_KEY = Some raw -> truthy raw = true ->
        split dot payload = a :: b :: c :: d :: rest ->
        truthy a && truthy b && truthy c = true ->
        decryptSecret P ENCRYPTION_KEY payload
        = decipher P (sha256 P (utf8_encode P raw)) a b c).
Proof.
  split.
  - destruct ENCRYPTION_KEY as [raw|]; simpl keyConfigured.
    + destruct (truthy raw) eqn:Hraw.
      * rewrite (decryptSecret_segments P raw payload Hraw). unfold firstThreePresent.
        destruct (split dot payload) as [|a [|b [|c rest]]]; try (split; auto; fail).
        destruct (truthy a && truthy b && truthy c); split; auto.
        -- intros H. now apply decipher_not_invalid in H.
        -- intros [_ H]. discriminate.
      * unfold decryptSecret, getKey. rewrite Hraw. simpl. split; [discriminate|].
        intros [H _]. discriminate.
    + unfold decryptSecret, getKey. split; [discriminate|]. intros [H _]. discriminate.
  - intros raw a b c d rest -> Hraw Hsplit Hpresent.
    rewrite (decryptSecret_segments P raw payload Hraw), Hsplit, Hpresent. reflexivity.
Qed.

Lemma decrypt_invalid_payload_iff_witness :
  decryptSecret Example.platform (Some (lit "k3y")) (lit "AQIDBAUGBwgJCgsM.OQ==.IiEgcnFw.AAAA")
  = decipher Example.platform
      (sha256 Example.platform (utf8_encode Example.platform (lit "k3y")))
      (lit "AQIDBAUGBwgJCgsM") (lit "OQ==") (lit "IiEgcnFw").
Proof.
  apply (proj2 (decrypt_invalid_payload_iff Example.platform (Some (lit "k3y"))
                  (lit "AQIDBAUGBwgJCgsM.OQ==.IiEgcnFw.AAAA"))
           (lit "k3y") _ _ _ (lit "AAAA") []); reflexivity.
Defined.

(** Replacing the first code unit of the ciphertext segment by ['.']
    leaves an empty third segment: the token is rejected as an invalid
    payload before any tag is checked. *)
Example tampered_segment_invalid_payload :
  let token := lit "AQIDBAUGBwgJCgsM.OQ==.IiEgcnFw" in
  encryptSecret Example.platform (Some (lit "k3y")) Example.nonce (lit "abc123")
  = Returned token
  /\ split dot token = [lit "AQIDBAUGBwgJCgsM"; lit "OQ=="; lit "IiEgcnFw"]
  /\ token !! 22%nat = Some 73
  /\ decryptSecret Example.platform (Some (lit "k3y")) (<[22%nat := dot]> token)
     = Thrown InvalidPayload.
Proof. vm_compute. repeat split; reflexivity. Qed.






End SecretsFacts.

(** ** The provider settings store *)

Module AiSettingsFacts.
Import Secrets AiSettings.

Lemma upsert_without_key (P : Platform) (K : option jsstring) (authUserId : jsstring)
    (iv : bytes) (newId : jsstring) (now : Z) (input : JsValue) (data : UpsertData)
    (rows : gmap (list N) TableRow) :
  upsertSchema_parse input = Some data ->
  data_geminiApiKey data = None ->
  textAccepted newId && textAccepted authUserId
  && textColumnsAccepted (storedAfter (rows !! authUserId) newId now data) = true ->
  upsertAiSettingsAction P K (Some authUserId) iv newId now input (Table rows)
  = (Returned tt,
     Table (<[authUserId := storedAfter (rows !! authUserId) newId now data]> rows)).
Proof.
  intros Hparse Hkey Hok. unfold upsertAiSettingsAction.
  rewrite Hparse, Hkey. simpl selectRow. cbv beta iota zeta.
  unfold insertOrUpdate, parametersAccepted. cbn [id].
  replace (textColumnsAccepted _) with
    (textColumnsAccepted (storedAfter (rows !! authUserId) newId now data)).
  - rewrite Hok. cbn [negb]. unfold storedAfter.
    destruct (rows !! authUserId) as [old|]; simpl;
      destruct (data_ollamaHostUrl data) as [h|]; try destruct (truthy h); reflexivity.
  - unfold storedAfter, textColumnsAccepted.
    cbn [preferredProvider geminiApiKeyEncrypted geminiModel ollamaHostUrl ollamaModel].
    destruct (data_ollamaHostUrl data) as [h|]; try destruct (truthy h); reflexivity.
Qed.

(** A patch that names only the provider keeps the stored key, host and
    Ollama model of the user, and the row's id and creation time. *)
Lemma upsert_provider_only_frame (P : Platform) (K : option jsstring)
    (authUserId : jsstring) (iv : bytes) (newId : jsstring) (now : Z)
    (p : AiProvider) (rows : gmap (list N) TableRow) (S : TableRow) :
  rows !! authUserId = Some S ->
  textAccepted newId && textAccepted authUserId
  && textColumnsAccepted
       (storedAfter (Some S) newId now
          {| data_preferredProvider := p; data_geminiApiKey := None;
             data_geminiModel := None; data_ollamaHostUrl := None;
             data_ollamaModel := None |}) = true ->
  upsertAiSettingsAction P K (Some authUserId) iv newId now
    (JObj [(lit "preferredProvider", JStr (providerName p))]) (Table rows)
  = (Returned tt,
     Table (<[authUserId :=
               {| id := id S;
                  preferredProvider := providerName p;
                  geminiApiKeyEncrypted := geminiApiKeyEncrypted S;
                  geminiModel := lit "gemini-flash-latest";
                  ollamaHostUrl := ollamaHostUrl S;
                  ollamaModel := ollamaModel S;
                  createdAt := createdAt S;
                  updatedAt := now |}]> rows)).
Proof.
  intros HS Hok.
  rewrite (upsert_without_key P K authUserId iv newId now _
             {| data_preferredProvider := p; data_geminiApiKey := None;
                data_geminiModel := None; data_ollamaHostUrl := None;
                data_ollamaModel := None |});
    [|destruct p; reflexivity|reflexivity|].
  - unfold storedAfter. rewrite HS. reflexivity.
  - rewrite HS. exact Hok.
Qed.

(** C1, at the failing input: the user has [gemini-2.5-pro] stored and
    sends a patch that names only the provider; the key, the host and the
    Ollama model are kept, and the stored Gemini model becomes
    [gemini-flash-latest]. *)
Theorem upsert_provider_only_resets_gemini_model :
  exists rows',
    upsertAiSettingsAction Example.platform (Some (lit "k3y")) (Some (lit "user-1"))
      Example.nonce (lit "row-2") 2000
      (JObj [(lit "preferredProvider", JStr (lit "ollama"))]) sampleDb
    = (Returned tt, Table rows')
    /\ geminiModel sampleRow = lit "gemini-2.5-pro"
    /\ settingsOf <$> rows' !! lit "user-1"
       = Some (lit "ollama", Some (lit "AQIDBAUGBwgJCgsM.OQ==.IiEgcnFw"),
               lit "gemini-flash-latest", Some (lit "http://localhost:11434"),
               Some (lit "llama3")).
Proof.
  eexists. split; [|split].
  - unfold sampleDb.
    apply (upsert_provider_only_frame _ _ _ _ _ _ ollama _ sampleRow);
      [apply lookup_singleton_eq|reflexivity].
  - reflexivity.
  - rewrite lookup_insert_eq. reflexivity.
Qed.

(** The host of the specification's scenario, normalized. *)
Lemma normalizeHostUrl_scenario :
  normalizeHostUrl (lit "http://localhost:11434/") = lit "http://localhost:11434".
Proof. reflexivity. Qed.

(** A patch without a host keeps the stored host; a patch with a host
    that is not the empty string stores it normalized, or clears it when
    nothing is left of it. *)
Lemma upsert_host (P : Platform) (K : option jsstring) (authUserId : jsstring)
    (iv : bytes) (newId : jsstring) (now : Z) (input : JsValue) (data : UpsertData)
    (rows : gmap (list N) TableRow) :
  upsertSchema_parse input = Some data ->
  data_geminiApiKey data = None ->
  textAccepted newId && textAccepted authUserId
  && textColumnsAccepted (storedAfter (rows !! authUserId) newId now data) = true ->
  exists rows',
    upsertAiSettingsAction P K (Some authUserId) iv newId now input (Table rows)
    = (Returned tt, Table rows')
    /\ (ollamaHostUrl <$> rows' !! authUserId)
       = Some match data_ollamaHostUrl data with
              | None => rows !! authUserId ≫= ollamaHostUrl
              | Some [] => rows !! authUserId ≫= ollamaHostUrl
              | Some h => orNull (normalizeHostUrl h)
              end.
Proof.
  intros Hparse Hkey Hok. eexists. split.
  - apply (upsert_without_key P K authUserId iv newId now input data rows Hparse Hkey Hok).
  - rewrite lookup_insert_eq. unfold storedAfter. simpl.
    destruct (data_ollamaHostUrl data) as [[|c h]|]; reflexivity.
Qed.

(** C8, at the failing input: the user has a host stored and sends a patch
    whose [ollamaHostUrl] is the empty string; the stored host is kept,
    not cleared. *)
Theorem upsert_empty_host_keeps_host :
  exists rows',
    upsertAiSettingsAction Example.platform (Some (lit "k3y")) (Some (lit "user-1"))
      Example.nonce (lit "row-2") 2000
      (JObj [(lit "preferredProvider", JStr (lit "ollama"));
             (lit "geminiModel", JStr (lit "gemini-2.5-pro"));
             (lit "ollamaHostUrl", JStr [])]) sampleDb
    = (Returned tt, Table rows')
    /\ (ollamaHostUrl <$> rows' !! lit "user-1") = Some (Some (lit "http://localhost:11434")).
Proof.
  destruct (upsert_host Example.platform (Some (lit "k3y")) (lit "user-1") Example.nonce
              (lit "row-2") 2000
              (JObj [(lit "preferredProvider", JStr (lit "ollama"));
                     (lit "geminiModel", JStr (lit "gemini-2.5-pro"));
                     (lit "ollamaHostUrl", JStr [])])
              {| data_preferredProvider := ollama; data_geminiApiKey := None;
                 data_geminiModel := Some (lit "gemini-2.5-pro");
                 data_ollamaHostUrl := Some []; data_ollamaModel := None |}
              {[ lit "user-1" := sampleRow ]} eq_refl eq_refl
              ltac:(rewrite lookup_singleton_eq; reflexivity))
    as (rows' & Hrun & Hhost).
  exists rows'. split; [exact Hrun|]. rewrite Hhost. simpl.
  now rewrite lookup_singleton_eq.
Qed.

(** *** The model-listing probe *)

Section Probe.
Context (cmp : jsstring -> jsstring -> comparison).

Lemma insertSorted_perm (x : jsstring) (l : list jsstring) :
  Permutation (insertSorted cmp x l) (x :: l).
Proof.
  induction l as [|y l IH]; simpl; [reflexivity|].
  destruct (cmp x y); try reflexivity.
  rewrite IH. apply perm_swap.
Qed.

(** The sort neither drops nor merges entries. *)
Lemma sortWith_perm (l : list jsstring) : Permutation (sortWith cmp l) l.
Proof.
  induction l as [|x l IH]; simpl; [reflexivity|].
  rewrite insertSorted_perm. now constructor.
Qed.

Hypothesis cmp_total : forall a b, cmp a b = Gt -> cmp b a <> Gt.

Lemma insertSorted_hd (x y : jsstring) (l : list jsstring) :
  notAfter cmp y x -> HdRel (notAfter cmp) y l -> HdRel (notAfter cmp) y (insertSorted cmp x l).
Proof.
  intros Hyx Hhd. destruct l as [|z l]; simpl; [now constructor|].
  inversion Hhd; subst. destruct (cmp x z); now constructor.
Qed.

Lemma insertSorted_sorted (x : jsstring) (l : list jsstring) :
  Sorted (notAfter cmp) l -> Sorted (notAfter cmp) (insertSorted cmp x l).
Proof.
  induction 1 as [|y l Hs IH Hhd]; simpl; [repeat constructor|].
  destruct (cmp x y) eqn:E.
  - constructor; [now constructor|]. constructor. unfold notAfter. congruence.
  - constructor; [now constructor|]. constructor. unfold notAfter. congruence.
  - constructor; [exact IH|]. apply insertSorted_hd; [|exact Hhd].
    now apply cmp_total.
Qed.

Lemma sortWith_sorted (l : list jsstring) : Sorted (notAfter cmp) (sortWith cmp l).
Proof.
  induction l as [|x l IH]; simpl; [constructor|]. now apply insertSorted_sorted.
Qed.

End Probe.

Lemma mapM_entryName (names : list jsstring) :
  mapM entryName ((fun n => JObj [(lit "name", JStr n)]) <$> names) = Some (trim <$> names).
Proof.
  induction names as [|n names IH]; [reflexivity|].
  change (mapM entryName (?f <$> n :: names))
    with (y ← entryName (f n); k ← mapM entryName (f <$> names); mret (y :: k)).
  rewrite IH. reflexivity.
Qed.

Lemma listModels_modelsBody (cmp : jsstring -> jsstring -> comparison)
    (names : list jsstring) :
  listModels cmp (modelsBody names) = Some (sortWith cmp (List.filter truthy (trim <$> names))).
Proof.
  unfold listModels, modelsBody.
  change (get (JObj [(lit "models", ?v)]) (lit "models")) with v.
  cbn [nullish]. now rewrite mapM_entryName.
Qed.

(** The names of a list of entries that all have one. *)
Lemma mapM_entryName_named (entries : list JsValue) (names : list jsstring) :
  Forall2 (fun entry name => get entry (lit "name") = JStr name) entries names ->
  mapM entryName entries = Some (trim <$> names).
Proof.
  induction 1 as [|entry name entries names Hname _ IH]; [reflexivity|].
  change (mapM entryName (entry :: entries))
    with (y ← entryName entry; k ← mapM entryName entries; mret (y :: k)).
  rewrite IH. unfold entryName. rewrite Hname.
  destruct entry; try discriminate Hname. reflexivity.
Qed.

Lemma listModels_named (cmp : jsstring -> jsstring -> comparison) (json : JsValue)
    (entries : list JsValue) (names : list jsstring) :
  get json (lit "models") = JArr entries ->
  Forall2 (fun entry name => get entry (lit "name") = JStr name) entries names ->
  listModels cmp json = Some (sortWith cmp (List.filter truthy (trim <$> names))).
Proof.
  intros Hmodels Hnames. unfold listModels. rewrite Hmodels. cbn [nullish].
  rewrite (mapM_entryName_named _ _ Hnames).
  destruct json; try discriminate Hmodels. reflexivity.
Qed.

(** Two entries of the same name are both listed. *)
Lemma probe_keeps_duplicates :
  getOllamaModelsAction (Some (lit "user-1")) codeUnitCompare
    (fun _ => Responded true (Some (modelsBody [lit "llama3"; lit "mistral"; lit "llama3"])))
    (lit "http://localhost:11434")
  = [lit "llama3"; lit "llama3"; lit "mistral"].
Proof. reflexivity. Qed.

(** The scenario of the specification. *)
Example probe_scenario :
  getOllamaModelsAction (Some (lit "user-1")) codeUnitCompare
    (fun _ => Responded true (Some (modelsBody [lit "b"; lit "a"; []])))
    (lit "http://localhost:11434/")
  = [lit "a"; lit "b"].
Proof. reflexivity. Qed.

(** C9, amended: given a response body whose [models] is a list of
    entries that each have a name, whatever else the body and the entries
    hold, the probe returns the trimmed non-empty names, every one of them
    as often as it is listed (nothing is deduplicated), in the order of
    [localeCompare] when that comparator never puts two names each after
    the other; and when the caller is not signed in, the host is empty,
    the request is rejected or times out, the status is not 2xx, the body
    is not JSON or the listing throws, it returns the empty list. *)
Theorem probe_lists_models (cmp : jsstring -> jsstring -> comparison)
    (session : option jsstring) (fetch : jsstring -> FetchOutcome) (host : jsstring) :
  let url := normalizeHostUrl host ++ lit "/api/tags" in
  let out := getOllamaModelsAction session cmp fetch host in
  (forall (json : JsValue) (entries : list JsValue) (names : list jsstring),
      is_Some session ->
      truthy (normalizeHostUrl host) = true ->
      fetch url = Responded true (Some json) ->
      get json (lit "models") = JArr entries ->
      Forall2 (fun entry name => get entry (lit "name") = JStr name) entries names ->
      out = sortWith cmp (List.filter truthy (trim <$> names))
      /\ Permutation out (List.filter truthy (trim <$> names))
      /\ ((forall a b, cmp a b = Gt -> cmp b a <> Gt) -> Sorted (notAfter cmp) out))
  /\ (session = None
      \/ truthy (normalizeHostUrl host) = false
      \/ fetch url = FetchRejected
      \/ (exists json, fetch url = Responded false json)
      \/ fetch url = Responded true None
      \/ (exists json, fetch url = Responded true (Some json) /\ listModels cmp json = None)
      -> out = []).
Proof.
  cbv zeta. unfold getOllamaModelsAction. split.
  - intros json entries names [uid ->] Hbase Hfetch Hmodels Hnames.
    rewrite Hbase, Hfetch. cbn [negb].
    rewrite (listModels_named cmp json entries names Hmodels Hnames). cbn [default].
    split; [reflexivity|]. split; [apply sortWith_perm|].
    intros Htotal. now apply sortWith_sorted.
  - destruct session as [uid|]; [|reflexivity].
    destruct (truthy (normalizeHostUrl host)); [|reflexivity]. cbn [negb].
    intros [H|[H|[H|[[json H]|[H|(json & H & Hthrow)]]]]];
      try discriminate; rewrite H; try reflexivity.
    cbn [negb]. now rewrite Hthrow.
Qed.

Lemma codeUnitCompare_total (a b : jsstring) :
  codeUnitCompare a b = Gt -> codeUnitCompare b a <> Gt.
Proof.
  revert b. induction a as [|x a IH]; intros [|y b]; simpl; try discriminate.
  destruct (x ?= y) eqn:E.
  - apply N.compare_eq in E. subst. rewrite N.compare_refl. apply IH.
  - discriminate.
  - intros _. rewrite N.compare_antisym, E. discriminate.
Qed.

Lemma probe_lists_models_witness :
  getOllamaModelsAction (Some (lit "user-1")) codeUnitCompare
    (fun _ => Responded true (Some sampleTags)) (lit "http://localhost:11434/")
  = [lit "a"; lit "b"; lit "b"]
  /\ Sorted (notAfter codeUnitCompare) [lit "a"; lit "b"; lit "b"].
Proof.
  destruct (proj1 (probe_lists_models codeUnitCompare (Some (lit "user-1"))
                     (fun _ => Responded true (Some sampleTags))
                     (lit "http://localhost:11434/"))
              sampleTags _ [lit "b"; lit " a "; []; lit "b"]
              (ex_intro _ (lit "user-1") eq_refl) eq_refl eq_refl eq_refl
              ltac:(repeat constructor)) as (Hout & _ & Hsorted).
  split; [exact Hout|]. exact (Hsorted codeUnitCompare_total).
Defined.

End AiSettingsFacts.

(** ** The model resolver *)

Module UserModelFacts.
Import Secrets UserModel JsStringFacts.

(** The scenario of the specification: tools are required and the stored
    Ollama model is of the [deepseek-r1] family, in any case. *)
Example resolver_deepseek_r1_scenario :
  getPreferredModelForCurrentUser Example.platform (Some (lit "k3y")) (Some (lit "user-1"))
    (AiSettings.Table
       {[ lit "user-1" :=
            {| AiSettings.id := lit "row-1";
               AiSettings.preferredProvider := lit "ollama";
               AiSettings.geminiApiKeyEncrypted := None;
               AiSettings.geminiModel := lit "gemini-flash-latest";
               AiSettings.ollamaHostUrl := Some (lit "http://localhost:11434");
               AiSettings.ollamaModel := Some (lit "DeepSeek-R1:8b");
               AiSettings.createdAt := 1000;
               AiSettings.updatedAt := 1000 |} ]})
    {| purpose := chat; fallbackOpenAiModelId := lit "gpt-4o"; requireTools := Some true |}
  = OpenAIModel (lit "gpt-4o").
Proof.
  unfold getPreferredModelForCurrentUser, selectSettings, AiSettings.selectRow.
  rewrite lookup_singleton_eq. reflexivity.
Qed.

(** C10: when no settings row exists for the user, or the stored preferred
    provider is neither [gemini] nor [ollama] ([openai] or anything else),
    the resolver returns the OpenAI handle of the caller's
    [fallbackOpenAiModelId], whatever the row's Gemini and Ollama columns
    hold. *)
Theorem resolver_falls_back_to_openai (P : Platform) (K : option jsstring)
    (authUserId : jsstring) (rows : gmap (list N) AiSettings.TableRow) (options : Options) :
  (rows !! authUserId = None
   \/ exists row, rows !! authUserId = Some row
                  /\ AiSettings.preferredProvider row <> lit "gemini"
                  /\ AiSettings.preferredProvider row <> lit "ollama") ->
  getPreferredModelForCurrentUser P K (Some authUserId) (AiSettings.Table rows) options
  = OpenAIModel (fallbackOpenAiModelId options).
Proof.
  unfold getPreferredModelForCurrentUser, selectSettings, AiSettings.selectRow.
  intros [-> | (row & -> & Hgemini & Hollama)]; [reflexivity|].
  cbn [fmap option_fmap option_map rowOf preferredProvider default]. unfold id.
  now rewrite (str_eqb_neq _ _ Hgemini), (str_eqb_neq _ _ Hollama).
Qed.

Lemma resolver_falls_back_to_openai_witness :
  getPreferredModelForCurrentUser Example.platform (Some (lit "k3y")) (Some (lit "user-1"))
    (AiSettings.Table
       {[ lit "user-1" :=
            {| AiSettings.id := lit "row-1";
               AiSettings.preferredProvider := lit "openai";
               AiSettings.geminiApiKeyEncrypted := Some (lit "AQIDBAUGBwgJCgsM.OQ==.IiEgcnFw");
               AiSettings.geminiModel := lit "gemini-2.5-pro";
               AiSettings.ollamaHostUrl := Some (lit "http://localhost:11434");
               AiSettings.ollamaModel := Some (lit "llama3");
               AiSettings.createdAt := 1000;
               AiSettings.updatedAt := 1000 |} ]})
    {| purpose := chat; fallbackOpenAiModelId := lit "gpt-4o-mini"; requireTools := Some true |}
  = OpenAIModel (lit "gpt-4o-mini").
Proof.
  apply resolver_falls_back_to_openai. right. eexists. split.
  - apply lookup_singleton_eq.
  - split; discriminate.
Defined.

End UserModelFacts.

(** ** More on the provider settings store *)

Module AiSettingsMore.
Import Secrets AiSettings JsStringFacts.

(** Every path of the upsert, by what it returns and leaves stored. *)
Lemma upsert_spec (P : Platform) (K session : option jsstring) (iv : bytes)
    (newId : jsstring) (now : Z) (input : JsValue) (db : Database) :
  upsertAiSettingsAction P K session iv newId now input db =
    match session with
    | None => (Thrown NotAuthenticated, db)
    | Some authUserId =>
        match upsertSchema_parse input with
        | None => (Thrown ZodError, db)
        | Some data =>
            match db with
            | TableMissing =>
                match nextKey P K iv None data with
                | Thrown e => (Thrown (SecretFailure e), db)
                | Returned _ => (Thrown SaveFailed, db)
                end
            | Table rows =>
                match nextKey P K iv (rows !! authUserId) data with
                | Thrown e => (Thrown (SecretFailure e), db)
                | Returned key =>
                    let row := rowAfter (rows !! authUserId) newId now data key in
                    if textAccepted newId && textAccepted authUserId
                       && textColumnsAccepted row
                    then (Returned tt, Table (<[authUserId := row]> rows))
                    else (Thrown SaveFailed, db)
                end
            end
        end
    end.
Proof.
  unfold upsertAiSettingsAction, nextKey, rowAfter.
  destruct session as [authUserId|]; [|reflexivity].
  destruct (upsertSchema_parse input) as [data|]; [|reflexivity].
  destruct db as [|rows]; simpl selectRow; cbv beta iota zeta.
  - destruct (data_geminiApiKey data) as [k|]; [|reflexivity].
    destruct (truthy (trim k)); [|reflexivity].
    destruct (encryptSecret P K iv (trim k)); reflexivity.
  - unfold insertOrUpdate, parametersAccepted, textColumnsAccepted.
    cbn [id preferredProvider geminiApiKeyEncrypted geminiModel ollamaHostUrl ollamaModel].
    assert (Hwrite : forall (key host : option jsstring),
      (let new :=
         {| id := newId;
            preferredProvider := providerName (data_preferredProvider data);
            geminiApiKeyEncrypted := key;
            geminiModel := default (lit "gemini-flash-latest") (data_geminiModel data);
            ollamaHostUrl := host;
            ollamaModel :=
              match data_ollamaModel data with
              | Some m => orNull (trim m)
              | None => rows !! authUserId ≫= ollamaModel
              end;
            createdAt := now; updatedAt := now |} in
       let accepted :=
         textAccepted newId && textAccepted authUserId
         && (textAccepted (preferredProvider new) && nullableAccepted key
             && textAccepted (geminiModel new) && nullableAccepted host
             && nullableAccepted (ollamaModel new)) in
       match
         (if negb accepted then Thrown tt
          else Returned
                 (Table (<[authUserId :=
                            match rows !! authUserId with
                            | Some old =>
                                {| id := id old;
                                   preferredProvider := preferredProvider new;
                                   geminiApiKeyEncrypted := geminiApiKeyEncrypted new;
                                   geminiModel := geminiModel new;
                                   ollamaHostUrl := ollamaHostUrl new;
                                   ollamaModel := ollamaModel new;
                                   createdAt := createdAt old;
                                   updatedAt := updatedAt new |}
                            | None => new
                            end]> rows)))
       with
       | Returned db' => (Returned tt, db')
       | Thrown _ => (Thrown SaveFailed, Table rows)
       end
       = if accepted
         then (Returned tt,
               Table (<[authUserId :=
                         {| id := default newId (id <$> rows !! authUserId);
                            preferredProvider := preferredProvider new;
                            geminiApiKeyEncrypted := key;
                            geminiModel := geminiModel new;
                            ollamaHostUrl := host;
                            ollamaModel := ollamaModel new;
                            createdAt := default now (createdAt <$> rows !! authUserId);
                            updatedAt := now |}]> rows))
         else (Thrown SaveFailed, Table rows))).
    { intros key host. cbv zeta.
      cbn [id preferredProvider geminiApiKeyEncrypted geminiModel ollamaHostUrl ollamaModel
           createdAt updatedAt].
      destruct (textAccepted newId && textAccepted authUserId && _); cbn [negb];
        [|reflexivity].
      destruct (rows !! authUserId); reflexivity. }
    cbv zeta in Hwrite.
    cbn [id preferredProvider geminiApiKeyEncrypted geminiModel ollamaHostUrl ollamaModel
         createdAt updatedAt] in Hwrite.
    destruct (data_geminiApiKey data) as [k|].
    + destruct (truthy (trim k)).
      * destruct (encryptSecret P K iv (trim k)); [|reflexivity].
        destruct (data_ollamaHostUrl data) as [h|]; try destruct (truthy h);
          apply Hwrite.
      * destruct (data_ollamaHostUrl data) as [h|]; try destruct (truthy h); apply Hwrite.
    + destruct (data_ollamaHostUrl data) as [h|]; try destruct (truthy h); apply Hwrite.
Qed.

(** What a successful upsert tells about its arguments. *)
Lemma upsert_success (P : Platform) (K session : option jsstring) (iv : bytes)
    (newId : jsstring) (now : Z) (input : JsValue) (db db' : Database) :
  upsertAiSettingsAction P K session iv newId now input db = (Returned tt, db') ->
  exists authUserId data rows key,
    session = Some authUserId
    /\ upsertSchema_parse input = Some data
    /\ db = Table rows
    /\ nextKey P K iv (rows !! authUserId) data = Returned key
    /\ db' = Table (<[authUserId := rowAfter (rows !! authUserId) newId now data key]> rows).
Proof.
  rewrite upsert_spec.
  destruct session as [authUserId|]; [|discriminate].
  destruct (upsertSchema_parse input) as [data|]; [|discriminate].
  destruct db as [|rows].
  - destruct (nextKey P K iv None data); discriminate.
  - destruct (nextKey P K iv (rows !! authUserId) data) as [key|e] eqn:Hkey; [|discriminate].
    cbv zeta. destruct (textAccepted newId && textAccepted authUserId && _); [|discriminate].
    intros [= <-]. now exists authUserId, data, rows, key.
Qed.

Lemma get_stored (authUserId : jsstring) (rows : gmap (list N) TableRow) :
  getAiSettingsAction (Some authUserId) (Table rows)
  = default defaultView (viewOf <$> rows !! authUserId).
Proof.
  unfold getAiSettingsAction. simpl selectRow.
  destruct (rows !! authUserId) as [r|]; reflexivity.
Qed.

Lemma parseProvider_name (p : AiProvider) : parseProvider (JStr (providerName p)) = Some p.
Proof. destruct p; reflexivity. Qed.

(** A token is never the empty string: it holds two separators. *)
Lemma encryptSecret_truthy (P : Platform) (K : option jsstring) (iv : bytes)
    (x token : jsstring) :
  encryptSecret P K iv x = Returned token -> truthy token = true.
Proof.
  unfold encryptSecret. destruct (getKey P K) as [key|]; [|discriminate].
  destruct (gcm_encrypt P key iv (utf8_encode P x)) as [ct tag].
  intros [= <-]. destruct (base64_encode P iv); reflexivity.
Qed.

Lemma nextKey_truthy (P : Platform) (K : option jsstring) (iv : bytes)
    (current : option TableRow) (data : UpsertData) (k token : jsstring) :
  data_geminiApiKey data = Some k ->
  nextKey P K iv current data = Returned (Some token) ->
  truthy (trim k) = true /\ truthy token = true.
Proof.
  unfold nextKey. intros ->. destruct (truthy (trim k)); [|discriminate].
  destruct (encryptSecret P K iv (trim k)) as [t|] eqn:E; [|discriminate].
  intros [= <-]. split; [reflexivity|]. exact (encryptSecret_truthy _ _ _ _ _ E).
Qed.

(** X1: an upsert that throws leaves the database as it was; an upsert
    never touches the row of another user; and one that succeeds on a user
    who has a row keeps that row's id and creation time and stamps
    [updatedAt] with the time of the call. *)
Theorem upsert_frame (P : Platform) (K session : option jsstring) (iv : bytes)
    (newId : jsstring) (now : Z) (input : JsValue) (db : Database) :
  let result := upsertAiSettingsAction P K session iv newId now input db in
  (forall e, result.1 = Thrown e -> result.2 = db)
  /\ (forall other, session <> Some other -> selectRow result.2 other = selectRow db other)
  /\ (forall authUserId old,
        session = Some authUserId -> selectRow db authUserId = Returned (Some old) ->
        result.1 = Returned tt ->
        exists new, selectRow result.2 authUserId = Returned (Some new)
                    /\ id new = id old /\ createdAt new = createdAt old
                    /\ updatedAt new = now).
Proof.
  cbv zeta. rewrite upsert_spec.
  destruct session as [authUserId|]; [|repeat split; try reflexivity; discriminate].
  destruct (upsertSchema_parse input) as [data|];
    [|repeat split; try reflexivity; discriminate].
  destruct db as [|rows].
  - destruct (nextKey P K iv None data); repeat split; try reflexivity; discriminate.
  - destruct (nextKey P K iv (rows !! authUserId) data) as [key|e];
      [|repeat split; try reflexivity; discriminate].
    cbv zeta. destruct (textAccepted newId && textAccepted authUserId && _);
      [|repeat split; try reflexivity; discriminate].
    split; [discriminate|]. split.
    + intros other Hother. simpl. f_equal. apply lookup_insert_ne. congruence.
    + intros uid old [= <-] [= Hold] _. simpl. rewrite lookup_insert_eq.
      eexists. split; [reflexivity|]. rewrite Hold. now repeat split.
Qed.

(** X2: reading the settings never fails: without a session, without the
    table or without a row it returns the defaults (provider [gemini],
    model [gemini-flash-latest], no key, empty host and model); and a
    stored provider outside the three names is shown as [gemini]. *)
Theorem get_settings_defaults (session : option jsstring) (db : Database) :
  (session = None
   \/ db = TableMissing
   \/ (exists authUserId rows,
         session = Some authUserId /\ db = Table rows /\ rows !! authUserId = None)
   -> getAiSettingsAction session db = defaultView)
  /\ (forall authUserId rows r,
        session = Some authUserId -> db = Table rows -> rows !! authUserId = Some r ->
        parseProvider (JStr (preferredProvider r)) = None ->
        view_preferredProvider (getAiSettingsAction session db) = gemini).
Proof.
  split.
  - intros [-> | [-> | (authUserId & rows & -> & -> & Hnone)]].
    + reflexivity.
    + destruct session; reflexivity.
    + now rewrite get_stored, Hnone.
  - intros authUserId rows r -> -> Hr Hp. rewrite get_stored, Hr. simpl. now rewrite Hp.
Qed.

(** X3: after a successful upsert the settings read shows what the patch
    says: its provider, its Gemini model or [gemini-flash-latest] when it
    has none, a key exactly when the patch brought a non-blank one (as
    before when it brought none), its normalized host (as before when the
    host is absent or the empty string) and its trimmed Ollama model (as
    before when absent). *)
Theorem get_after_upsert (P : Platform) (K session : option jsstring) (iv : bytes)
    (newId : jsstring) (now : Z) (input : JsValue) (db db' : Database) :
  upsertAiSettingsAction P K session iv newId now input db = (Returned tt, db') ->
  exists data,
    upsertSchema_parse input = Some data
    /\ let before := getAiSettingsAction session db in
       let after := getAiSettingsAction session db' in
       view_preferredProvider after = data_preferredProvider data
       /\ view_geminiModel after
          = default (lit "gemini-flash-latest") (data_geminiModel data)
       /\ view_hasGeminiApiKey after
          = match data_geminiApiKey data with
            | Some k => truthy (trim k)
            | None => view_hasGeminiApiKey before
            end
       /\ view_ollamaHostUrl after
          = match data_ollamaHostUrl data with
            | Some (c :: h) => normalizeHostUrl (c :: h)
            | _ => view_ollamaHostUrl before
            end
       /\ view_ollamaModel after
          = match data_ollamaModel data with
            | Some m => trim m
            | None => view_ollamaModel before
            end.
Proof.
  intros Hrun.
  destruct (upsert_success _ _ _ _ _ _ _ _ _ Hrun)
    as (authUserId & data & rows & key & -> & Hparse & -> & Hkey & ->).
  exists data. split; [exact Hparse|]. cbv zeta.
  rewrite !get_stored, lookup_insert_eq. cbn [fmap option_fmap option_map default from_option id].
  unfold viewOf, rowAfter.
  cbn [preferredProvider geminiModel geminiApiKeyEncrypted ollamaHostUrl ollamaModel
       view_preferredProvider view_geminiModel view_hasGeminiApiKey view_ollamaHostUrl
       view_ollamaModel].
  rewrite parseProvider_name. repeat split.
  - destruct (data_geminiApiKey data) as [k|] eqn:Hk.
    + destruct key as [token|].
      * destruct (nextKey_truthy _ _ _ _ _ _ _ Hk Hkey) as [-> ->]. reflexivity.
      * unfold nextKey in Hkey. rewrite Hk in Hkey.
        destruct (truthy (trim k)); [|reflexivity].
        destruct (encryptSecret P K iv (trim k)); discriminate.
    + unfold nextKey in Hkey. rewrite Hk in Hkey. injection Hkey as <-.
      destruct (rows !! authUserId); reflexivity.
  - destruct (data_ollamaHostUrl data) as [[|c h]|]; cbn [truthy].
    + destruct (rows !! authUserId); reflexivity.
    + unfold orNull. destruct (normalizeHostUrl (c :: h)); reflexivity.
    + destruct (rows !! authUserId); reflexivity.
  - destruct (data_ollamaModel data) as [m|].
    + unfold orNull. destruct (trim m); reflexivity.
    + destruct (rows !! authUserId); reflexivity.
Qed.

(** The scenario of the specification: a key and a model for Gemini, then
    a read. *)
Lemma get_after_upsert_witness :
  exists db',
    upsertAiSettingsAction Example.platform (Some (lit "k3y")) (Some (lit "user-2"))
      Example.nonce (lit "row-2") 2000
      (JObj [(lit "preferredProvider", JStr (lit "gemini"));
             (lit "geminiApiKey", JStr (lit "abc123"));
             (lit "geminiModel", JStr (lit "gemini-2.5-pro"))]) sampleDb
    = (Returned tt, db')
    /\ getAiSettingsAction (Some (lit "user-2")) db'
       = {| view_preferredProvider := gemini;
            view_geminiModel := lit "gemini-2.5-pro";
            view_hasGeminiApiKey := true;
            view_ollamaHostUrl := [];
            view_ollamaModel := [] |}.
Proof.
  eexists. split; [rewrite upsert_spec; reflexivity|].
  destruct (get_after_upsert Example.platform (Some (lit "k3y")) (Some (lit "user-2"))
              Example.nonce (lit "row-2") 2000
              (JObj [(lit "preferredProvider", JStr (lit "gemini"));
                     (lit "geminiApiKey", JStr (lit "abc123"));
                     (lit "geminiModel", JStr (lit "gemini-2.5-pro"))]) sampleDb _
              ltac:(rewrite upsert_spec; reflexivity))
    as (data & [= <-] & Hp & Hm & Hk & Hh & Ho).
  cbv zeta in *.
  destruct (getAiSettingsAction _ _) as [p m k h o]. simpl in *.
  rewrite Hp, Hm, Hk, Hh, Ho.
  rewrite lookup_singleton_ne; [reflexivity|].
  intros H. vm_compute in H. discriminate H.
Defined.

(** X4: the key column. After a successful upsert, a patch without a key
    has kept the stored key and a patch with a blank key has cleared it,
    both whatever [ENCRYPTION_KEY] is, and a patch with a non-blank key
    has stored the token of the trimmed key; when [ENCRYPTION_KEY] is not
    configured a patch with a non-blank key throws the missing-key error
    and stores nothing. *)
Theorem upsert_key_column (P : Platform) (K : option jsstring) (authUserId : jsstring)
    (iv : bytes) (newId : jsstring) (now : Z) (input : JsValue) (data : UpsertData)
    (rows : gmap (list N) TableRow) :
  upsertSchema_parse input = Some data ->
  let run := upsertAiSettingsAction P K (Some authUserId) iv newId now input (Table rows) in
  let storedKey (db' : Database) :=
    match db' with
    | Table rows' => geminiApiKeyEncrypted <$> rows' !! authUserId
    | TableMissing => None
    end in
  match data_geminiApiKey data with
  | None =>
      forall db', run = (Returned tt, db') ->
                  storedKey db' = Some (rows !! authUserId ≫= geminiApiKeyEncrypted)
  | Some k =>
      if truthy (trim k) then
        (keyConfigured K = false ->
         run = (Thrown (SecretFailure MissingEncryptionKey), Table rows))
        /\ (forall token db',
              encryptSecret P K iv (trim k) = Returned token ->
              run = (Returned tt, db') ->
              storedKey db' = Some (Some token))
      else forall db', run = (Returned tt, db') -> storedKey db' = Some None
  end.
Proof.
  intros Hparse. cbv beta zeta.
  assert (Hstored : forall db',
    upsertAiSettingsAction P K (Some authUserId) iv newId now input (Table rows)
    = (Returned tt, db') ->
    exists key,
      nextKey P K iv (rows !! authUserId) data = Returned key
      /\ match db' with
         | Table rows' => geminiApiKeyEncrypted <$> rows' !! authUserId
         | TableMissing => None
         end = Some key).
  { intros db' Hrun.
    destruct (upsert_success _ _ _ _ _ _ _ _ _ Hrun)
      as (u & data' & rows0 & key & [= <-] & Hparse' & [= <-] & Hkey & ->).
    rewrite Hparse in Hparse'. injection Hparse' as <-.
    exists key. split; [exact Hkey|]. now rewrite lookup_insert_eq. }
  assert (Hmissing : forall k,
    data_geminiApiKey data = Some k -> truthy (trim k) = true -> keyConfigured K = false ->
    upsertAiSettingsAction P K (Some authUserId) iv newId now input (Table rows)
    = (Thrown (SecretFailure MissingEncryptionKey), Table rows)).
  { intros k Hk Ht HK. rewrite upsert_spec, Hparse. unfold nextKey.
    rewrite Hk, Ht. unfold encryptSecret, getKey.
    destruct K as [raw|]; [|reflexivity]. simpl in HK. now rewrite HK. }
  unfold nextKey in Hstored.
  destruct (data_geminiApiKey data) as [k|].
  - destruct (truthy (trim k)) eqn:Ht.
    + split.
      * intros HK. apply (Hmissing k); [reflexivity|exact Ht|exact HK].
      * intros token db' Henc Hrun. destruct (Hstored db' Hrun) as (key & Hkey & ->).
        rewrite Henc in Hkey. now injection Hkey as <-.
    + intros db' Hrun. destruct (Hstored db' Hrun) as (key & Hkey & ->).
      now injection Hkey as <-.
  - intros db' Hrun. destruct (Hstored db' Hrun) as (key & Hkey & ->).
    now injection Hkey as <-.
Qed.

Lemma upsert_key_column_witness :
  exists db',
    upsertAiSettingsAction Example.platform None (Some (lit "user-1")) Example.nonce
      (lit "row-2") 2000
      (JObj [(lit "preferredProvider", JStr (lit "openai"));
             (lit "geminiApiKey", JStr (lit "  "))]) sampleDb
    = (Returned tt, db')
    /\ match db' with
       | Table rows' => geminiApiKeyEncrypted <$> rows' !! lit "user-1"
       | TableMissing => None
       end = Some None.
Proof.
  eexists. split; [rewrite upsert_spec; reflexivity|].
  apply (upsert_key_column Example.platform None (lit "user-1") Example.nonce
           (lit "row-2") 2000
           (JObj [(lit "preferredProvider", JStr (lit "openai"));
                  (lit "geminiApiKey", JStr (lit "  "))])
           {| data_preferredProvider := openai; data_geminiApiKey := Some (lit "  ");
              data_geminiModel := None; data_ollamaHostUrl := None;
              data_ollamaModel := None |}
           {[ lit "user-1" := sampleRow ]} eq_refl).
  rewrite upsert_spec. reflexivity.
Defined.

(** A patch whose Ollama model holds the code unit 0 is not saved. *)
Example upsert_rejects_nul :
  upsertAiSettingsAction Example.platform None (Some (lit "user-1")) Example.nonce
    (lit "row-2") 2000
    (JObj [(lit "preferredProvider", JStr (lit "ollama"));
           (lit "ollamaModel", JStr (lit "a" ++ [0] ++ lit "b"))]) sampleDb
  = (Thrown SaveFailed, sampleDb).
Proof. rewrite upsert_spec. reflexivity. Qed.

Lemma parse_model_allowed (input : JsValue) (data : UpsertData) :
  upsertSchema_parse input = Some data ->
  geminiModelAllowed (JStr (default (lit "gemini-flash-latest") (data_geminiModel data)))
  = true.
Proof.
  unfold upsertSchema_parse. destruct input; try discriminate.
  destruct (parseProvider _); [|discriminate].
  destruct (parseOptionalString _); [|discriminate].
  destruct (parseOptionalString _) as [[m|]|]; try discriminate;
    destruct (parseOptionalString _); try discriminate;
    destruct (parseOptionalString _); try discriminate.
  - destruct (geminiModelAllowed (JStr m)) eqn:E; [|discriminate]. now intros [= <-].
  - now intros [= <-].
Qed.

Lemma orNull_notEmpty (x : jsstring) : notEmptyString (orNull x).
Proof. unfold orNull, notEmptyString. destruct x; discriminate. Qed.

Lemma rowAfter_wellFormed (P : Platform) (K : option jsstring) (iv : bytes)
    (current : option TableRow) (newId : jsstring) (now : Z) (input : JsValue)
    (data : UpsertData) (key : option jsstring) :
  upsertSchema_parse input = Some data ->
  nextKey P K iv current data = Returned key ->
  (forall r, current = Some r -> wellFormedRow r) ->
  wellFormedRow (rowAfter current newId now data key).
Proof.
  intros Hparse Hkey Hcur. unfold wellFormedRow, rowAfter. simpl.
  assert (Hold : forall (col : TableRow -> option jsstring),
             (forall r, wellFormedRow r -> notEmptyString (col r)) ->
             notEmptyString (current ≫= col)).
  { intros col Hcol. destruct current as [r|]; [|discriminate]. apply Hcol, Hcur. reflexivity. }
  split; [rewrite parseProvider_name; eauto|].
  split; [exact (parse_model_allowed _ _ Hparse)|].
  split; [|split; [|split]].
  - unfold nextKey in Hkey. destruct (data_geminiApiKey data) as [k|].
    + destruct (truthy (trim k)); [|injection Hkey as <-; discriminate].
      destruct (encryptSecret P K iv (trim k)) as [token|] eqn:E; [|discriminate].
      injection Hkey as <-. apply encryptSecret_truthy in E.
      intros [= ->]. discriminate.
    + injection Hkey as <-. apply Hold. now intros r (_ & _ & H & _).
  - destruct (data_ollamaHostUrl data) as [h|];
      [destruct (truthy h); [apply orNull_notEmpty|]|];
      apply Hold; now intros r (_ & _ & _ & H & _).
  - destruct (data_ollamaModel data) as [m|]; [apply orNull_notEmpty|].
    apply Hold. now intros r (_ & _ & _ & _ & H & _).
  - destruct (data_ollamaModel data) as [m|].
    + unfold orNull. destruct (truthy (trim m)); [|discriminate].
      intros ? [= <-]. apply trim_idem.
    + destruct current as [r|]; [|discriminate]. simpl.
      destruct (Hcur r eq_refl) as (_ & _ & _ & _ & _ & H). exact H.
Qed.

(** X5: the table stays well formed. If every row has a provider and a
    Gemini model of the schema, no nullable column holding the empty
    string and a trimmed Ollama model, then so has every row after an
    upsert, whatever the patch and whether or not it succeeds. *)
Theorem upsert_keeps_rows_well_formed (P : Platform) (K session : option jsstring)
    (iv : bytes) (newId : jsstring) (now : Z) (input : JsValue)
    (rows : gmap (list N) TableRow) :
  (forall u r, rows !! u = Some r -> wellFormedRow r) ->
  forall u r,
    selectRow (upsertAiSettingsAction P K session iv newId now input (Table rows)).2 u
    = Returned (Some r) ->
    wellFormedRow r.
Proof.
  intros Hrows u r. rewrite upsert_spec.
  destruct session as [authUserId|]; [|intros [= H]; eauto].
  destruct (upsertSchema_parse input) as [data|] eqn:Hparse; [|intros [= H]; eauto].
  destruct (nextKey P K iv (rows !! authUserId) data) as [key|e] eqn:Hkey;
    [|intros [= H]; eauto].
  cbv zeta. destruct (textAccepted newId && textAccepted authUserId && _);
    [|intros [= H]; eauto].
  simpl. intros [= H]. rewrite lookup_insert in H. case_decide.
  - injection H as <-. apply (rowAfter_wellFormed P K iv _ _ _ input _ _ Hparse Hkey).
    intros r' Hr'. eauto.
  - eauto.
Qed.

Lemma upsert_keeps_rows_well_formed_witness :
  wellFormedRow
    (rowAfter (Some sampleRow) (lit "row-2") 2000
       {| data_preferredProvider := ollama; data_geminiApiKey := None;
          data_geminiModel := None; data_ollamaHostUrl := Some (lit " http://host:11434/ ");
          data_ollamaModel := Some (lit " llama3 ") |}
       (geminiApiKeyEncrypted sampleRow)).
Proof.
  apply (upsert_keeps_rows_well_formed Example.platform None (Some (lit "user-1"))
           Example.nonce (lit "row-2") 2000
           (JObj [(lit "preferredProvider", JStr (lit "ollama"));
                  (lit "ollamaHostUrl", JStr (lit " http://host:11434/ "));
                  (lit "ollamaModel", JStr (lit " llama3 "))])
           {[ lit "user-1" := sampleRow ]}) with (u := lit "user-1").
  - intros u r [<- <-]%lookup_singleton_Some.
    unfold wellFormedRow, notEmptyString. simpl.
    repeat split; eauto; try discriminate. now intros m [= <-].
  - rewrite upsert_spec. simpl. rewrite !lookup_singleton_eq.
    replace (textColumnsAccepted _) with true by (vm_compute; reflexivity).
    simpl. rewrite lookup_insert_eq. reflexivity.
Defined.

(** *** Host normalization *)

Lemma trimStart_length (s : jsstring) : (length (trimStart s) <= length s)%nat.
Proof.
  induction s as [|c s IH]; simpl; [lia|]. destruct (isWhiteSpace c); simpl; lia.
Qed.

Lemma trimEnd_length (s : jsstring) : (length (trimEnd s) <= length s)%nat.
Proof.
  unfold trimEnd. rewrite length_rev. etransitivity; [apply trimStart_length|].
  now rewrite length_rev.
Qed.

(** A non-empty string that [trim] leaves alone starts with a code unit
    that is not white space. *)
Lemma trimmed_head (h : jsstring) :
  trim h = h -> h <> [] -> exists c r, h = c :: r /\ isWhiteSpace c = false.
Proof.
  intros Htrim Hne. destruct h as [|c r]; [contradiction|].
  exists c, r. split; [reflexivity|].
  destruct (isWhiteSpace c) eqn:E; [|reflexivity].
  assert (Hlen : (length (trim (c :: r)) <= length r)%nat).
  { unfold trim. simpl. rewrite E. etransitivity; [apply trimEnd_length|].
    apply trimStart_length. }
  rewrite Htrim in Hlen. simpl in Hlen. lia.
Qed.

Lemma trim_snoc_slash (h : jsstring) :
  trim h = h -> h <> [] -> trim (h ++ lit "/") = h ++ lit "/".
Proof.
  intros Htrim Hne. destruct (trimmed_head h Htrim Hne) as (c & r & -> & Hc).
  unfold trim. change ((c :: r) ++ lit "/") with (c :: (r ++ lit "/")).
  rewrite (trimStart_keeps c _ Hc). unfold trimEnd.
  change (c :: r ++ lit "/") with ((c :: r) ++ [47]).
  rewrite rev_app_distr. simpl.
  now rewrite rev_app_distr, rev_involutive.
Qed.

(** X6: [normalizeHostUrl] gives the empty string exactly for a blank host
    and for a host that is a lone slash; from a host without surrounding
    white space it strips one trailing slash and no more, and it leaves a
    host without surrounding white space and trailing slash as it is. *)
Theorem normalizeHostUrl_spec (h : jsstring) :
  (normalizeHostUrl h = [] <-> trim h = [] \/ trim h = lit "/")
  /\ (trim h = h -> h <> [] -> normalizeHostUrl (h ++ lit "/") = h)
  /\ (trim h = h -> endsWith h (lit "/") = false -> normalizeHostUrl h = h).
Proof.
  split; [|split].
  - unfold normalizeHostUrl. change (lit "/") with [47].
    destruct (trim h) as [|c t]; cbn [truthy negb]; cbv iota.
    + split; auto.
    + unfold endsWith, dropLast. destruct t as [|d t].
      * cbn [rev app startsWith removelast].
        destruct (N.eqb_spec c 47) as [->|Hc]; cbn [andb]; cbv iota.
        -- split; auto.
        -- split; [discriminate|]. intros [H|H]; [discriminate|].
           injection H as H. contradiction.
      * split.
        -- destruct (startsWith _ _); [|discriminate]. cbn [removelast]. discriminate.
        -- intros [H|H]; discriminate.
  - intros Htrim Hne. unfold normalizeHostUrl. rewrite (trim_snoc_slash h Htrim Hne).
    change (lit "/") with [47].
    destruct h as [|c r]; [contradiction|]. cbn [app truthy negb]. cbv iota.
    unfold endsWith. change (c :: r ++ [47]) with ((c :: r) ++ [47]).
    rewrite rev_app_distr. cbn [rev app startsWith]. rewrite N.eqb_refl. cbn [andb].
    replace (startsWith (rev r ++ [c]) []) with true by (now destruct (rev r ++ [c])).
    unfold dropLast. apply (removelast_last (c :: r) 47).
  - intros Htrim Hends. unfold normalizeHostUrl. rewrite Htrim, Hends.
    destruct h; reflexivity.
Qed.

(** *** The names the probe returns *)

Lemma entryName_trimmed (m : JsValue) (n : jsstring) :
  entryName m = Some n -> trim n = n.
Proof.
  unfold entryName. destruct m; try discriminate;
    destruct (nullish _ _); try discriminate; intros [= <-]; apply trim_idem.
Qed.

(** X7: whatever the host answers, every name the probe returns is
    non-empty and has no surrounding white space. *)
Theorem probe_names_trimmed (session : option jsstring)
    (cmp : jsstring -> jsstring -> comparison) (fetch : jsstring -> FetchOutcome)
    (host : jsstring) :
  Forall (fun n => n <> [] /\ trim n = n) (getOllamaModelsAction session cmp fetch host).
Proof.
  unfold getOllamaModelsAction.
  destruct session; [|constructor].
  destruct (negb _); [constructor|].
  destruct (fetch _) as [|ok [json|]]; try constructor; destruct (negb ok); try constructor.
  destruct (listModels cmp json) as [models|] eqn:E; [|constructor]. simpl.
  assert (Hnames : exists names,
             models = sortWith cmp (List.filter truthy names)
             /\ Forall (fun n => trim n = n) names).
  { unfold listModels in E.
    destruct json; try discriminate;
      destruct (nullish _ _) as [| | | | |entries|]; try discriminate;
      destruct (mapM entryName entries) as [names|] eqn:Hm; try discriminate;
      injection E as <-; exists names; (split; [reflexivity|]);
      apply mapM_Some in Hm;
      induction Hm as [|x y xs ys Hxy _ IH]; constructor; eauto using entryName_trimmed. }
  destruct Hnames as (names & -> & Hall). clear E.
  rewrite (AiSettingsFacts.sortWith_perm cmp).
  induction Hall as [|n names Hn _ IH]; simpl; [constructor|].
  destruct n as [|c n]; simpl; [exact IH|]. constructor; [|exact IH].
  split; [discriminate|exact Hn].
Qed.

End AiSettingsMore.

(** ** More on the secret codec *)

Module SecretsMore.
Import Secrets SecretsFacts.

(** X8: without a configured [ENCRYPTION_KEY] (unset or empty) both
    [encryptSecret] and [decryptSecret] throw the missing-key error,
    whatever they are given, and with one configured neither ever does:
    [encryptSecret] then always returns a token. *)
Theorem missing_key_iff (P : Platform) (K : option jsstring) (iv : bytes)
    (x payload : jsstring) :
  (encryptSecret P K iv x = Thrown MissingEncryptionKey <-> keyConfigured K = false)
  /\ (decryptSecret P K payload = Thrown MissingEncryptionKey <-> keyConfigured K = false)
  /\ (keyConfigured K = true -> exists token, encryptSecret P K iv x = Returned token).
Proof.
  unfold encryptSecret, decryptSecret, getKey, keyConfigured.
  destruct K as [raw|]; [destruct (truthy raw)|]; cbn [negb].
  - destruct (gcm_encrypt _ _ _ _) as [ct tag].
    repeat split; try discriminate; eauto.
    destruct (_ || _); [discriminate|]. destruct (gcm_decrypt _ _ _ _ _); discriminate.
  - repeat split; auto; discriminate.
  - repeat split; auto; discriminate.
Qed.

(** On a platform that gives back the values of this call, the token of
    [x] decrypts to [x]. *)
Lemma encrypt_decrypt_back (P : Platform) (raw : jsstring) (iv : bytes) (x : jsstring) :
  truthy raw = true -> x <> [] -> CallLaws P raw iv x ->
  exists token,
    encryptSecret P (Some raw) iv x = Returned token
    /\ decryptSecret P (Some raw) token = Returned x.
Proof.
  intros Hraw Hx [Hutf8 Hgcm Hb64 Hpresent]. cbv zeta in *. specialize (Hpresent Hx).
  unfold encryptSecret. rewrite (getKey_configured P raw Hraw).
  destruct (gcm_encrypt P _ iv (utf8_encode P x)) as [ct tag]. cbn [fst snd] in *.
  apply Forall_cons in Hb64 as [[Hiv Hivdot] Hb64].
  apply Forall_cons in Hb64 as [[Htag Htagdot] Hb64].
  apply Forall_cons in Hb64 as [[Hct Hctdot] _].
  apply Forall_cons in Hpresent as [Hiv1 Hpresent].
  apply Forall_cons in Hpresent as [Htag1 Hpresent].
  apply Forall_cons in Hpresent as [Hct1 _].
  eexists. split; [reflexivity|].
  rewrite (decryptSecret_segments P raw _ Hraw). cbn [app].
  rewrite (split_token _ _ _ Hivdot Htagdot), (split_noDot _ Hctdot), Hiv1, Htag1, Hct1.
  cbn [andb]. unfold decipher. now rewrite Hiv, Htag, Hct, Hgcm, Hutf8.
Qed.

End SecretsMore.

(** ** More on the model resolver *)

Module UserModelMore.
Import Secrets UserModel JsStringFacts.

Lemma startsWith_iff (s p : jsstring) : startsWith s p = true <-> exists b, s = p ++ b.
Proof.
  revert s. induction p as [|y p IH]; intros s.
  - split; [exists s; reflexivity|]. now destruct s.
  - destruct s as [|x s]; simpl.
    + split; [discriminate|]. intros [b H]. discriminate.
    + split.
      * intros [Hxy Hs]%andb_prop. apply N.eqb_eq in Hxy. apply IH in Hs as [b ->].
        exists b. now subst.
      * intros [b [= -> ->]]. rewrite N.eqb_refl. simpl. apply IH. now exists b.
Qed.

Lemma includes_iff (s p : jsstring) : includes s p = true <-> exists a b, s = a ++ p ++ b.
Proof.
  induction s as [|x s IH].
  - change (includes [] p) with (startsWith [] p || false).
    rewrite orb_false_r, startsWith_iff. split.
    + intros [b H]. now exists [], b.
    + intros (a & b & H). destruct a; [now exists b|discriminate].
  - change (includes (x :: s) p) with (startsWith (x :: s) p || includes s p).
    rewrite orb_true_iff, startsWith_iff, IH. split.
    + intros [[b H]|(a & b & ->)]; [now exists [], b|now exists (x :: a), b].
    + intros (a & b & H). destruct a as [|x' a].
      * left. now exists b.
      * right. injection H as -> ->. now exists a, b.
Qed.

(** X9: the tool-incapable family is recognized anywhere in the model id
    and in any letter case: the test succeeds exactly on the ids that
    contain a run of code units equal to [deepseek-r1] up to the case of
    ASCII letters. *)
Theorem matchesDeepseekR1_iff (modelId : jsstring) :
  matchesDeepseekR1 modelId = true
  <-> exists pre run post,
        modelId = pre ++ run ++ post
        /\ foldCase <$> run = foldCase <$> lit "deepseek-r1".
Proof.
  unfold matchesDeepseekR1. rewrite includes_iff. split.
  - intros (a & b & H).
    apply fmap_app_inv in H as (pre & rest & -> & Hrest & ->).
    symmetry in Hrest. apply fmap_app_inv in Hrest as (run & post & Hrun & -> & ->).
    now exists pre, run, post.
  - intros (pre & run & post & -> & Hrun).
    exists (foldCase <$> pre), (foldCase <$> post). now rewrite !fmap_app, Hrun.
Qed.

(** How the resolver comes to return a Gemini handle. *)
Lemma resolver_google_inv (P : Platform) (K session : option jsstring)
    (db : AiSettings.Database) (options : Options) (apiKey modelId : jsstring) :
  getPreferredModelForCurrentUser P K session db options = GoogleModel apiKey modelId ->
  exists authUserId rows row encrypted,
    session = Some authUserId /\ db = AiSettings.Table rows
    /\ rows !! authUserId = Some row
    /\ AiSettings.preferredProvider row = lit "gemini"
    /\ AiSettings.geminiApiKeyEncrypted row = Some encrypted
    /\ truthy encrypted = true
    /\ decryptSecret P K encrypted = Returned apiKey
    /\ modelId = orElse (Some (AiSettings.geminiModel row)) (lit "gemini-flash-latest").
Proof.
  unfold getPreferredModelForCurrentUser, selectSettings, AiSettings.selectRow.
  destruct session as [authUserId|]; [|discriminate].
  destruct db as [|rows]; [discriminate|].
  destruct (rows !! authUserId) as [row|] eqn:Hrow; [|discriminate].
  cbn [fmap option_fmap option_map rowOf preferredProvider geminiApiKeyEncrypted
       geminiModel ollamaHostUrl ollamaModel default from_option]. unfold id.
  destruct (str_eqb (AiSettings.preferredProvider row) (lit "gemini")) eqn:Hp.
  - apply str_eqb_eq in Hp.
    destruct (AiSettings.geminiApiKeyEncrypted row) as [encrypted|] eqn:Hk; [|discriminate].
    destruct (truthy encrypted) eqn:Ht; [|discriminate]. cbn [negb].
    destruct (decryptSecret P K encrypted) as [a|] eqn:Hd; [|discriminate].
    intros [= <- <-]. now exists authUserId, rows, row, encrypted.
  - destruct (str_eqb _ (lit "ollama")); [|discriminate].
    destruct (_ || _); [discriminate|]. destruct (_ && _); discriminate.
Qed.

(** How the resolver comes to return an Ollama handle. *)
Lemma resolver_ollama_inv (P : Platform) (K session : option jsstring)
    (db : AiSettings.Database) (options : Options) (name baseURL apiKey modelId : jsstring) :
  getPreferredModelForCurrentUser P K session db options
  = OpenAICompatibleModel name baseURL apiKey modelId ->
  name = lit "ollama" /\ apiKey = lit "ollama"
  /\ exists authUserId rows row host model,
       session = Some authUserId /\ db = AiSettings.Table rows
       /\ rows !! authUserId = Some row
       /\ AiSettings.preferredProvider row = lit "ollama"
       /\ AiSettings.ollamaHostUrl row = Some host
       /\ AiSettings.ollamaModel row = Some model
       /\ baseURL = normalizeBaseUrl host ++ lit "/v1"
       /\ truthy (normalizeBaseUrl host) = true
       /\ modelId = trim model /\ truthy modelId = true
       /\ (requireTools options = Some true -> matchesDeepseekR1 modelId = false).
Proof.
  unfold getPreferredModelForCurrentUser, selectSettings, AiSettings.selectRow.
  destruct session as [authUserId|]; [|discriminate].
  destruct db as [|rows]; [discriminate|].
  destruct (rows !! authUserId) as [row|] eqn:Hrow; [|discriminate].
  cbn [fmap option_fmap option_map rowOf preferredProvider geminiApiKeyEncrypted
       geminiModel ollamaHostUrl ollamaModel default from_option]. unfold id.
  destruct (str_eqb (AiSettings.preferredProvider row) (lit "gemini")).
  - destruct (AiSettings.geminiApiKeyEncrypted row) as [encrypted|]; [|discriminate].
    destruct (negb _); [discriminate|]. destruct (decryptSecret _ _ _); discriminate.
  - destruct (str_eqb _ (lit "ollama")) eqn:Hp; [|discriminate]. apply str_eqb_eq in Hp.
    destruct (AiSettings.ollamaHostUrl row) as [host|] eqn:Hh;
      [|cbn [truthy negb orb]; discriminate].
    destruct (truthy host) eqn:Hth; [|cbn [truthy negb orb]; discriminate].
    destruct (AiSettings.ollamaModel row) as [model|] eqn:Hm;
      cbn [fmap option_fmap option_map from_option truthy negb];
      [|rewrite orb_true_r; discriminate].
    destruct (truthy (normalizeBaseUrl host)) eqn:Hnh; [|discriminate].
    destruct (truthy (trim model)) eqn:Htm; [|discriminate]. cbn [negb orb].
    destruct (requireTools options) as [[|]|] eqn:Hr; cbn [andb];
      [destruct (matchesDeepseekR1 (trim model)) eqn:Hds; [discriminate|]| |];
      intros [= <- <- <- <-]; (split; [reflexivity|]); (split; [reflexivity|]);
      exists authUserId, rows, row, host, model; repeat split; auto; discriminate.
Qed.

(** X10: what the resolver never does. It returns a Gemini handle only
    with a key it decrypted from the user's stored ciphertext, under the
    stored provider [gemini]; and an Ollama handle only under the stored
    provider [ollama], named and keyed [ollama], on the normalized stored
    host followed by [/v1], for the trimmed non-empty stored model, and
    never for a model of the [deepseek-r1] family when tools are required. *)
Theorem resolver_handles (P : Platform) (K session : option jsstring)
    (db : AiSettings.Database) (options : Options) :
  let model := getPreferredModelForCurrentUser P K session db options in
  (forall apiKey modelId,
      model = GoogleModel apiKey modelId ->
      exists authUserId rows row encrypted,
        session = Some authUserId /\ db = AiSettings.Table rows
        /\ rows !! authUserId = Some row
        /\ AiSettings.preferredProvider row = lit "gemini"
        /\ AiSettings.geminiApiKeyEncrypted row = Some encrypted
        /\ decryptSecret P K encrypted = Returned apiKey)
  /\ (forall name baseURL apiKey modelId,
        model = OpenAICompatibleModel name baseURL apiKey modelId ->
        name = lit "ollama" /\ apiKey = lit "ollama"
        /\ (requireTools options = Some true -> matchesDeepseekR1 modelId = false)
        /\ exists authUserId rows row host stored,
             session = Some authUserId /\ db = AiSettings.Table rows
             /\ rows !! authUserId = Some row
             /\ AiSettings.preferredProvider row = lit "ollama"
             /\ AiSettings.ollamaHostUrl row = Some host
             /\ AiSettings.ollamaModel row = Some stored
             /\ baseURL = normalizeBaseUrl host ++ lit "/v1"
             /\ modelId = trim stored /\ modelId <> []).
Proof.
  cbv zeta. split.
  - intros apiKey modelId H.
    destruct (resolver_google_inv _ _ _ _ _ _ _ H)
      as (u & rows & row & enc & ? & ? & ? & ? & ? & _ & ? & _).
    now exists u, rows, row, enc.
  - intros name baseURL apiKey modelId H.
    destruct (resolver_ollama_inv _ _ _ _ _ _ _ _ _ H)
      as (Hn & Ha & u & rows & row & host & stored & Hs & Hd & Hr & Hp & Hh & Hm & Hb
          & _ & Hmid & Ht & Hds).
    repeat split; auto. exists u, rows, row, host, stored.
    repeat split; auto. intros E. rewrite E in Ht. discriminate.
Qed.

(** X11: the resolver leaves the fallback only for a configuration the
    settings read shows as complete: a Gemini handle only when the read
    shows provider [gemini] with a key, an Ollama handle only when it
    shows provider [ollama] with a host and a model. *)
Theorem resolver_agrees_with_settings_read (P : Platform) (K session : option jsstring)
    (db : AiSettings.Database) (options : Options) :
  let model := getPreferredModelForCurrentUser P K session db options in
  let view := AiSettings.getAiSettingsAction session db in
  (forall apiKey modelId,
      model = GoogleModel apiKey modelId ->
      AiSettings.view_preferredProvider view = AiSettings.gemini
      /\ AiSettings.view_hasGeminiApiKey view = true)
  /\ (forall name baseURL apiKey modelId,
        model = OpenAICompatibleModel name baseURL apiKey modelId ->
        AiSettings.view_preferredProvider view = AiSettings.ollama
        /\ AiSettings.view_ollamaHostUrl view <> []
        /\ AiSettings.view_ollamaModel view <> []).
Proof.
  cbv zeta. split.
  - intros apiKey modelId H.
    destruct (resolver_google_inv _ _ _ _ _ _ _ H)
      as (u & rows & row & enc & -> & -> & Hrow & Hp & Hk & Ht & _).
    rewrite AiSettingsMore.get_stored, Hrow. simpl. now rewrite Hp, Hk, Ht.
  - intros name baseURL apiKey modelId H.
    destruct (resolver_ollama_inv _ _ _ _ _ _ _ _ _ H)
      as (_ & _ & u & rows & row & host & stored & -> & -> & Hrow & Hp & Hh & Hm
          & _ & Hnh & -> & Htm & _).
    rewrite AiSettingsMore.get_stored, Hrow. simpl. rewrite Hp, Hh, Hm. simpl.
    repeat split.
    + intros ->. discriminate.
    + intros ->. discriminate.
Qed.

End UserModelMore.

(** ** The store, the codec and the resolver together *)

Module SettingsToModel.
Import Secrets AiSettings JsStringFacts.

Lemma resolve_stored (P : Platform) (K : option jsstring) (authUserId : jsstring)
    (rows : gmap (list N) TableRow) (r : TableRow) (options : UserModel.Options) :
  UserModel.selectSettings (Table (<[authUserId := r]> rows)) authUserId
  = Returned (Some (UserModel.rowOf r)).
Proof.
  unfold UserModel.selectSettings. simpl. now rewrite lookup_insert_eq.
Qed.

Lemma allowed_truthy (m : jsstring) : geminiModelAllowed (JStr m) = true -> truthy m = true.
Proof.
  unfold geminiModelAllowed, isStr.
  intros [[H|H]%orb_prop|H]%orb_prop; apply str_eqb_eq in H; now subst.
Qed.

(** X12: a Gemini key round-trips through the store. After a successful
    upsert that selects [gemini] and brings a non-blank key, on a platform
    that gives back the values of the call, the resolver returns a Gemini
    handle bound to the trimmed key the user typed and to the patch's
    model, or [gemini-flash-latest] when it has none, whatever the
    purpose. *)
Theorem upsert_then_resolve_gemini (P : Platform) (raw authUserId : jsstring) (iv : bytes)
    (newId : jsstring) (now : Z) (input : JsValue) (data : UpsertData) (k : jsstring)
    (db db' : Database) :
  truthy raw = true ->
  upsertSchema_parse input = Some data ->
  data_preferredProvider data = gemini ->
  data_geminiApiKey data = Some k ->
  trim k <> [] ->
  CallLaws P raw iv (trim k) ->
  upsertAiSettingsAction P (Some raw) (Some authUserId) iv newId now input db
  = (Returned tt, db') ->
  forall options,
    UserModel.getPreferredModelForCurrentUser P (Some raw) (Some authUserId) db' options
    = UserModel.GoogleModel (trim k)
        (default (lit "gemini-flash-latest") (data_geminiModel data)).
Proof.
  intros Hraw Hparse Hprovider Hkey Hk Hlaws Hrun options.
  destruct (SecretsMore.encrypt_decrypt_back P raw iv (trim k) Hraw Hk Hlaws)
    as (token & Henc & Hdec).
  destruct (AiSettingsMore.upsert_success _ _ _ _ _ _ _ _ _ Hrun)
    as (u & data' & rows & key & [= <-] & Hparse' & -> & Hnext & ->).
  rewrite Hparse in Hparse'. injection Hparse' as <-.
  assert (Ht : truthy (trim k) = true) by (destruct (trim k); [contradiction|reflexivity]).
  unfold nextKey in Hnext. rewrite Hkey, Ht, Henc in Hnext. injection Hnext as <-.
  unfold UserModel.getPreferredModelForCurrentUser.
  rewrite (resolve_stored P (Some raw) _ _ _ options).
  unfold UserModel.rowOf, rowAfter. cbn [UserModel.preferredProvider
    UserModel.geminiApiKeyEncrypted UserModel.geminiModel preferredProvider
    geminiApiKeyEncrypted geminiModel default from_option]. unfold id.
  rewrite Hprovider. change (str_eqb (providerName gemini) (lit "gemini")) with true.
  cbv iota. rewrite (AiSettingsMore.encryptSecret_truthy _ _ _ _ _ Henc), Hdec.
  cbn [negb]. unfold UserModel.orElse.
  now rewrite (allowed_truthy _ (AiSettingsMore.parse_model_allowed _ _ Hparse)).
Qed.

Lemma upsert_then_resolve_gemini_witness :
  exists db',
    upsertAiSettingsAction Example.platform (Some (lit "k3y")) (Some (lit "user-2"))
      Example.nonce (lit "row-2") 2000
      (JObj [(lit "preferredProvider", JStr (lit "gemini"));
             (lit "geminiApiKey", JStr (lit " abc123 "))]) sampleDb
    = (Returned tt, db')
    /\ forall options,
        UserModel.getPreferredModelForCurrentUser Example.platform (Some (lit "k3y"))
          (Some (lit "user-2")) db' options
        = UserModel.GoogleModel (lit "abc123") (lit "gemini-flash-latest").
Proof.
  eexists. split; [rewrite AiSettingsMore.upsert_spec; reflexivity|].
  exact (upsert_then_resolve_gemini Example.platform (lit "k3y") (lit "user-2")
           Example.nonce (lit "row-2") 2000
           (JObj [(lit "preferredProvider", JStr (lit "gemini"));
                  (lit "geminiApiKey", JStr (lit " abc123 "))])
           {| data_preferredProvider := gemini; data_geminiApiKey := Some (lit " abc123 ");
              data_geminiModel := None; data_ollamaHostUrl := None;
              data_ollamaModel := None |} (lit " abc123 ") sampleDb _
           eq_refl eq_refl eq_refl eq_refl
           ltac:(discriminate)
           ltac:(constructor; vm_compute; repeat constructor)
           ltac:(rewrite AiSettingsMore.upsert_spec; reflexivity)).
Defined.

(** X13: an Ollama configuration reaches the resolver. After a successful
    upsert that selects [ollama] with a host and a model, neither of them
    blank once normalized, the resolver returns the Ollama handle on the
    normalized host followed by [/v1] for the trimmed model; except that
    with tools required (the chat route) a model of the [deepseek-r1]
    family gives the fallback, while without (the analysis tool) it is
    used. *)
Theorem upsert_then_resolve_ollama (P : Platform) (K : option jsstring)
    (authUserId : jsstring) (iv : bytes) (newId : jsstring) (now : Z) (input : JsValue)
    (data : UpsertData) (h m : jsstring) (db db' : Database) :
  upsertSchema_parse input = Some data ->
  data_preferredProvider data = ollama ->
  data_ollamaHostUrl data = Some h ->
  data_ollamaModel data = Some m ->
  UserModel.normalizeBaseUrl (normalizeHostUrl h) <> [] ->
  trim m <> [] ->
  upsertAiSettingsAction P K (Some authUserId) iv newId now input db = (Returned tt, db') ->
  forall options,
    UserModel.getPreferredModelForCurrentUser P K (Some authUserId) db' options
    = if default false (UserModel.requireTools options)
         && UserModel.matchesDeepseekR1 (trim m)
      then UserModel.OpenAIModel (UserModel.fallbackOpenAiModelId options)
      else UserModel.OpenAICompatibleModel (lit "ollama")
             (UserModel.normalizeBaseUrl (normalizeHostUrl h) ++ lit "/v1")
             (lit "ollama") (trim m).
Proof.
  intros Hparse Hprovider Hhost Hmodel Hh Hm Hrun options.
  assert (Hstored : exists c t, normalizeHostUrl h = c :: t /\ h <> []).
  { destruct (normalizeHostUrl h) as [|c t] eqn:E; [contradiction|].
    exists c, t. split; [reflexivity|]. intros ->. discriminate. }
  destruct Hstored as (c & t & Hnorm & Hne).
  destruct (AiSettingsMore.upsert_success _ _ _ _ _ _ _ _ _ Hrun)
    as (u & data' & rows & key & [= <-] & Hparse' & -> & _ & ->).
  rewrite Hparse in Hparse'. injection Hparse' as <-.
  unfold UserModel.getPreferredModelForCurrentUser.
  rewrite (resolve_stored P K _ _ _ options).
  unfold UserModel.rowOf, rowAfter. cbn [UserModel.preferredProvider
    UserModel.ollamaHostUrl UserModel.ollamaModel preferredProvider ollamaHostUrl
    ollamaModel default from_option]. unfold id.
  rewrite Hprovider, Hhost, Hmodel.
  change (str_eqb (providerName ollama) (lit "gemini")) with false.
  change (str_eqb (providerName ollama) (lit "ollama")) with true. cbv iota.
  destruct h as [|c0 h0]; [contradiction|]. cbn [truthy]. rewrite Hnorm in *.
  unfold orNull. cbn [truthy].
  destruct (trim m) as [|d u] eqn:Etm; [contradiction|]. cbn [truthy].
  cbn [fmap option_fmap option_map from_option]. rewrite <- Etm, trim_idem, Etm.
  destruct (UserModel.normalizeBaseUrl (c :: t)) eqn:Enb; [contradiction|].
  reflexivity.
Qed.

(** A patch as the settings page sends it when the key field is filled. *)
Lemma upsert_then_resolve_ollama_witness :
  exists db',
    upsertAiSettingsAction Example.platform (Some (lit "k3y")) (Some (lit "user-2"))
      Example.nonce (lit "row-2") 2000
      (JObj [(lit "preferredProvider", JStr (lit "ollama"));
             (lit "geminiApiKey", JStr (lit "abc123"));
             (lit "ollamaHostUrl", JStr (lit "http://localhost:11434//"));
             (lit "ollamaModel", JStr (lit " DeepSeek-R1:8b "))]) sampleDb
    = (Returned tt, db')
    /\ UserModel.getPreferredModelForCurrentUser Example.platform (Some (lit "k3y"))
         (Some (lit "user-2")) db'
         {| UserModel.purpose := UserModel.chat;
            UserModel.fallbackOpenAiModelId := lit "gpt-4o";
            UserModel.requireTools := Some true |}
       = UserModel.OpenAIModel (lit "gpt-4o")
    /\ UserModel.getPreferredModelForCurrentUser Example.platform (Some (lit "k3y"))
         (Some (lit "user-2")) db'
         {| UserModel.purpose := UserModel.analysis;
            UserModel.fallbackOpenAiModelId := lit "gpt-4o-mini";
            UserModel.requireTools := None |}
       = UserModel.OpenAICompatibleModel (lit "ollama") (lit "http://localhost:11434/v1")
           (lit "ollama") (lit "DeepSeek-R1:8b").
Proof.
  eexists. split; [rewrite AiSettingsMore.upsert_spec; reflexivity|].
  assert (Hresolve :=
    upsert_then_resolve_ollama Example.platform (Some (lit "k3y")) (lit "user-2")
      Example.nonce (lit "row-2") 2000
      (JObj [(lit "preferredProvider", JStr (lit "ollama"));
             (lit "geminiApiKey", JStr (lit "abc123"));
             (lit "ollamaHostUrl", JStr (lit "http://localhost:11434//"));
             (lit "ollamaModel", JStr (lit " DeepSeek-R1:8b "))])
      {| data_preferredProvider := ollama; data_geminiApiKey := Some (lit "abc123");
         data_geminiModel := None;
         data_ollamaHostUrl := Some (lit "http://localhost:11434//");
         data_ollamaModel := Some (lit " DeepSeek-R1:8b ") |}
      (lit "http://localhost:11434//") (lit " DeepSeek-R1:8b ") sampleDb _
      eq_refl eq_refl eq_refl eq_refl
      ltac:(discriminate) ltac:(discriminate)
      ltac:(rewrite AiSettingsMore.upsert_spec; reflexivity)).
  rewrite !Hresolve. split; reflexivity.
Defined.

End SettingsToModel.

(** ** The settings page and the store *)

Module SettingsPageFacts.
Import Secrets AiSettings SettingsPage.

(** What the schema makes of the page's argument. *)
Lemma parse_onSaveInput (st : PageState) :
  upsertSchema_parse (onSaveInput st) =
    if geminiModelAllowed (JStr (st_geminiModel st)) then
      Some {| data_preferredProvider := st_preferredProvider st;
              data_geminiApiKey :=
                if truthy (trim (st_geminiApiKey st)) then Some (trim (st_geminiApiKey st))
                else None;
              data_geminiModel := Some (st_geminiModel st);
              data_ollamaHostUrl := Some (st_ollamaHostUrl st);
              data_ollamaModel := Some (st_ollamaModel st) |}
    else None.
Proof.
  destruct st as [provider model key has host omodel]. unfold onSaveInput.
  cbn [st_preferredProvider st_geminiModel st_geminiApiKey st_hasGeminiApiKey
       st_ollamaHostUrl st_ollamaModel].
  destruct provider; destruct (truthy (trim key)); reflexivity.
Qed.

Lemma hasKey_after_upsert (P : Platform) (K session : option jsstring) (iv : bytes)
    (newId : jsstring) (now : Z) (input : JsValue) (data : UpsertData) (db db' : Database) :
  upsertAiSettingsAction P K session iv newId now input db = (Returned tt, db') ->
  upsertSchema_parse input = Some data ->
  view_hasGeminiApiKey (getAiSettingsAction session db')
  = match data_geminiApiKey data with
    | Some k => truthy (trim k)
    | None => view_hasGeminiApiKey (getAiSettingsAction session db)
    end.
Proof.
  intros Hrun Hparse.
  destruct (AiSettingsMore.upsert_success _ _ _ _ _ _ _ _ _ Hrun)
    as (authUserId & data' & rows & key & -> & Hparse' & -> & Hkey & ->).
  rewrite Hparse in Hparse'. injection Hparse' as <-.
  rewrite !AiSettingsMore.get_stored, lookup_insert_eq. simpl.
  unfold nextKey in Hkey. destruct (data_geminiApiKey data) as [k|].
  - destruct (truthy (trim k)); [|now injection Hkey as <-].
    destruct (encryptSecret P K iv (trim k)) as [token|] eqn:E; [|discriminate].
    injection Hkey as <-. exact (AiSettingsMore.encryptSecret_truthy _ _ _ _ _ E).
  - injection Hkey as <-. destruct (rows !! authUserId); reflexivity.
Qed.

(** X14: saving through the settings page never removes a stored API
    key. When the form's Gemini model is one of the schema, the page's
    argument passes validation, and after a successful save the settings
    read shows a key exactly when the form brought a non-blank one or one
    was stored before; so a save the page allows for provider [gemini],
    with its key flag in step with the store, leaves the user with a key. *)
Theorem page_save_keeps_key (P : Platform) (K : option jsstring) (authUserId : jsstring)
    (iv : bytes) (newId : jsstring) (now : Z) (st : PageState)
    (rows : gmap (list N) TableRow) (db' : Database) :
  geminiModelAllowed (JStr (st_geminiModel st)) = true ->
  upsertAiSettingsAction P K (Some authUserId) iv newId now (onSaveInput st) (Table rows)
  = (Returned tt, db') ->
  let before := getAiSettingsAction (Some authUserId) (Table rows) in
  let after := getAiSettingsAction (Some authUserId) db' in
  is_Some (upsertSchema_parse (onSaveInput st))
  /\ view_hasGeminiApiKey after
     = truthy (trim (st_geminiApiKey st)) || view_hasGeminiApiKey before
  /\ (st_preferredProvider st = gemini -> canSave st = true ->
      st_hasGeminiApiKey st = view_hasGeminiApiKey before ->
      view_hasGeminiApiKey after = true).
Proof.
  intros Hmodel Hrun. cbv zeta.
  pose proof (parse_onSaveInput st) as Hparse. rewrite Hmodel in Hparse.
  assert (Hafter :
    view_hasGeminiApiKey (getAiSettingsAction (Some authUserId) db')
    = truthy (trim (st_geminiApiKey st))
      || view_hasGeminiApiKey (getAiSettingsAction (Some authUserId) (Table rows))).
  { rewrite (hasKey_after_upsert _ _ _ _ _ _ _ _ _ _ Hrun Hparse).
    cbn [data_geminiApiKey].
    destruct (truthy (trim (st_geminiApiKey st))) eqn:E; [|reflexivity].
    now rewrite JsStringFacts.trim_idem, E. }
  split; [rewrite Hparse; eauto|]. split; [exact Hafter|].
  intros Hprovider Hcan Hflag. rewrite Hafter, <- Hflag.
  unfold canSave in Hcan. now rewrite Hprovider in Hcan.
Qed.

Lemma page_save_keeps_key_witness :
  view_hasGeminiApiKey
    (getAiSettingsAction (Some (lit "user-1"))
       (upsertAiSettingsAction Example.platform None (Some (lit "user-1")) Example.nonce
          (lit "row-2") 2000 (onSaveInput sampleState) sampleDb).2)
  = true.
Proof.
  refine (proj2 (proj2 (page_save_keeps_key Example.platform None (lit "user-1")
                          Example.nonce (lit "row-2") 2000 sampleState
                          {[ lit "user-1" := sampleRow ]} _ eq_refl _)) eq_refl eq_refl _).
  - rewrite AiSettingsMore.upsert_spec. reflexivity.
  - rewrite AiSettingsMore.get_stored, lookup_singleton_eq. reflexivity.
Defined.

End SettingsPageFacts.

(** ** More on the message sanitizer *)

Module ChatRouteMore.
Import ChatRoute JsStringFacts.

Lemma keepPart_safe (role : jsstring) (part : JsValue) :
  keepPart role part = true -> modelSafePart part.
Proof.
  unfold keepPart, modelSafePart.
  destruct (isRecord part); [|discriminate]. cbn [negb]. intros H.
  split; [reflexivity|]. intros type Htype. rewrite Htype in H.
  destruct (str_eqb type (lit "step-start")) eqn:Hs; [discriminate|].
  destruct (startsWith type (lit "tool-")); [discriminate|].
  split; [|reflexivity]. intros ->. discriminate.
Qed.

Lemma textPart_safe (t : jsstring) : modelSafePart (textPart t).
Proof.
  split; [reflexivity|]. intros type [= <-]. split; [discriminate|reflexivity].
Qed.

(** What the per-message step returns, when it returns a message. *)
Lemma sanitizeMessage_inv (raw m : JsValue) :
  sanitizeMessage raw = Some m ->
  exists role parts,
    m = mkMessage role parts
    /\ get raw (lit "role") = JStr role
    /\ isUIMessageRole (JStr role) = true
    /\ parts <> []
    /\ Forall modelSafePart parts.
Proof.
  unfold sanitizeMessage.
  destruct (isRecord raw); [|discriminate]. cbn [negb].
  destruct (isUIMessageRole (get raw (lit "role"))) eqn:Hrole; [|discriminate].
  cbn [negb]. destruct (get raw (lit "role")) as [| | | |role| |]; try discriminate.
  assert (Hfallback : fromFallbackText role raw = Some m ->
    exists role' parts, m = mkMessage role' parts /\ JStr role = JStr role'
      /\ isUIMessageRole (JStr role') = true /\ parts <> [] /\ Forall modelSafePart parts).
  { unfold fromFallbackText. destruct (nullish _ _) as [| | | |t| |]; try discriminate.
    destruct (truthy (trim t)); [|discriminate]. intros [= <-].
    exists role, [textPart (trim t)]. repeat split; auto.
    constructor; [apply textPart_safe|constructor]. }
  destruct (get raw (lit "parts")) as [| | | | |parts|]; try exact Hfallback.
  destruct (List.filter (keepPart role) parts) as [|p kept] eqn:Hk; [exact Hfallback|].
  intros [= <-]. exists role, (p :: kept). repeat split; auto.
  rewrite <- Hk. apply Forall_forall. intros x [_ Hx]%list_elem_of_In%filter_In.
  exact (keepPart_safe role x Hx).
Qed.

(** Every message of the output was built by the per-message step. *)
Lemma sanitized_from_step (rawMessages m : JsValue) :
  m ∈ sanitizeMessagesForModel rawMessages -> exists raw, sanitizeMessage raw = Some m.
Proof.
  destruct rawMessages as [| | | | |raws|]; try (now intros ?%elem_of_nil).
  destruct (ChatRouteFacts.sanitize_array_spec raws) as (dropped & Heq & _).
  intros Hin. assert (Hin' : m ∈ omap sanitizeMessage raws).
  { rewrite Heq. apply elem_of_app. now left. }
  apply list_elem_of_omap in Hin' as (raw & _ & Hraw). now exists raw.
Qed.

(** X15: every message the sanitizer returns has exactly the two fields
    [role] and [parts], with one of the three roles and at least one part:
    ids, metadata and flat text fields of the input are not carried over. *)
Theorem sanitized_messages_shape (rawMessages : JsValue) :
  Forall sanitizedShape (sanitizeMessagesForModel rawMessages).
Proof.
  apply Forall_forall. intros m Hin.
  destruct (sanitized_from_step _ _ Hin) as (raw & Hraw).
  destruct (sanitizeMessage_inv _ _ Hraw) as (role & parts & -> & _ & Hrole & Hne & _).
  now exists role, parts.
Qed.

(** X16: no part of a sanitized message is a step marker or a tool part,
    and every part is an object, whatever the role. *)
Theorem sanitized_parts_safe (rawMessages : JsValue) :
  Forall (fun m => exists parts, get m (lit "parts") = JArr parts
                                 /\ Forall modelSafePart parts)
         (sanitizeMessagesForModel rawMessages).
Proof.
  apply Forall_forall. intros m Hin.
  destruct (sanitized_from_step _ _ Hin) as (raw & Hraw).
  destruct (sanitizeMessage_inv _ _ Hraw) as (role & parts & -> & _ & _ & _ & Hsafe).
  now exists parts.
Qed.

(** X17: for the roles [assistant] and [system] the filter keeps exactly
    the object parts of type [text] whose text is a string that is not
    blank. *)
Theorem keepPart_text_only (part : JsValue) :
  let textOnly :=
    isRecord part = true /\ get part (lit "type") = JStr (lit "text")
    /\ nonEmptyText (get part (lit "text")) = true in
  (keepPart (lit "assistant") part = true <-> textOnly)
  /\ (keepPart (lit "system") part = true <-> textOnly).
Proof.
  cbv zeta. unfold keepPart.
  destruct (isRecord part); cbn [negb];
    [|split; (split; [discriminate|intros [H _]; discriminate])].
  change (str_eqb (lit "assistant") (lit "assistant")) with true.
  change (str_eqb (lit "system") (lit "assistant")) with false.
  change (str_eqb (lit "system") (lit "user")) with false. cbv iota.
  destruct (get part (lit "type")) as [| | | |type| |];
    try (split; (split; [discriminate|intros (_ & H & _); discriminate])).
  destruct (str_eqb type (lit "text")) eqn:Ht.
  - apply str_eqb_eq in Ht. subst type.
    change (str_eqb (lit "text") (lit "step-start")) with false.
    change (startsWith (lit "text") (lit "tool-")) with false. cbn [negb andb]. cbv iota.
    split; (split; [intros H; now repeat split|now intros (_ & _ & H)]).
  - assert (Hne : JStr type <> JStr (lit "text")).
    { intros [= ->]. now rewrite str_eqb_refl in Ht. }
    destruct (str_eqb type (lit "step-start")), (startsWith type (lit "tool-"));
      cbn [negb andb]; cbv iota;
      split; (split; [discriminate|intros (_ & H & _); contradiction]).
Qed.

(** X18: an entry of the input that is not an object, or whose role is
    missing or not one of the three known roles, contributes nothing: the
    sanitizer's result is the one for the input without that entry. *)
Theorem sanitize_skips_malformed (before after : list JsValue) (bad : JsValue) :
  isRecord bad = false \/ isUIMessageRole (get bad (lit "role")) = false ->
  sanitizeMessagesForModel (JArr (before ++ bad :: after))
  = sanitizeMessagesForModel (JArr (before ++ after)).
Proof.
  intros Hbad. assert (Hnone : sanitizeMessage bad = None).
  { unfold sanitizeMessage. destruct Hbad as [-> | ->]; [reflexivity|].
    now destruct (isRecord bad). }
  unfold sanitizeMessagesForModel. rewrite !omap_app. simpl. now rewrite Hnone.
Qed.

Lemma sanitize_skips_malformed_witness :
  sanitizeMessagesForModel
    (JArr ([mkMessage (lit "user") [textPart (lit "hi")]]
           ++ JObj [(lit "role", JStr (lit "tool")); (lit "content", JStr (lit "x"))] :: []))
  = sanitizeMessagesForModel (JArr ([mkMessage (lit "user") [textPart (lit "hi")]] ++ [])).
Proof.
  apply (sanitize_skips_malformed [mkMessage (lit "user") [textPart (lit "hi")]] []).
  right. reflexivity.
Defined.

(** X19: a message none of whose parts is kept (or that has no parts
    array) is rebuilt from its flat text. A string [content] decides
    alone: trimmed it becomes the single text part, and a blank one drops
    the message even when [text] is set. [text] is read only when
    [content] is null or undefined, and any other [content] drops the
    message. *)
Theorem legacy_text_fallback (raw : JsValue) (role : jsstring) :
  isRecord raw = true ->
  get raw (lit "role") = JStr role ->
  isUIMessageRole (JStr role) = true ->
  match get raw (lit "parts") with
  | JArr parts => Forall (fun part => keepPart role part = false) parts
  | _ => True
  end ->
  let single (text : jsstring) :=
    if truthy (trim text) then Some (mkMessage role [textPart (trim text)]) else None in
  sanitizeMessage raw =
  match get raw (lit "content") with
  | JStr content => single content
  | JUndefined | JNull =>
      match get raw (lit "text") with
      | JStr text => single text
      | _ => None
      end
  | _ => None
  end.
Proof.
  intros Hrec Hrole Hvalid Hparts single. unfold sanitizeMessage.
  rewrite Hrec, Hrole, Hvalid. cbn [negb].
  assert (Hfallback : fromFallbackText role raw =
    match get raw (lit "content") with
    | JStr content => single content
    | JUndefined | JNull =>
        match get raw (lit "text") with JStr text => single text | _ => None end
    | _ => None
    end).
  { unfold fromFallbackText, nullish.
    destruct (get raw (lit "content")); try reflexivity;
      destruct (get raw (lit "text")); reflexivity. }
  destruct (get raw (lit "parts")) as [| | | | |parts|]; try exact Hfallback.
  replace (List.filter (keepPart role) parts) with (@nil JsValue); [exact Hfallback|].
  induction Hparts as [|part parts Hpart _ IH]; [reflexivity|].
  cbn [List.filter]. now rewrite Hpart.
Qed.

Lemma legacy_text_fallback_witness :
  sanitizeMessage
    (JObj [(lit "role", JStr (lit "assistant"));
           (lit "parts", JArr [JObj [(lit "type", JStr (lit "tool-getTrades"))]]);
           (lit "content", JStr (lit " done "));
           (lit "text", JStr (lit "other"))])
  = Some (mkMessage (lit "assistant") [textPart (lit "done")]).
Proof.
  rewrite (legacy_text_fallback _ (lit "assistant")); try reflexivity.
  constructor; [reflexivity|constructor].
Defined.

(** X20: the sanitizer returns nothing exactly when no user message
    survives the per-message filter, and when the last surviving message
    is a user message it returns all surviving messages, in order. *)
Theorem sanitize_trailing_turns (raws : list JsValue) :
  (sanitizeMessagesForModel (JArr raws) = []
   <-> Forall (fun m => isUserMessage m = false) (omap sanitizeMessage raws))
  /\ (forall m, last (omap sanitizeMessage raws) = Some m ->
                isUserMessage m = true ->
                sanitizeMessagesForModel (JArr raws) = omap sanitizeMessage raws).
Proof.
  unfold sanitizeMessagesForModel.
  destruct (ChatRouteFacts.popTrailing_spec (length (omap sanitizeMessage raws))
              (omap sanitizeMessage raws) (Nat.le_refl _))
    as (dropped & Heq & Hall & Hend).
  set (out := popTrailing _ _) in *. split; [split|].
  - intros Hout. rewrite Heq, Hout. exact Hall.
  - intros Hnone. destruct Hend as [H | (m & Hlast & Hm)]; [exact H|].
    rewrite Heq in Hnone. apply Forall_app in Hnone as [Hnone _].
    apply last_Some in Hlast as (l' & Hl'). rewrite Hl' in Hnone.
    apply Forall_app in Hnone as [_ Hnone]. apply Forall_inv in Hnone.
    rewrite Hnone in Hm. discriminate.
  - intros m Hlast Hm. destruct dropped as [|d dropped _] using rev_ind.
    + now rewrite app_nil_r in Heq.
    + rewrite Heq, app_assoc, last_snoc in Hlast. injection Hlast as ->.
      apply Forall_app in Hall as [_ Hall]. apply Forall_inv in Hall.
      rewrite Hall in Hm. discriminate.
Qed.

End ChatRouteMore.

(** ** More on the [POST] handler *)

Module ChatPostMore.
Import Js ChatRoute.

Section PostMore.
Context (P : Secrets.Platform) (K : option jsstring).
Context (session : option jsstring) (db : AiSettings.Database).
Context {Messages Stream : Type}.
Context (convertToModelMessages : list JsValue -> Outcome Messages Exception).
Context (streamText : nat -> StreamTextArgs Messages -> Outcome Stream Exception).
Context (renderSystemPrompt : jsstring -> option jsstring -> jsstring -> Z -> jsstring).

(** The two ways through the handler: it fails before any call, or it
    reaches the [try]/[catch] around [streamText]. *)
Lemma POST_inv (reqJson : Outcome JsValue Exception) (now : Z) :
  let run :=
    POST P K session db convertToModelMessages streamText renderSystemPrompt reqJson now in
  (exists error,
      run = (errorResponse error, [])
      /\ (reqJson = Thrown error
          \/ (error = typeError
              /\ (reqJson = Returned JUndefined \/ reqJson = Returned JNull))
          \/ (exists body,
                reqJson = Returned body
                /\ convertToModelMessages
                     (sanitizeMessagesForModel (get body (lit "messages")))
                   = Thrown error)
          \/ (error = typeError
              /\ exists body converted,
                   reqJson = Returned body
                   /\ convertToModelMessages
                        (sanitizeMessagesForModel (get body (lit "messages")))
                      = Returned converted
                   /\ systemPromptOf renderSystemPrompt body now = None)))
  \/ (exists body converted system,
        reqJson = Returned body
        /\ convertToModelMessages (sanitizeMessagesForModel (get body (lit "messages")))
           = Returned converted
        /\ systemPromptOf renderSystemPrompt body now = Some system
        /\ run =
           match
             streamWithFallback streamText
               (UserModel.getPreferredModelForCurrentUser P K session db
                  {| UserModel.purpose := UserModel.chat;
                     UserModel.fallbackOpenAiModelId := lit "gpt-4o";
                     UserModel.requireTools := Some true |})
               converted system
           with
           | (Returned result, calls) => (StreamResponse result, calls)
           | (Thrown error, calls) => (errorResponse error, calls)
           end).
Proof.
  cbv zeta. destruct reqJson as [body|error]; [|left; exists error; auto].
  destruct (convertToModelMessages (sanitizeMessagesForModel (get body (lit "messages"))))
    as [converted|error] eqn:Hconv.
  - destruct (systemPromptOf renderSystemPrompt body now) as [system|] eqn:Hsystem.
    + destruct body; unfold POST; rewrite ?Hconv, ?Hsystem;
        first [ left; exists typeError; split; [reflexivity|right; left; solve [auto]]
              | right; eexists _, converted, system; repeat split;
                [exact Hconv|exact Hsystem] ].
    + destruct body; unfold POST; rewrite ?Hconv, ?Hsystem;
        first [ left; exists typeError; split; [reflexivity|right; left; solve [auto]]
              | left; exists typeError; split; [reflexivity|];
                right; right; right; split; [reflexivity|];
                eexists _, converted; repeat split; [exact Hconv|exact Hsystem] ].
  - destruct body; unfold POST; rewrite ?Hconv;
      first [ left; exists typeError; split; [reflexivity|right; left; solve [auto]]
            | left; exists error; split; [reflexivity|];
              right; right; left; eexists; split; [reflexivity|exact Hconv] ].
Qed.



(** X23: the chat handler never calls an Ollama model of the
    deepseek-r1 family, which cannot take tools: a call on an
    OpenAI-compatible handle is on the provider named [ollama] and its
    model id does not match [/deepseek-r1/i]. *)
Theorem post_never_calls_deepseek_r1 (reqJson : Outcome JsValue Exception) (now : Z) :
  Forall (fun call =>
            forall name baseURL apiKey modelId,
              arg_model call = UserModel.OpenAICompatibleModel name baseURL apiKey modelId ->
              name = lit "ollama" /\ UserModel.matchesDeepseekR1 modelId = false)
    (POST P K session db convertToModelMessages streamText renderSystemPrompt reqJson now).2.
Proof.
  assert (Hfirst : forall (messages : Messages) system name baseURL apiKey modelId,
    arg_model
      {| arg_model :=
           UserModel.getPreferredModelForCurrentUser P K session db
             {| UserModel.purpose := UserModel.chat;
                UserModel.fallbackOpenAiModelId := lit "gpt-4o";
                UserModel.requireTools := Some true |};
         arg_messages := messages; arg_system := system;
         arg_stepCountIs := 10; arg_tools := tools |}
    = UserModel.OpenAICompatibleModel name baseURL apiKey modelId ->
    name = lit "ollama" /\ UserModel.matchesDeepseekR1 modelId = false).
  { intros messages system name baseURL apiKey modelId H. cbn [arg_model] in H.
    destruct (UserModelMore.resolver_ollama_inv _ _ _ _ _ _ _ _ _ H)
      as (Hname & _ & u & rows & row & host & model & _ & _ & _ & _ & _ & _ & _ & _ & _ & _
          & Hr1).
    split; [exact Hname|]. now apply Hr1. }
  destruct (POST_inv reqJson now)
    as [(e & -> & _) | (body & conv & system & Hreq & Hconv & Hsystem & ->)].
  - constructor.
  - unfold streamWithFallback.
    destruct (streamText 0%nat _) as [r|e];
      [|destruct (isToolsUnsupportedError _); [destruct (streamText 1%nat _)|]];
      cbv beta iota zeta; cbn [snd];
      repeat (apply List.Forall_cons;
              [first [apply Hfirst | intros ? ? ? ? H; cbn [arg_model] in H; discriminate H]|]);
      constructor.
Qed.

End PostMore.

(** A body whose [locale] is an object with an own [toString] that is
    not a function: the prompt cannot be rendered, and the handler
    answers 500 without a call. *)
Example post_unrenderable_locale :
  POST Secrets.Example.platform None (Some (lit "user-1")) sampleOllamaDb
    Returned (sdkStreamText sampleProvider) samplePrompt
    (Returned (JObj [(lit "messages", get sampleBody (lit "messages"));
                     (lit "locale", JObj [(lit "toString", JNum 1)])])) 0
  = (JsonResponse 500 (JObj [(lit "error", JStr (lit "Failed to process chat"))]), []).
Proof. reflexivity. Qed.

End ChatPostMore.

(** ** The stored chat history *)

Module ChatHistoryFacts.
Import Js ChatHistory.

Lemma keep_iff_record (m : JsValue) :
  toBoolean m && typeofObject m = ChatRoute.isRecord m.
Proof. destruct m as [| |b|n|s|items|fields]; try reflexivity; simpl; apply andb_false_r. Qed.

Lemma coerceMessages_records (value : JsValue) :
  Forall (fun m => ChatRoute.isRecord m = true) (coerceMessages value).
Proof.
  destruct value as [| | | | |items|]; try constructor.
  apply Forall_forall. intros m [_ Hm]%list_elem_of_In%filter_In.
  now rewrite keep_iff_record in Hm.
Qed.

Lemma coerceMessages_idem (value : JsValue) :
  coerceMessages (JArr (coerceMessages value)) = coerceMessages value.
Proof.
  destruct value as [| | | | |items|]; try reflexivity.
  unfold coerceMessages. induction items as [|m items IH]; [reflexivity|].
  cbn [List.filter]. destruct (toBoolean m && typeofObject m) eqn:Hm; [|exact IH].
  cbn [List.filter]. rewrite Hm. f_equal. exact IH.
Qed.

Section HistoryFacts.
Context (jsonColumn : JsValue -> option JsValue).

(** X24: a history saved for a signed-in user is what that user loads
    next, whatever was stored before: the entries of the saved array that
    are objects, in order (other entries are dropped, and a value that is
    not an array is saved as the empty history). Other users' histories
    are not touched. *)
Theorem save_then_load (authUserId : jsstring) (rows : gmap (list N) JsValue)
    (messages : JsValue) :
  jsonColumn (JArr (coerceMessages messages)) = Some (JArr (coerceMessages messages)) ->
  let run :=
    saveChatHistoryAction (Some authUserId) jsonColumn messages (Histories rows) in
  run.1 = Success
  /\ getChatHistoryAction (Some authUserId) run.2 = coerceMessages messages
  /\ forall other,
       other <> authUserId ->
       getChatHistoryAction (Some other) run.2
       = getChatHistoryAction (Some other) (Histories rows).
Proof.
  intros Hcol. cbv zeta. unfold saveChatHistoryAction. rewrite Hcol. cbn [fst snd].
  split; [reflexivity|]. unfold getChatHistoryAction. split.
  - rewrite lookup_insert_eq. cbn [default from_option]. unfold id.
    apply coerceMessages_idem.
  - intros other Hother. now rewrite lookup_insert_ne.
Qed.

End HistoryFacts.

Lemma save_then_load_witness :
  getChatHistoryAction (Some (lit "user-1"))
    (saveChatHistoryAction (Some (lit "user-1")) plainColumn
       (JArr [JNull; ChatRoute.mkMessage (lit "user") [ChatRoute.textPart (lit "new")];
              JStr (lit "x")])
       sampleHistory).2
  = [ChatRoute.mkMessage (lit "user") [ChatRoute.textPart (lit "new")]].
Proof.
  exact (proj1 (proj2 (save_then_load plainColumn (lit "user-1") _
                         (JArr [JNull;
                                ChatRoute.mkMessage (lit "user") [ChatRoute.textPart (lit "new")];
                                JStr (lit "x")])
                         eq_refl))).
Defined.

Section HistoryFacts2.
Context (jsonColumn : JsValue -> option JsValue).
Context (session : option jsstring).

(** X25: after a reset the user's history loads as empty and no other
    user's history has changed; the reset succeeds exactly when there is
    a signed-in user and the database can be reached, and otherwise
    reports the fixed error and leaves the database as it was. *)
Theorem reset_then_load (db : HistoryDb) :
  let run := resetChatHistoryAction session db in
  getChatHistoryAction session run.2 = []
  /\ (forall authUserId other,
        session = Some authUserId -> other <> authUserId ->
        getChatHistoryAction (Some other) run.2 = getChatHistoryAction (Some other) db)
  /\ match run.1 with
     | Success => exists authUserId rows, session = Some authUserId /\ db = Histories rows
     | Failure error =>
         error = lit "Failed to reset chat history" /\ run.2 = db
         /\ (session = None \/ db = Unavailable)
     end.
Proof.
  cbv zeta. unfold resetChatHistoryAction, getChatHistoryAction.
  destruct session as [authUserId|]; [destruct db as [|rows]|]; cbn [fst snd].
  - repeat split; auto.
  - split; [now rewrite lookup_delete_eq|]. split; [|eauto].
    intros u other [= <-] Hother. now rewrite lookup_delete_ne.
  - repeat split; auto.
Qed.

(** X26: a save is all or nothing. When there is no signed-in user, the
    database cannot be reached or the column rejects the value, it
    reports the fixed error and leaves the database as it was; otherwise
    it succeeds, and the caller then loads the object entries of what the
    column kept. In both cases what another user loads is unchanged. *)
Theorem save_all_or_nothing (messages : JsValue) (db : HistoryDb) :
  let run := saveChatHistoryAction session jsonColumn messages db in
  (forall authUserId other,
      session = Some authUserId -> other <> authUserId ->
      getChatHistoryAction (Some other) run.2 = getChatHistoryAction (Some other) db)
  /\ match run.1 with
     | Success =>
         exists authUserId rows stored,
           session = Some authUserId /\ db = Histories rows
           /\ jsonColumn (JArr (coerceMessages messages)) = Some stored
           /\ getChatHistoryAction session run.2 = coerceMessages stored
     | Failure error =>
         error = lit "Failed to save chat history" /\ run.2 = db
         /\ (session = None \/ db = Unavailable
             \/ jsonColumn (JArr (coerceMessages messages)) = None)
     end.
Proof.
  cbv zeta. unfold saveChatHistoryAction.
  destruct session as [authUserId|]; [destruct db as [|rows]|]; cbn [fst snd];
    [split; [reflexivity|auto]| |split; [reflexivity|auto]].
  destruct (jsonColumn _) as [stored|] eqn:Hcol; cbn [fst snd];
    [|split; [reflexivity|auto 6]].
  split.
  - intros u other [= <-] Hother. unfold getChatHistoryAction.
    now rewrite lookup_insert_ne.
  - exists authUserId, rows, stored. repeat split; auto.
    unfold getChatHistoryAction. now rewrite lookup_insert_eq.
Qed.

(** X27: loading never throws and returns objects only, whatever the
    column holds: entries that are not objects are dropped, and a missing
    row, a column that is not an array, no signed-in user or an
    unreachable database give the empty history. *)
Theorem load_returns_objects (db : HistoryDb) :
  Forall (fun m => ChatRoute.isRecord m = true) (getChatHistoryAction session db)
  /\ (session = None \/ db = Unavailable
      \/ (exists authUserId rows,
            session = Some authUserId /\ db = Histories rows
            /\ match rows !! authUserId with
               | Some (JArr _) => False
               | _ => True
               end) ->
      getChatHistoryAction session db = []).
Proof.
  unfold getChatHistoryAction. split.
  - destruct session; [destruct db|]; try constructor. apply coerceMessages_records.
  - intros [-> | [-> | (u & rows & -> & -> & Hrow)]]; [reflexivity|now destruct session|].
    destruct (rows !! u) as [[]|]; try reflexivity. contradiction.
Qed.

End HistoryFacts2.

End ChatHistoryFacts.

(** ** The account analysis tool's summary helpers *)

Module AnalysisFacts.
Import Js Analysis JsStringFacts.

Lemma order_cases (key : jsstring) :
  (order key = 2%Z /\ key = lit "high")
  \/ (order key = 1%Z /\ key = lit "medium")
  \/ (order key = 0%Z /\ key = lit "low")
  \/ (order key = (-1)%Z
      /\ key <> lit "high" /\ key <> lit "medium" /\ key <> lit "low").
Proof.
  unfold order.
  destruct (str_eqb key (lit "low")) eqn:Hl;
    [apply str_eqb_eq in Hl; auto|].
  destruct (str_eqb key (lit "medium")) eqn:Hm;
    [apply str_eqb_eq in Hm; auto|].
  destruct (str_eqb key (lit "high")) eqn:Hh;
    [apply str_eqb_eq in Hh; auto|].
  right; right; right. repeat split; auto;
    intros ->; rewrite str_eqb_refl in *; discriminate.
Qed.

Lemma str_eqb_false (a b : jsstring) : str_eqb a b = false -> a <> b.
Proof. intros H ->. rewrite str_eqb_refl in H. discriminate H. Qed.

Lemma Exists_or_iff {A} (P Q : A -> Prop) (l : list A) :
  Exists (fun x => P x \/ Q x) l <-> Exists P l \/ Exists Q l.
Proof. split; [apply Exists_or_inv|apply Exists_or]. Qed.

Section RiskFacts.
Context {Num : Type} (toLowerCase : jsstring -> jsstring).

(** The loop of [calculatePortfolioRisk] computes the greatest order
    value met, starting from [start]. *)
Lemma risk_loop_spec (accounts : list (@Account Num)) (start k : Z) :
  (k <= fold_left (fun max a => let v := order (riskKey toLowerCase a) in
                                if (v >? max)%Z then v else max) accounts start
   <-> k <= start \/ Exists (fun a => k <= order (riskKey toLowerCase a)) accounts)%Z.
Proof.
  revert start. induction accounts as [|a accounts IH]; intros start; cbn [fold_left].
  - split; [auto|]. intros [H | H]; [exact H|]. inversion H.
  - rewrite IH, Exists_cons. cbv zeta.
    destruct (Z.gtb_spec (order (riskKey toLowerCase a)) start); intuition lia.
Qed.

(** X28: the portfolio risk is the highest level any account has, read
    without regard to letter case: [high] exactly when some account is
    high, [medium] exactly when none is high and some is medium, [low]
    exactly when none is high or medium and some is low, and [unknown]
    exactly when no account has one of the three levels (so also without
    accounts). *)
Theorem portfolio_risk_is_highest (accounts : option (list (@Account Num))) :
  let risk := calculatePortfolioRisk toLowerCase accounts in
  let some (level : jsstring) :=
    Exists (fun a => riskKey toLowerCase a = level) (default [] accounts) in
  (risk = lit "high" <-> some (lit "high"))
  /\ (risk = lit "medium" <-> ~ some (lit "high") /\ some (lit "medium"))
  /\ (risk = lit "low"
      <-> ~ some (lit "high") /\ ~ some (lit "medium") /\ some (lit "low"))
  /\ (risk = lit "unknown"
      <-> ~ some (lit "high") /\ ~ some (lit "medium") /\ ~ some (lit "low")).
Proof.
  cbv zeta.
  assert (Hnone : forall level, ~ Exists (fun a : @Account Num => riskKey toLowerCase a = level) []).
  { intros level H. inversion H. }
  destruct accounts as [[|a0 accounts]|]; cbn [default from_option]; unfold id;
    try (repeat split; try discriminate; try (intros H; now apply Hnone in H);
         try (intros (_ & H); now apply Hnone in H);
         try (intros (_ & _ & H); now apply Hnone in H); auto; fail).
  unfold calculatePortfolioRisk.
  set (l := a0 :: accounts).
  set (m := fold_left _ l (-1)%Z).
  assert (Hge : forall k, (k <= m <-> k <= -1
                           \/ Exists (fun a => k <= order (riskKey toLowerCase a)) l)%Z)
    by (intros k; apply risk_loop_spec).
  assert (Hlevel : forall k level,
    (0 <= k <= 2)%Z ->
    (forall key, (k <= order key)%Z <-> level key) ->
    ((k <= m)%Z <-> Exists (fun a => level (riskKey toLowerCase a)) l)).
  { intros k level Hk Hkey. rewrite Hge. split.
    - intros [H | H]; [lia|]. eapply Exists_impl; [exact H|]. intros a. apply Hkey.
    - intros H. right. eapply Exists_impl; [exact H|]. intros a. apply Hkey. }
  assert (H2 : (2 <= m)%Z <-> Exists (fun a => riskKey toLowerCase a = lit "high") l).
  { apply (Hlevel 2%Z (fun key => key = lit "high")); [lia|]. intros key.
    destruct (order_cases key) as [[-> ->] | [[-> ->] | [[-> ->] | (-> & ? & ? & ?)]]];
      split; try lia; try discriminate; try contradiction; auto. }
  assert (H1 : (1 <= m)%Z
               <-> Exists (fun a => riskKey toLowerCase a = lit "high"
                                    \/ riskKey toLowerCase a = lit "medium") l).
  { apply (Hlevel 1%Z (fun key => key = lit "high" \/ key = lit "medium")); [lia|].
    intros key.
    destruct (order_cases key) as [[-> ->] | [[-> ->] | [[-> ->] | (-> & ? & ? & ?)]]];
      split; try lia; auto; intros [Hk | Hk]; try discriminate Hk; contradiction. }
  assert (H0 : (0 <= m)%Z
               <-> Exists (fun a => riskKey toLowerCase a = lit "high"
                                    \/ riskKey toLowerCase a = lit "medium"
                                    \/ riskKey toLowerCase a = lit "low") l).
  { apply (Hlevel 0%Z (fun key => key = lit "high" \/ key = lit "medium"
                                  \/ key = lit "low")); [lia|].
    intros key.
    destruct (order_cases key) as [[-> ->] | [[-> ->] | [[-> ->] | (-> & ? & ? & ?)]]];
      split; try lia; auto; intros [Hk | [Hk | Hk]]; try discriminate Hk; contradiction. }
  assert (Hle : (m <= 2)%Z).
  { destruct (Z.le_gt_cases 3 m) as [H3 | H3]; [|lia].
    apply Hge in H3 as [H3 | H3]; [lia|]. apply Exists_exists in H3 as (a & _ & H3).
    destruct (order_cases (riskKey toLowerCase a)) as [[E _] | [[E _] | [[E _] | [E _]]]];
      lia. }
  rewrite Exists_or_iff in H1. do 2 rewrite Exists_or_iff in H0.
  assert (Hm : (m = 2 \/ m = 1 \/ m = 0 \/ m = -1)%Z).
  { assert ((-1 <= m)%Z) by (apply Hge; left; lia). lia. }
  clear Hge Hlevel Hnone. clearbody m.
  set (high := Exists _ l) in *. set (medium := Exists _ l) in *.
  set (low := Exists _ l) in *. clearbody high medium low.
  destruct Hm as [-> | [-> | [-> | ->]]]; cbn [Z.eqb Pos.eqb];
    repeat match goal with
           | H : (?a <= ?b)%Z <-> ?Q |- _ =>
               first [ assert Q by (apply H; lia)
                     | assert (~ Q) by (intros HQ; apply H in HQ; lia) ];
               clear H
           end;
    (split; [|split; [|split]]);
    (split;
     [ intros E; first [ exfalso; revert E; apply str_eqb_false; reflexivity | tauto ]
     | intros HQ; first [ reflexivity | exfalso; tauto ] ]).
Qed.

End RiskFacts.

Section BestWorstFacts.
Context {Num : Type} (gt lt : Num -> Num -> bool).
(** The comparisons of numbers none of which is [NaN]: [>] is a strict
    weak order and [<] is its converse. *)
Hypothesis gt_asym : forall x y, gt x y = true -> gt y x = false.
Hypothesis gt_cotrans : forall x y z, gt x y = true -> gt x z = true \/ gt z y = true.
Hypothesis lt_gt : forall x y, lt x y = gt y x.

Lemma gt_irrefl (x : Num) : gt x x = false.
Proof. destruct (gt x x) eqn:E; [|reflexivity]. now rewrite (gt_asym x x E) in E. Qed.

Lemma best_worst_loop (rest seen : list (@Account Num)) (best worst : @Account Num) :
  extremes gt lt seen best worst ->
  exists best' worst',
    fold_left (fun '(best, worst) a =>
                 (if gt (netPnL a) (netPnL best) then a else best,
                  if lt (netPnL a) (netPnL worst) then a else worst))
              rest (best, worst)
    = (best', worst')
    /\ extremes gt lt (seen ++ rest) best' worst'.
Proof.
  revert seen best worst. induction rest as [|x rest IH]; intros seen best worst Hinv.
  - exists best, worst. now rewrite app_nil_r.
  - cbn [fold_left].
    destruct (IH (seen ++ [x])
                (if gt (netPnL x) (netPnL best) then x else best)
                (if lt (netPnL x) (netPnL worst) then x else worst))
      as (best' & worst' & Heq & Hinv').
    + destruct Hinv as (Hb & Hw & Hall). repeat split.
      * apply in_or_app. destruct (gt _ _); [right; now left|now left].
      * apply in_or_app. destruct (lt _ _); [right; now left|now left].
      * apply in_app_or in H as [Ha | [<- | []]].
        -- destruct (Hall a Ha) as [Hgt _].
           destruct (gt (netPnL x) (netPnL best)) eqn:Hx; [|exact Hgt].
           destruct (gt (netPnL a) (netPnL x)) eqn:Hax; [|reflexivity].
           destruct (gt_cotrans _ _ (netPnL best) Hax) as [H' | H'];
             [congruence|]. rewrite (gt_asym _ _ Hx) in H'. discriminate H'.
        -- destruct (gt (netPnL x) (netPnL best)) eqn:Hx; [apply gt_irrefl|exact Hx].
      * apply in_app_or in H as [Ha | [<- | []]].
        -- destruct (Hall a Ha) as [_ Hlt]. rewrite !lt_gt. rewrite lt_gt in Hlt.
           destruct (gt (netPnL worst) (netPnL x)) eqn:Hx; [|exact Hlt].
           destruct (gt (netPnL x) (netPnL a)) eqn:Hxa; [|reflexivity].
           destruct (gt_cotrans _ _ (netPnL a) Hx) as [H' | H']; [congruence|].
           rewrite (gt_asym _ _ Hxa) in H'. discriminate H'.
        -- rewrite !lt_gt.
           destruct (gt (netPnL worst) (netPnL x)) eqn:Hx; [apply gt_irrefl|exact Hx].
    + exists best', worst'. split; [exact Heq|]. now rewrite <- app_assoc in Hinv'.
Qed.

(** X29: when no result is [NaN], the best and the worst account named
    are accounts of the list, no account has a net result above the
    best's and none has one below the worst's. *)
Theorem best_worst_are_extremes (accounts : list (@Account Num)) :
  accounts <> [] ->
  exists best worst,
    getBestWorstAccountNumbers gt lt (Some accounts)
    = (accountNumber best, accountNumber worst)
    /\ In best accounts /\ In worst accounts
    /\ forall a, In a accounts ->
                 gt (netPnL a) (netPnL best) = false
                 /\ lt (netPnL a) (netPnL worst) = false.
Proof.
  destruct accounts as [|first rest]; [contradiction|]. intros _.
  destruct (best_worst_loop (first :: rest) [first] first first)
    as (best & worst & Heq & Hb & Hw & Hall).
  { repeat split; try (now left); destruct H as [<- | []];
      [apply gt_irrefl|rewrite lt_gt; apply gt_irrefl]. }
  exists best, worst. unfold getBestWorstAccountNumbers. rewrite Heq.
  split; [reflexivity|]. repeat split.
  - destruct Hb as [<- | Hb]; [now left|exact Hb].
  - destruct Hw as [<- | Hw]; [now left|exact Hw].
  - apply Hall. now right.
  - apply Hall. now right.
Qed.

End BestWorstFacts.

Lemma best_worst_are_extremes_witness :
  exists best worst,
    getBestWorstAccountNumbers Z.gtb Z.ltb (Some sampleAccounts)
    = (accountNumber best, accountNumber worst)
    /\ In best sampleAccounts /\ In worst sampleAccounts
    /\ forall a, In a sampleAccounts ->
                 (netPnL a >? netPnL best)%Z = false
                 /\ (netPnL a <? netPnL worst)%Z = false.
Proof.
  apply (best_worst_are_extremes Z.gtb Z.ltb).
  - intros x y. rewrite Z.gtb_ltb. rewrite Z.gtb_ltb. lia.
  - intros x y z. rewrite !Z.gtb_ltb. lia.
  - intros x y. now rewrite Z.gtb_ltb.
  - discriminate.
Defined.

End AnalysisFacts.

(** ** The cron worker's schedule *)

Module CronWorkerFacts.
Import CronWorker.

Lemma gates (t : Z) :
  validTime t = true ->
  remIs (getUTCMinutes t) 10 0 = (((t / 60000) mod 10) =? 0)%Z
  /\ numIs (getUTCHours t) 9 && numIs (getUTCMinutes t) 0
     = (((t / 60000) mod 1440) =? 540)%Z
  /\ numIs (getUTCDay t) 1 && numIs (getUTCHours t) 5 && numIs (getUTCMinutes t) 0
     = (((t / 60000) mod 10080) =? 6060)%Z.
Proof.
  intros Hvalid. unfold getUTCMinutes, getUTCHours, getUTCDay. rewrite Hvalid.
  cbn [remIs numIs].
  replace (t / 3600000)%Z with (t / 60000 / 60)%Z
    by (rewrite Z.div_div by lia; reflexivity).
  replace (t / 86400000)%Z with (t / 60000 / 1440)%Z
    by (rewrite Z.div_div by lia; reflexivity).
  generalize (t / 60000)%Z. intros m.
  rewrite Z.rem_mod_nonneg by (try lia; apply Z.mod_pos_bound; lia).
  repeat split.
  - destruct (Z.eqb_spec ((m mod 60) mod 10) 0), (Z.eqb_spec (m mod 10) 0);
      try reflexivity; exfalso; Z.to_euclidean_division_equations; lia.
  - destruct (Z.eqb_spec ((m / 60) mod 24) 9), (Z.eqb_spec (m mod 60) 0),
      (Z.eqb_spec (m mod 1440) 540);
      try reflexivity; exfalso; Z.to_euclidean_division_equations; lia.
  - destruct (Z.eqb_spec ((m / 1440 + 4) mod 7) 1), (Z.eqb_spec ((m / 60) mod 24) 5),
      (Z.eqb_spec (m mod 60) 0), (Z.eqb_spec (m mod 10080) 6060);
      try reflexivity; exfalso; Z.to_euclidean_division_equations; lia.
Qed.

(** X30: the worker's schedule. With a base URL configured and a valid
    time, a tick starts the token renewal in every tenth minute, the
    renewal notice in the minute of 09:00 UTC of every day and the two
    investing updates in the minute of 05:00 UTC of every Monday, each
    on the URL made of the base URL without one trailing slash followed
    by the task's path, with the bearer header exactly when
    [CRON_SECRET] is set; it never starts more than three requests, and
    without a base URL or with an invalid time it starts none. *)
Theorem scheduled_tasks (t : Z) (env : Env) :
  let base := default [] (stripTrailingSlash <$> VERCEL_BASE_URL env) in
  scheduled t env =
    (if truthy base && validTime t
     then (fun '(name, path) =>
             {| name := name; url := base ++ path; headers := requestHeaders env |})
          <$> tasksAt (t / 60000)
     else [])
  /\ (length (scheduled t env) <= 3)%nat.
Proof.
  cbv zeta. unfold scheduled.
  destruct (VERCEL_BASE_URL env) as [raw|];
    cbn [fmap option_fmap option_map default from_option]; unfold id;
    [|split; [reflexivity|simpl; lia]].
  destruct (truthy (stripTrailingSlash raw)); cbn [negb andb];
    [|split; [reflexivity|simpl; lia]].
  destruct (validTime t) eqn:Hvalid.
  - destruct (gates t Hvalid) as (-> & -> & ->). fold (tasksAt (t / 60000)).
    split; [reflexivity|]. rewrite length_fmap. unfold tasksAt.
    destruct (Z.eqb_spec ((t / 60000) mod 10) 0), (Z.eqb_spec ((t / 60000) mod 1440) 540),
      (Z.eqb_spec ((t / 60000) mod 10080) 6060); cbn [length app]; try lia.
    exfalso. Z.to_euclidean_division_equations. lia.
  - unfold getUTCMinutes, getUTCHours, getUTCDay. rewrite Hvalid.
    split; [reflexivity|simpl; lia].
Qed.

End CronWorkerFacts.
